(** * The pandas column adapter of [polars_api_compat]

    A shallow embedding of [polars_api_compat/pandas/column_object.py]:
    the class [Series] wraps one native pandas Series and maps the
    standard column operations onto pandas calls.

    Layout of the development:
    - slots, dtypes and native values (what a pandas Series holds);
    - the store of native objects, with object identity and shared
      buffers, and the state-and-error monad the adapter runs in;
    - the pandas calls the adapter makes, as pure functions on native
      values ([Module Pandas]) lifted to the store ([Module pd]);
    - the class [Series], method by method ([Module column_object]);
    - the properties of the adapter. *)

From stdpp Require Import gmap list strings sorting.
From Stdlib Require Import ZArith Lia SpecFloat.

Set Default Proof Using "Type".

(** ** Errors and results *)

(** The exception classes the adapter and the backend raise.
    [ReferenceError] is the model's own: a wrapper whose native object is
    not in the store (it cannot happen in Python, where a reference keeps
    its object alive). *)
Inductive error :=
  | NotImplementedError
  | AssertionError
  | AttributeError
  | ValueError
  | TypeError
  | IndexError
  | OverflowError
  | UnsupportedDTypeError
  | ReferenceError.

Inductive result (A : Type) :=
  | Ok (a : A)
  | Raise (e : error).
Arguments Ok {A} a.
Arguments Raise {A} e.

Definition result_bind {A B} (r : result A) (k : A → result B) : result B :=
  match r with
  | Ok a => k a
  | Raise e => Raise e
  end.

Fixpoint result_mapM {A B} (f : A → result B) (l : list A) : result (list B) :=
  match l with
  | [] => Ok []
  | x :: l' =>
      result_bind (f x) (λ y, result_bind (result_mapM f l') (λ ys, Ok (y :: ys)))
  end.

(** ** Slots and dtypes *)

(** One slot of a column.  [NA] is the missing marker of the nullable
    (masked) dtypes, [NaN] the floating not-a-number, [NaT] the missing
    marker of datetimes and timedeltas.  A number is kept by its integer
    value: the slot of an integer column, an integral float, or the
    nanosecond count of a datetime or of a timedelta. *)
Inductive cell :=
  | NA
  | NaN
  | NaT
  | Num (z : Z)
  | Bool (b : bool).

Global Instance cell_eq_dec : EqDecision cell.
Proof. solve_decision. Defined.

Inductive width := W8 | W16 | W32 | W64.

Global Instance width_eq_dec : EqDecision width.
Proof. solve_decision. Defined.

(** The native dtypes: numpy's plain ones, pandas' nullable ones (capital
    initial, as pandas spells them), datetimes with an optional time zone
    and timedeltas, both at nanosecond resolution. *)
Inductive dtype :=
  | int (w : width)
  | uint (w : width)
  | float32
  | float64
  | bool_
  | Int (w : width)
  | UInt (w : width)
  | Float32
  | Float64
  | boolean
  | datetime64 (tz : option string)
  | timedelta64.

Global Instance dtype_eq_dec : EqDecision dtype.
Proof. solve_decision. Defined.

(** The nullable dtypes keep a validity mask next to the data: missing is
    [NA], and a [NaN] in the data is an ordinary value. *)
Definition is_masked (d : dtype) : bool :=
  match d with
  | Int _ | UInt _ | Float32 | Float64 | boolean => true
  | _ => false
  end.

(** [pandas.api.types.is_extension_array_dtype]: the masked dtypes and the
    time-zone-aware datetimes are extension dtypes, numpy's are not. *)
Definition is_extension_array_dtype (d : dtype) : bool :=
  match d with
  | Int _ | UInt _ | Float32 | Float64 | boolean => true
  | datetime64 (Some _) => true
  | _ => false
  end.

Definition is_float (d : dtype) : bool :=
  match d with
  | float32 | float64 | Float32 | Float64 => true
  | _ => false
  end.

Definition width_name (w : width) : string :=
  match w with W8 => "8" | W16 => "16" | W32 => "32" | W64 => "64" end.

(** [dtype.name] *)
Definition dtype_name (d : dtype) : string :=
  match d with
  | int w => "int" +:+ width_name w
  | uint w => "uint" +:+ width_name w
  | float32 => "float32"
  | float64 => "float64"
  | bool_ => "bool"
  | Int w => "Int" +:+ width_name w
  | UInt w => "UInt" +:+ width_name w
  | Float32 => "Float32"
  | Float64 => "Float64"
  | boolean => "boolean"
  | datetime64 None => "datetime64[ns]"
  | datetime64 (Some tz) => "datetime64[ns, " +:+ tz +:+ "]"
  | timedelta64 => "timedelta64[ns]"
  end.

(** Which slots a column of a given dtype can hold. *)
Definition fits (d : dtype) (c : cell) : bool :=
  match d, c with
  | (int _ | uint _), Num _ => true
  | (float32 | float64), (Num _ | NaN) => true
  | bool_, Bool _ => true
  | (Int _ | UInt _), (Num _ | NA) => true
  | (Float32 | Float64), (Num _ | NaN | NA) => true
  | boolean, (Bool _ | NA) => true
  | (datetime64 _ | timedelta64), (Num _ | NaT) => true
  | _, _ => false
  end.

(** ** Native values *)

(** What a pandas Series is, read as a value: its slots, its index labels,
    its name (any hashable, or [None]) and its dtype. *)
Record PdSeries := mkPdSeries {
  pd_values : list cell;
  pd_index : list Z;
  pd_name : option string;
  pd_dtype : dtype;
}.

Definition well_typed (v : PdSeries) : Prop :=
  Forall (λ c, fits (pd_dtype v) c = true) (pd_values v).

(** ** The store of native objects *)

Definition loc := nat.

(** A pandas Series object points to a data buffer; [rename(copy=False)]
    makes a second object over the same buffer, [copy()] a new buffer. *)
Record PdObject := mkPdObject {
  obj_buf : loc;
  obj_index : list Z;
  obj_name : option string;
}.

Record PdBuffer := mkPdBuffer {
  buf_dtype : dtype;
  buf_cells : list cell;
}.

Record store := mkStore {
  objs : gmap loc PdObject;
  bufs : gmap loc PdBuffer;
}.

Definition empty_store : store := mkStore ∅ ∅.

(** The native value an object denotes in a store. *)
Definition view (σ : store) (l : loc) : option PdSeries :=
  match objs σ !! l with
  | Some o =>
      match bufs σ !! obj_buf o with
      | Some b => Some (mkPdSeries (buf_cells b) (obj_index o) (obj_name o) (buf_dtype b))
      | None => None
      end
  | None => None
  end.

(** The later store keeps every object and every buffer of the earlier
    one as it was. *)
Definition extends (σ σ' : store) : Prop :=
  objs σ ⊆ objs σ' ∧ bufs σ ⊆ bufs σ'.

(** ** The monad of the adapter: state and exceptions *)

Definition M (A : Type) : Type := store → store * result A.

Definition ret {A} (a : A) : M A := λ σ, (σ, Ok a).
Definition raise {A} (e : error) : M A := λ σ, (σ, Raise e).
Definition bind {A B} (m : M A) (k : A → M B) : M B :=
  λ σ, match m σ with
       | (σ', Ok a) => k a σ'
       | (σ', Raise e) => (σ', Raise e)
       end.
Definition lift {A} (r : result A) : M A := λ σ, (σ, r).

Notation "'let*' x ':=' m 'in' k" := (bind m (λ x, k))
  (at level 10, x pattern, m at level 100, k at level 200).

(** *** Primitive accesses to the store *)

Definition load (l : loc) : M PdSeries :=
  λ σ, match view σ l with
       | Some v => (σ, Ok v)
       | None => (σ, Raise ReferenceError)
       end.

Definition alloc_buf (b : PdBuffer) : M loc :=
  λ σ, let k := fresh (dom (bufs σ)) in
       (mkStore (objs σ) (<[k := b]> (bufs σ)), Ok k).

Definition alloc_obj (o : PdObject) : M loc :=
  λ σ, let l := fresh (dom (objs σ)) in
       (mkStore (<[l := o]> (objs σ)) (bufs σ), Ok l).

(** A new Series object over a new buffer. *)
Definition new_series (v : PdSeries) : M loc :=
  let* k := alloc_buf (mkPdBuffer (pd_dtype v) (pd_values v)) in
  alloc_obj (mkPdObject k (pd_index v) (pd_name v)).

(** A new Series object over the buffer of an existing one, under another
    name. *)
Definition share (l : loc) (name : option string) : M loc :=
  λ σ, match objs σ !! l with
       | Some o => alloc_obj (mkPdObject (obj_buf o) (obj_index o) name) σ
       | None => (σ, Raise ReferenceError)
       end.

(** Assignment to the [index] attribute of an object; pandas refuses an
    index of another length. *)
Definition set_index (l : loc) (idx : list Z) : M unit :=
  λ σ, match objs σ !! l, view σ l with
       | Some o, Some v =>
           if decide (length idx = length (pd_values v)) then
             (mkStore (<[l := mkPdObject (obj_buf o) idx (obj_name o)]> (objs σ)) (bufs σ),
              Ok ())
           else (σ, Raise ValueError)
       | _, _ => (σ, Raise ReferenceError)
       end.

(** Writing the slots of the buffer of an object in place. *)
Definition write_cells (l : loc) (f : PdSeries → result (list cell)) : M unit :=
  λ σ, match objs σ !! l, view σ l with
       | Some o, Some v =>
           match f v with
           | Ok cs =>
               (mkStore (objs σ) (<[obj_buf o := mkPdBuffer (pd_dtype v) cs]> (bufs σ)),
                Ok ())
           | Raise e => (σ, Raise e)
           end
       | _, _ => (σ, Raise ReferenceError)
       end.

(** ** The pandas calls of the adapter, on native values *)

Module Pandas.

(** The right-hand side of a pandas operator or the argument of a pandas
    method: a scalar or another native Series. *)
Inductive arg :=
  | Scalar (c : cell)
  | Column (w : PdSeries).

Definition is_missing (c : cell) : bool :=
  match c with
  | NA | NaN | NaT => true
  | _ => false
  end.

(** The missing marker a dtype stores. *)
Definition na_value (d : dtype) : cell :=
  if is_masked d then NA
  else match d with
       | datetime64 _ | timedelta64 => NaT
       | _ => NaN
       end.

(** Storing a value into a buffer of dtype [d]: a missing value of any
    spelling is stored as the dtype's own marker (a [NaN] assigned into a
    nullable column sets the mask; [pd.NA] assigned into a float column
    is stored as [NaN]). *)
Definition coerce (d : dtype) (c : cell) : cell :=
  if is_missing c then na_value d else c.

(** The argument laid out slot by slot against a column of [n] slots.
    The adapter passes a Series only after comparand validation, so the
    two have the same index; label alignment of unequal indexes is not
    reached, and an operand of another length is refused. *)
Definition broadcast (n : nat) (a : arg) : result (list cell) :=
  match a with
  | Scalar c => Ok (replicate n c)
  | Column w =>
      if decide (length (pd_values w) = n) then Ok (pd_values w)
      else Raise ValueError
  end.

(** The name of the result of a binary operator: the common name of the
    two Series, [None] when they differ; the Series' name against a
    scalar. *)
Definition result_name (v : PdSeries) (a : arg) : option string :=
  match a with
  | Scalar _ => pd_name v
  | Column w => if decide (pd_name v = pd_name w) then pd_name v else None
  end.

Definition arg_masked (a : arg) : bool :=
  match a with
  | Scalar _ => false
  | Column w => is_masked (pd_dtype w)
  end.

Definition elementwise (f : cell → cell → result cell) (d : dtype)
    (v : PdSeries) (a : arg) : result PdSeries :=
  result_bind (broadcast (length (pd_values v)) a) (λ ws,
  result_bind (result_mapM (λ p, f p.1 p.2) (zip (pd_values v) ws)) (λ cs,
  Ok (mkPdSeries cs (pd_index v) (result_name v a) d))).

Definition map_cells (f : cell → result cell) (d : dtype) (v : PdSeries)
    : result PdSeries :=
  result_bind (result_mapM f (pd_values v)) (λ cs,
  Ok (mkPdSeries cs (pd_index v) (pd_name v) d)).

(** *** Comparisons *)

Inductive cmp := EQ | NE | GE | GT | LE | LT.

Definition cmp_Z (op : cmp) (x y : Z) : bool :=
  match op with
  | EQ => (x =? y)%Z
  | NE => negb (x =? y)%Z
  | GE => (y <=? x)%Z
  | GT => (y <? x)%Z
  | LE => (x <=? y)%Z
  | LT => (x <? y)%Z
  end.

(** A number or a boolean read as a number, as numpy compares and adds
    them. *)
Definition numeric (c : cell) : option Z :=
  match c with
  | Num z => Some z
  | Bool b => Some (Z.b2z b)
  | _ => None
  end.

(** [NA] makes the comparison [NA]; [NaN] and [NaT] are unequal to
    everything, themselves included, and unordered. *)
Definition cell_cmp (op : cmp) (a b : cell) : cell :=
  match a, b with
  | NA, _ | _, NA => NA
  | _, _ =>
      match numeric a, numeric b with
      | Some x, Some y => Bool (cmp_Z op x y)
      | _, _ => Bool (match op with NE => true | _ => false end)
      end
  end.

(** A comparison returns a nullable [boolean] column when an operand is
    masked, a plain [bool] column otherwise. *)
Definition cmp_dtype (v : PdSeries) (a : arg) : dtype :=
  if is_masked (pd_dtype v) || arg_masked a then boolean else bool_.

Definition compare (op : cmp) (v : PdSeries) (a : arg) : result PdSeries :=
  elementwise (λ x y, Ok (cell_cmp op x y)) (cmp_dtype v a) v a.

(** *** Arithmetic: [+], [-], [*] *)

Definition bits (w : width) : Z :=
  match w with W8 => 8 | W16 => 16 | W32 => 32 | W64 => 64 end.

(** numpy wraps integers silently at the width of their dtype: two's
    complement for the signed ones, modulo for the unsigned ones. *)
Definition wrap_signed (n z : Z) : Z := ((z + 2 ^ (n - 1)) mod 2 ^ n - 2 ^ (n - 1))%Z.
Definition wrap_unsigned (n z : Z) : Z := (z mod 2 ^ n)%Z.
Definition wrap64 (z : Z) : Z := wrap_signed 64 z.

(** Datetimes and timedeltas are 64-bit counts; a float is kept by its
    integer value, without rounding. *)
Definition wrap (d : dtype) (z : Z) : Z :=
  match d with
  | int w | Int w => wrap_signed (bits w) z
  | uint w | UInt w => wrap_unsigned (bits w) z
  | datetime64 _ | timedelta64 => wrap_signed 64 z
  | float32 | float64 | Float32 | Float64 | bool_ | boolean => z
  end.

Inductive arith := ADD | SUB | MUL.

Definition arith_Z (d : dtype) (op : arith) (x y : Z) : Z :=
  match op with
  | ADD => wrap d (x + y)
  | SUB => wrap d (x - y)
  | MUL => wrap d (x * y)
  end.

(** One slot of a result of dtype [d].  Between two booleans [+] is "or",
    [*] is "and", and numpy refuses [-]; a missing operand makes the
    result missing. *)
Definition cell_arith (d : dtype) (op : arith) (a b : cell) : result cell :=
  match a, b with
  | Bool x, Bool y =>
      match op with
      | ADD => Ok (Bool (x || y))
      | MUL => Ok (Bool (x && y))
      | SUB => Raise TypeError
      end
  | NA, _ | _, NA => Ok NA
  | NaT, _ | _, NaT => Ok NaT
  | NaN, _ | _, NaN => Ok NaN
  | _, _ =>
      match numeric a, numeric b with
      | Some x, Some y => Ok (Num (arith_Z d op x y))
      | _, _ => Raise TypeError
      end
  end.

(** **** The dtype of the result *)

(** A dtype without its mask. *)
Inductive family :=
  | f_bool
  | f_uint (w : width)
  | f_int (w : width)
  | f_float32
  | f_float64
  | f_datetime (tz : option string)
  | f_timedelta.

Definition family_of (d : dtype) : family :=
  match d with
  | bool_ | boolean => f_bool
  | uint w | UInt w => f_uint w
  | int w | Int w => f_int w
  | float32 | Float32 => f_float32
  | float64 | Float64 => f_float64
  | datetime64 tz => f_datetime tz
  | timedelta64 => f_timedelta
  end.

Definition dtype_in (masked : bool) (f : family) : dtype :=
  match f with
  | f_bool => if masked then boolean else bool_
  | f_uint w => if masked then UInt w else uint w
  | f_int w => if masked then Int w else int w
  | f_float32 => if masked then Float32 else float32
  | f_float64 => if masked then Float64 else float64
  | f_datetime tz => datetime64 tz
  | f_timedelta => timedelta64
  end.

Definition wider (a b : width) : width := if (bits a <? bits b)%Z then b else a.

Definition next_width (w : width) : option width :=
  match w with
  | W8 => Some W16
  | W16 => Some W32
  | W32 => Some W64
  | W64 => None
  end.

(** [np.promote_types] on the numeric families: an unsigned and a signed
    integer meet at a signed integer that holds both, or at [float64]
    when there is none. *)
Definition promote_types (a b : family) : result family :=
  match a, b with
  | (f_datetime _ | f_timedelta), _ | _, (f_datetime _ | f_timedelta) => Raise TypeError
  | f_bool, x | x, f_bool => Ok x
  | f_float64, _ | _, f_float64 => Ok f_float64
  | f_float32, f_float32 => Ok f_float32
  | f_float32, (f_uint w | f_int w) | (f_uint w | f_int w), f_float32 =>
      Ok (if (bits w <=? 16)%Z then f_float32 else f_float64)
  | f_uint x, f_uint y => Ok (f_uint (wider x y))
  | f_int x, f_int y => Ok (f_int (wider x y))
  | f_uint u, f_int i | f_int i, f_uint u =>
      Ok (if (bits u <? bits i)%Z then f_int i
          else match next_width u with
               | Some w => f_int w
               | None => f_float64
               end)
  end.

(** Datetimes and timedeltas: what may be added to, subtracted from and
    multiplied with what. *)
Definition column_family (op : arith) (a b : family) : result family :=
  match op, a, b with
  | SUB, f_datetime _, f_datetime _ => Ok f_timedelta
  | (ADD | SUB), f_datetime tz, f_timedelta => Ok (f_datetime tz)
  | ADD, f_timedelta, f_datetime tz => Ok (f_datetime tz)
  | (ADD | SUB), f_timedelta, f_timedelta => Ok f_timedelta
  | MUL, f_timedelta, (f_uint _ | f_int _ | f_float32 | f_float64) => Ok f_timedelta
  | MUL, (f_uint _ | f_int _ | f_float32 | f_float64), f_timedelta => Ok f_timedelta
  | _, _, _ => promote_types a b
  end.

(** How numpy types a Python integer next to an array: by its value
    before numpy 2, as the dtype of the array since (NEP 50). *)
Inductive numpy := legacy | nep50.

Definition widths_from (w : width) : list width :=
  match w with
  | W8 => [W8; W16; W32; W64]
  | W16 => [W16; W32; W64]
  | W32 => [W32; W64]
  | W64 => [W64]
  end.

Definition fits_signed (w : width) (k : Z) : bool :=
  ((- 2 ^ (bits w - 1) <=? k) && (k <? 2 ^ (bits w - 1)))%Z.

Definition fits_unsigned (w : width) (k : Z) : bool :=
  ((0 <=? k) && (k <? 2 ^ bits w))%Z.

(** The family of [array OP k], [k] a Python integer.  Before numpy 2 the
    result is the narrowest integer family, no narrower than the array's,
    that holds the array's values and [k]: a negative [k] moves an unsigned
    array to a wider signed family, and [uint64] to [float64].  Since
    numpy 2 the array's family is kept and a [k] outside it is an
    [OverflowError]. *)
Definition with_int (np : numpy) (op : arith) (f : family) (k : Z) : result family :=
  match f with
  | f_bool => Ok (f_int W64)
  | f_int w =>
      match np with
      | nep50 => if fits_signed w k then Ok f else Raise OverflowError
      | legacy =>
          match List.find (λ w', fits_signed w' k) (widths_from w) with
          | Some w' => Ok (f_int w')
          | None => if fits_unsigned W64 k then Ok f_float64 else Raise OverflowError
          end
      end
  | f_uint w =>
      match np with
      | nep50 => if fits_unsigned w k then Ok f else Raise OverflowError
      | legacy =>
          if (0 <=? k)%Z then
            match List.find (λ w', fits_unsigned w' k) (widths_from w) with
            | Some w' => Ok (f_uint w')
            | None => Raise OverflowError
            end
          else
            match List.find (λ w', (bits w <? bits w')%Z && fits_signed w' k)
                    (widths_from w) with
            | Some w' => Ok (f_int w')
            | None => if fits_signed W64 k then Ok f_float64 else Raise OverflowError
            end
      end
  | f_float32 | f_float64 => Ok f
  | f_timedelta =>
      match op with
      | MUL => Ok f_timedelta
      | _ => Raise TypeError
      end
  | f_datetime _ => Raise TypeError
  end.

(** A scalar operand is a Python value: a number is an [int], [NaN] a
    [float], a boolean a [bool], which changes no family. *)
Definition arith_family (np : numpy) (op : arith) (f : family) (a : arg)
    : result family :=
  match a with
  | Scalar (Num k) => with_int np op f k
  | Scalar (Bool _) => Ok f
  | Scalar NaN =>
      Ok (match f with
          | f_bool | f_uint _ | f_int _ => f_float64
          | _ => f
          end)
  | Scalar (NA | NaT) => Ok f
  | Column w => column_family op f (family_of (pd_dtype w))
  end.

(** numpy has no subtraction of booleans. *)
Definition checked (op : arith) (f : family) : result family :=
  match op, f with
  | SUB, f_bool => Raise TypeError
  | _, _ => Ok f
  end.

Definition arith_dtype (np : numpy) (op : arith) (v : PdSeries) (a : arg)
    : result dtype :=
  result_bind (arith_family np op (family_of (pd_dtype v)) a) (λ f,
  result_bind (checked op f) (λ f,
  Ok (dtype_in (is_masked (pd_dtype v) || arg_masked a) f))).

Definition arithmetic (np : numpy) (op : arith) (v : PdSeries) (a : arg)
    : result PdSeries :=
  result_bind (arith_dtype np op v a) (λ d, elementwise (cell_arith d op) d v a).

(** The reflected subtraction of pandas itself, [other - ser]: the dtype
    is that of the difference with the operands in their order. *)
Definition rsub_dtype (np : numpy) (v : PdSeries) (a : arg) : result dtype :=
  match a with
  | Scalar _ => arith_dtype np SUB v a
  | Column w =>
      result_bind (column_family SUB (family_of (pd_dtype w)) (family_of (pd_dtype v)))
        (λ f, result_bind (checked SUB f) (λ f,
              Ok (dtype_in (is_masked (pd_dtype v) || arg_masked a) f)))
  end.

Definition rsub (np : numpy) (v : PdSeries) (a : arg) : result PdSeries :=
  result_bind (rsub_dtype np v a) (λ d,
  elementwise (λ x y, cell_arith d SUB y x) d v a).

(** *** Boolean combinators: [&], [|], [~] *)

(** On a nullable column these follow Kleene's logic; on integers they
    are bitwise. *)
Definition cell_and (a b : cell) : result cell :=
  match a, b with
  | Bool x, Bool y => Ok (Bool (x && y))
  | Bool false, NA | NA, Bool false => Ok (Bool false)
  | Bool true, NA | NA, Bool true | NA, NA => Ok NA
  | NA, Num _ | Num _, NA => Ok NA
  | Num x, Num y => Ok (Num (Z.land x y))
  | Num x, Bool y => Ok (Num (Z.land x (Z.b2z y)))
  | Bool x, Num y => Ok (Num (Z.land (Z.b2z x) y))
  | _, _ => Raise TypeError
  end.

Definition cell_or (a b : cell) : result cell :=
  match a, b with
  | Bool x, Bool y => Ok (Bool (x || y))
  | Bool true, NA | NA, Bool true => Ok (Bool true)
  | Bool false, NA | NA, Bool false | NA, NA => Ok NA
  | NA, Num _ | Num _, NA => Ok NA
  | Num x, Num y => Ok (Num (Z.lor x y))
  | Num x, Bool y => Ok (Num (Z.lor x (Z.b2z y)))
  | Bool x, Num y => Ok (Num (Z.lor (Z.b2z x) y))
  | _, _ => Raise TypeError
  end.

Definition cell_invert (a : cell) : result cell :=
  match a with
  | Bool x => Ok (Bool (negb x))
  | Num z => Ok (Num (Z.lnot z))
  | NA => Ok NA
  | NaN | NaT => Raise TypeError
  end.

Definition is_bool (d : dtype) : bool :=
  match d with bool_ | boolean => true | _ => false end.

Definition logic_dtype (v : PdSeries) (a : arg) : dtype :=
  match a with
  | Scalar _ => pd_dtype v
  | Column w =>
      if decide (pd_dtype v = pd_dtype w) then pd_dtype v
      else if is_bool (pd_dtype v) && is_bool (pd_dtype w) then boolean
      else if is_masked (pd_dtype v) || is_masked (pd_dtype w) then Int W64
      else int W64
  end.

Definition and_ (v : PdSeries) (a : arg) : result PdSeries :=
  elementwise cell_and (logic_dtype v a) v a.
Definition or_ (v : PdSeries) (a : arg) : result PdSeries :=
  elementwise cell_or (logic_dtype v a) v a.
Definition invert (v : PdSeries) : result PdSeries :=
  map_cells cell_invert (pd_dtype v) v.

(** *** Missing values *)

(** [Series.isna]: the mask of a nullable column, which a [NaN] in the
    data does not set; [NaN] itself in a plain column; [NaT]. *)
Definition cell_isna (d : dtype) (c : cell) : bool :=
  match c with
  | NA | NaT => true
  | NaN => negb (is_masked d)
  | _ => false
  end.

Definition isna (v : PdSeries) : result PdSeries :=
  Ok (mkPdSeries (map (λ c, Bool (cell_isna (pd_dtype v) c)) (pd_values v))
        (pd_index v) (pd_name v) bool_).

(** [Series.fillna(value)]: the slots [isna] reports take the value. *)
Definition fillna (v : PdSeries) (a : arg) : result PdSeries :=
  result_bind (broadcast (length (pd_values v)) a) (λ ws,
  Ok (mkPdSeries
        (zip_with (λ c w, if cell_isna (pd_dtype v) c then coerce (pd_dtype v) w else c)
           (pd_values v) ws)
        (pd_index v) (pd_name v) (pd_dtype v))).

(** [Series.where(cond, other)]: a slot is kept where [cond] is true and
    takes [other] elsewhere (a missing condition counts as false). *)
Definition where_ (v : PdSeries) (cond : PdSeries) (a : arg) : result PdSeries :=
  result_bind (broadcast (length (pd_values v)) (Column cond)) (λ cs,
  result_bind (broadcast (length (pd_values v)) a) (λ ws,
  Ok (mkPdSeries
        (zip_with (λ (p : cell * cell) w,
                     match p.2 with
                     | Bool true => p.1
                     | _ => coerce (pd_dtype v) w
                     end)
           (zip (pd_values v) cs) ws)
        (pd_index v) (pd_name v) (pd_dtype v)))).

(** [np.isnan(ser)] *)
Definition cell_isnan (c : cell) : cell :=
  match c with
  | NaN | NaT => Bool true
  | NA => NA
  | _ => Bool false
  end.

Definition isnan (v : PdSeries) : result PdSeries :=
  Ok (mkPdSeries (map cell_isnan (pd_values v)) (pd_index v) (pd_name v)
        (if is_masked (pd_dtype v) then boolean else bool_)).

(** [Series.to_numpy(bool)]: a missing slot cannot be converted. *)
Definition to_numpy_bool (v : PdSeries) : result (list bool) :=
  result_mapM (λ c, match c with
                    | Bool b => Ok b
                    | Num z => Ok (negb (z =? 0)%Z)
                    | NaN | NaT => Ok true
                    | NA => Raise ValueError
                    end) (pd_values v).

(** [ser[mask] = value], the new slots of the buffer. *)
Definition setitem_mask (mask : list bool) (value : cell) (v : PdSeries)
    : result (list cell) :=
  if decide (length mask = length (pd_values v)) then
    Ok (zip_with (λ c (m : bool), if m then coerce (pd_dtype v) value else c)
          (pd_values v) mask)
  else Raise IndexError.

(** *** Cumulative reductions *)

(** pandas accumulates with [skipna=True]: a slot [isna] reports is left
    as it is and does not enter the running value.  [first] says what
    the first counted slot yields, [step] how the running value meets
    the next slot. *)
Fixpoint accumulate (first : cell → cell) (step : cell → cell → cell)
    (d : dtype) (acc : option cell) (cs : list cell) : list cell :=
  match cs with
  | [] => []
  | c :: cs' =>
      if cell_isna d c then c :: accumulate first step d acc cs'
      else
        let x := match acc with
                 | None => first c
                 | Some a => step a c
                 end in
        x :: accumulate first step d (Some x) cs'
  end.

(** A [NaN] that is not a missing slot (in the data of a nullable float
    column) poisons the running value. *)
Definition step_Z (f : Z → Z → Z) (a c : cell) : cell :=
  match numeric a, numeric c with
  | Some x, Some y => Num (f x y)
  | _, _ => NaN
  end.

Definition step_order (f : Z → Z → Z) (g : bool → bool → bool) (a c : cell) : cell :=
  match a, c with
  | Bool x, Bool y => Bool (g x y)
  | _, _ => step_Z f a c
  end.

Definition as_number (c : cell) : cell :=
  match c with
  | Bool b => Num (Z.b2z b)
  | _ => c
  end.

Definition sum_dtype (d : dtype) : dtype :=
  match d with
  | bool_ => int W64
  | boolean => Int W64
  | _ => d
  end.

Definition cummax (v : PdSeries) : result PdSeries :=
  Ok (mkPdSeries
        (accumulate id (step_order Z.max orb) (pd_dtype v) None (pd_values v))
        (pd_index v) (pd_name v) (pd_dtype v)).

Definition cummin (v : PdSeries) : result PdSeries :=
  Ok (mkPdSeries
        (accumulate id (step_order Z.min andb) (pd_dtype v) None (pd_values v))
        (pd_index v) (pd_name v) (pd_dtype v)).

Definition cumsum (v : PdSeries) : result PdSeries :=
  Ok (mkPdSeries
        (accumulate as_number (step_Z (arith_Z (sum_dtype (pd_dtype v)) ADD)) (pd_dtype v)
           None (pd_values v))
        (pd_index v) (pd_name v) (sum_dtype (pd_dtype v))).

Definition cumprod (v : PdSeries) : result PdSeries :=
  Ok (mkPdSeries
        (accumulate as_number (step_Z (arith_Z (sum_dtype (pd_dtype v)) MUL)) (pd_dtype v)
           None (pd_values v))
        (pd_index v) (pd_name v) (sum_dtype (pd_dtype v))).

(** *** Positional access *)

(** Python's [slice(start, stop, step).indices(len)]. *)
Definition slice_indices (len : Z) (start stop step : option Z)
    : result (Z * Z * Z) :=
  let step := default 1%Z step in
  if (step =? 0)%Z then Raise ValueError
  else
    let lower := if (step <? 0)%Z then (-1)%Z else 0%Z in
    let upper := if (step <? 0)%Z then (len - 1)%Z else len in
    let clamp (x : option Z) (dflt : Z) :=
      match x with
      | None => dflt
      | Some x =>
          if (x <? 0)%Z then Z.max (x + len) lower else Z.min x upper
      end in
    Ok (clamp start (if (step <? 0)%Z then upper else lower),
        clamp stop (if (step <? 0)%Z then lower else upper),
        step).

(** Python's [range(start, stop, step)], [step] not zero. *)
Definition py_range (start stop step : Z) : list Z :=
  let n :=
    if (0 <? step)%Z
    then (if (start <? stop)%Z then (stop - start - 1) / step + 1 else 0)%Z
    else (if (stop <? start)%Z then (start - stop - 1) / (- step) + 1 else 0)%Z in
  map (λ k, (start + k * step)%Z) (seqZ 0 n).

Definition pick {A} (l : list A) (positions : list Z) : list A :=
  omap (λ i, l !! Z.to_nat i) positions.

(** [ser.iloc[start:stop:step]] (and [ser[start:stop:step]]) *)
Definition iloc_slice (start stop step : option Z) (v : PdSeries)
    : result PdSeries :=
  result_bind (slice_indices (Z.of_nat (length (pd_values v))) start stop step)
    (λ '(a, b, s),
       let positions := py_range a b s in
       Ok (mkPdSeries (pick (pd_values v) positions) (pick (pd_index v) positions)
             (pd_name v) (pd_dtype v))).

(** [ser.iloc[i]]: a negative position counts from the end. *)
Definition iloc_get (i : Z) (v : PdSeries) : result cell :=
  let n := Z.of_nat (length (pd_values v)) in
  let j := if (i <? 0)%Z then (i + n)%Z else i in
  if (j <? 0)%Z then Raise IndexError
  else match pd_values v !! Z.to_nat j with
       | Some c => Ok c
       | None => Raise IndexError
       end.

(** [ser.index.to_series(name=...)]: the labels as values, under
    themselves as index. *)
Definition index_to_series (name : option string) (v : PdSeries) : result PdSeries :=
  Ok (mkPdSeries (map Num (pd_index v)) (pd_index v) name (int W64)).

(** [ser.astype(d)], over the backend's conversion of one slot. *)
Definition astype (convert : dtype → dtype → cell → result cell) (d : dtype)
    (v : PdSeries) : result PdSeries :=
  map_cells (convert (pd_dtype v) d) d v.

(** *** Datetimes *)

(** A time-zone-aware column stores UTC instants, so that
    converting to UTC and dropping the zone leave the slots as they
    are. *)
Definition dt_tz (v : PdSeries) : result (option string) :=
  match pd_dtype v with
  | datetime64 tz => Ok tz
  | _ => Raise AttributeError
  end.

(** [ser.dt.tz_convert(tz)] *)
Definition tz_convert (tz : string) (v : PdSeries) : result PdSeries :=
  match pd_dtype v with
  | datetime64 (Some _) =>
      Ok (mkPdSeries (pd_values v) (pd_index v) (pd_name v) (datetime64 (Some tz)))
  | _ => Raise TypeError
  end.

(** [ser.dt.tz_localize(None)] on a column in UTC *)
Definition tz_localize_none (v : PdSeries) : result PdSeries :=
  match pd_dtype v with
  | datetime64 _ =>
      Ok (mkPdSeries (pd_values v) (pd_index v) (pd_name v) (datetime64 None))
  | _ => Raise AttributeError
  end.

(** [ser - datetime(1970, 1, 1)] on a naive datetime column: the epoch is
    instant 0, and a naive column stores nanoseconds since it. *)
Definition sub_epoch (v : PdSeries) : result PdSeries :=
  match pd_dtype v with
  | datetime64 None =>
      map_cells (λ c, cell_arith timedelta64 SUB c (Num 0)) timedelta64 v
  | _ => Raise TypeError
  end.

End Pandas.

(** ** Binary64 arithmetic

    [Timedelta.total_seconds] returns 64-bit floats that are not integers,
    so they are kept outside the slots, as IEEE 754 binary64 values with
    round-to-nearest-even ([SpecFloat] of the standard library). *)

Module Float64.

Definition prec : Z := 53.
Definition emax : Z := 1024.

Definition t := spec_float.

(** The conversion of a 64-bit integer, correctly rounded. *)
Definition of_Z (z : Z) : t := binary_normalize prec emax z 0 false.

Definition add (x y : t) : t := SFadd prec emax x y.
Definition mul (x y : t) : t := SFmul prec emax x y.
Definition div (x y : t) : t := SFdiv prec emax x y.

(** The largest integer below a finite float. *)
Definition floor_Z (x : t) : option Z :=
  match x with
  | S754_zero _ => Some 0%Z
  | S754_finite s m e =>
      let z := if s then Z.neg m else Z.pos m in
      Some (if (0 <=? e)%Z then z * 2 ^ e else Z.shiftr z (- e))%Z
  | _ => None
  end.

(** [np.floor] on one float: a float with no fractional bits is its own
    floor. *)
Definition floor (x : t) : t :=
  match x with
  | S754_finite s m e =>
      if (0 <=? e)%Z then x
      else of_Z (Z.shiftr (if s then Z.neg m else Z.pos m) (- e))
  | _ => x
  end.

Definition of_cell (c : cell) : t :=
  match c with
  | Num z => of_Z z
  | Bool b => of_Z (Z.b2z b)
  | _ => S754_nan
  end.

(** A float as the slot of a float column; every float this is applied
    to is an integer or [NaN]. *)
Definition to_cell (x : t) : cell :=
  match floor_Z x with
  | Some z => Num z
  | None => NaN
  end.

(** [astype("Int64")]: [NaN] becomes [NA]. *)
Definition to_Int64 (x : t) : cell :=
  match floor_Z x with
  | Some z => Num (Pandas.wrap64 z)
  | None => NA
  end.

End Float64.

(** The [.dt] accessor of a timedelta column, slot by slot over the
    nanosecond counts.  With a [NaT] present pandas returns the integer
    components as floats, [NaN] at the missing slots. *)
Module Timedelta.

Definition total_seconds (cs : list cell) : list Float64.t :=
  map (λ c, match c with
            | Num d => Float64.div (Float64.of_Z d) (Float64.of_Z 1000000000)
            | _ => S754_nan
            end) cs.

Definition microseconds (cs : list cell) : list cell :=
  map (λ c, match c with
            | Num d => Num ((d / 1000) mod 1000000)%Z
            | _ => NaN
            end) cs.

Definition nanoseconds (cs : list cell) : list cell :=
  map (λ c, match c with
            | Num d => Num (d mod 1000)%Z
            | _ => NaN
            end) cs.

End Timedelta.

(** numpy's elementwise operators on arrays of floats and of integers. *)
Module np.

Definition floor (xs : list Float64.t) : list Float64.t := map Float64.floor xs.

(** [xs * k], [k] a Python integer *)
Definition mul_int (xs : list Float64.t) (k : Z) : list Float64.t :=
  map (λ x, Float64.mul x (Float64.of_Z k)) xs.

(** [xs + cs], a float array plus an integer array *)
Definition add_cells (xs : list Float64.t) (cs : list cell) : list Float64.t :=
  zip_with (λ x c, Float64.add x (Float64.of_cell c)) xs cs.

(** [cs // k] *)
Definition floordiv_int (cs : list cell) (k : Z) : list cell :=
  map (λ c, match c with
            | Num z => Num (z / k)%Z
            | _ => c
            end) cs.

Definition to_cells (xs : list Float64.t) : list cell := map Float64.to_cell xs.

(** [.astype("Int64")] of floats, and of integers *)
Definition to_Int64 (xs : list Float64.t) : list cell := map Float64.to_Int64 xs.
Definition cells_to_Int64 (cs : list cell) : list cell :=
  map (Pandas.coerce (Int W64)) cs.

(** Nullable 64-bit integer arithmetic: [cs * k] and [cs + ds] *)
Definition Int64_mul_int (cs : list cell) (k : Z) : list cell :=
  map (λ c, match c with
            | Num z => Num (Pandas.wrap64 (z * k))
            | _ => c
            end) cs.
Definition Int64_add (cs ds : list cell) : list cell :=
  zip_with (λ c d, match c, d with
                   | Num x, Num y => Num (Pandas.wrap64 (x + y))
                   | _, _ => NA
                   end) cs ds.

End np.

(** ** The pandas calls, on objects of the store

    Every pandas call that returns a Series returns a new object; the
    calls below say which of them come with a new buffer. *)

Module pd.

(** A validated comparand: a scalar, or a native Series by reference. *)
Inductive operand :=
  | Scalar (c : cell)
  | Native (l : loc).

Definition load_arg (o : operand) : M Pandas.arg :=
  match o with
  | Scalar c => ret (Pandas.Scalar c)
  | Native l => let* w := load l in ret (Pandas.Column w)
  end.

(** A call that computes new data from its receiver. *)
Definition call (f : PdSeries → result PdSeries) (l : loc) : M loc :=
  let* v := load l in
  let* r := lift (f v) in
  new_series r.

Definition call2 (f : PdSeries → Pandas.arg → result PdSeries) (l : loc)
    (o : operand) : M loc :=
  let* v := load l in
  let* a := load_arg o in
  let* r := lift (f v a) in
  new_series r.

(** A call that returns a scalar or an array. *)
Definition get {A} (f : PdSeries → result A) (l : loc) : M A :=
  let* v := load l in
  lift (f v).

Definition name (l : loc) : M (option string) := get (λ v, Ok (pd_name v)) l.
Definition index (l : loc) : M (list Z) := get (λ v, Ok (pd_index v)) l.
Definition dtype_of (l : loc) : M dtype := get (λ v, Ok (pd_dtype v)) l.

(** [ser.rename(name, copy=False)]: a new object over the same buffer. *)
Definition rename_nocopy (l : loc) (name : option string) : M loc := share l name.

(** [ser.rename(name)]: a new object over a copy of the data. *)
Definition rename (l : loc) (name : option string) : M loc :=
  call (λ v, Ok (mkPdSeries (pd_values v) (pd_index v) name (pd_dtype v))) l.

(** [ser.copy()] *)
Definition copy (l : loc) : M loc := call Ok l.

(** [pd.Series(data, name=name)] over the slots and the index of a
    computed Series. *)
Definition Series (cs : list cell) (idx : list Z) (name : option string)
    (d : dtype) : M loc :=
  new_series (mkPdSeries cs idx name d).

(** [ser[mask] = value], in place *)
Definition setitem (l : loc) (mask : list bool) (value : cell) : M unit :=
  write_cells l (Pandas.setitem_mask mask value).

End pd.

(** ** What the adapter leaves to its collaborators

    The pandas calls whose results no property below looks into, and the
    one method of the standard's namespace that the adapter calls.  Each is
    a function of the native value it receives. *)

Inductive dt_field :=
  | dt_year | dt_month | dt_day | dt_hour | dt_minute | dt_second
  | dt_microsecond | dt_nanosecond | dt_weekday.

Inductive division := TRUEDIV | FLOORDIV | POW | MOD.

Inductive reduction :=
  | r_any | r_all | r_min | r_max | r_sum | r_prod | r_median | r_mean.

(** The value handed to [fill_nan]: the standard's null, or a Python
    scalar. *)
Inductive scalar :=
  | Null
  | Py (c : cell).

Class Backend := {
  (** the numpy under pandas: how it types a Python integer *)
  bk_numpy : Pandas.numpy;
  (** [ser.iloc[indices]] and [ser.loc[mask]] *)
  bk_iloc : PdSeries → Pandas.arg → result PdSeries;
  bk_loc : PdSeries → Pandas.arg → result PdSeries;
  (** [/], [//], [**], [%] *)
  bk_divide : division → PdSeries → Pandas.arg → result PdSeries;
  (** [ser.any()], ..., [ser.mean()] *)
  bk_reduce : reduction → PdSeries → result cell;
  (** [ser.std(ddof=d)], [ser.var(ddof=d)], [ser.nunique()] *)
  bk_std : cell → PdSeries → result cell;
  bk_var : cell → PdSeries → result cell;
  bk_nunique : PdSeries → result cell;
  (** [ser.sort_values()], [ser.isin(values)], [ser.shift(offset)] *)
  bk_sort_values : PdSeries → result PdSeries;
  bk_isin : PdSeries → Pandas.arg → result PdSeries;
  bk_shift : Z → PdSeries → result PdSeries;
  (** [ser.to_numpy(dtype=name)] *)
  bk_to_numpy : string → PdSeries → result (list cell);
  (** the conversion of one slot by [ser.astype] *)
  bk_convert : dtype → dtype → cell → result cell;
  (** [ser.dt.year], ..., [ser.dt.weekday] and [ser.dt.floor(frequency)] *)
  bk_dt : dt_field → PdSeries → result PdSeries;
  bk_dt_floor : string → PdSeries → result PdSeries;
  (** [Namespace.is_null(value)] *)
  bk_is_null : scalar → bool;
}.

(** ** The standard's dtypes and the dtype tables *)

Module standard.

Inductive tag :=
  | Int8 | Int16 | Int32 | Int64
  | UInt8 | UInt16 | UInt32 | UInt64
  | Float32 | Float64
  | Boolean.

(** A standard dtype: one of the tags, plain or in its nullable
    (extension) variant. *)
Inductive DType :=
  | Plain (t : tag)
  | Nullable (t : tag).

Global Instance tag_eq_dec : EqDecision tag.
Proof. solve_decision. Defined.
Global Instance DType_eq_dec : EqDecision DType.
Proof. solve_decision. Defined.

End standard.

(** Modelled from the spec: [map_standard_dtype_to_pandas_dtype] lives in
    [polars_api_compat/pandas/__init__.py], which is not part of the
    sources at hand.  The spec describes it as a pure, total symbol-table
    lookup that maps every standard dtype (Int8..UInt64, Float32/64,
    Boolean, and the nullable variants) to exactly one native dtype. *)
Definition map_standard_dtype_to_pandas_dtype (d : standard.DType) : dtype :=
  match d with
  | standard.Plain t =>
      match t with
      | standard.Int8 => int W8
      | standard.Int16 => int W16
      | standard.Int32 => int W32
      | standard.Int64 => int W64
      | standard.UInt8 => uint W8
      | standard.UInt16 => uint W16
      | standard.UInt32 => uint W32
      | standard.UInt64 => uint W64
      | standard.Float32 => float32
      | standard.Float64 => float64
      | standard.Boolean => bool_
      end
  | standard.Nullable t =>
      match t with
      | standard.Int8 => Int W8
      | standard.Int16 => Int W16
      | standard.Int32 => Int W32
      | standard.Int64 => Int W64
      | standard.UInt8 => UInt W8
      | standard.UInt16 => UInt W16
      | standard.UInt32 => UInt W32
      | standard.UInt64 => UInt W64
      | standard.Float32 => Float32
      | standard.Float64 => Float64
      | standard.Boolean => boolean
      end
  end.

(** Modelled from the spec: [map_pandas_dtype_to_standard_dtype], from the
    same missing file; the lookup in the other direction of the same
    table, which fails with [UnsupportedDTypeError] on a native dtype the
    table does not list. *)
Definition map_pandas_dtype_to_standard_dtype (d : dtype) : result standard.DType :=
  match d with
  | int W8 => Ok (standard.Plain standard.Int8)
  | int W16 => Ok (standard.Plain standard.Int16)
  | int W32 => Ok (standard.Plain standard.Int32)
  | int W64 => Ok (standard.Plain standard.Int64)
  | uint W8 => Ok (standard.Plain standard.UInt8)
  | uint W16 => Ok (standard.Plain standard.UInt16)
  | uint W32 => Ok (standard.Plain standard.UInt32)
  | uint W64 => Ok (standard.Plain standard.UInt64)
  | float32 => Ok (standard.Plain standard.Float32)
  | float64 => Ok (standard.Plain standard.Float64)
  | bool_ => Ok (standard.Plain standard.Boolean)
  | Int W8 => Ok (standard.Nullable standard.Int8)
  | Int W16 => Ok (standard.Nullable standard.Int16)
  | Int W32 => Ok (standard.Nullable standard.Int32)
  | Int W64 => Ok (standard.Nullable standard.Int64)
  | UInt W8 => Ok (standard.Nullable standard.UInt8)
  | UInt W16 => Ok (standard.Nullable standard.UInt16)
  | UInt W32 => Ok (standard.Nullable standard.UInt32)
  | UInt W64 => Ok (standard.Nullable standard.UInt64)
  | Float32 => Ok (standard.Nullable standard.Float32)
  | Float64 => Ok (standard.Nullable standard.Float64)
  | boolean => Ok (standard.Nullable standard.Boolean)
  | datetime64 _ | timedelta64 => Raise UnsupportedDTypeError
  end.

(** Python's [str.replace(old, new)], [old] not empty: the occurrences are
    replaced from the left and do not overlap.  [skip] counts the
    characters of a match that are still to be passed over. *)
Fixpoint str_replace_from (old new : string) (skip : nat) (s : string) : string :=
  match s with
  | EmptyString => EmptyString
  | String c s' =>
      match skip with
      | S k => str_replace_from old new k s'
      | O =>
          if String.prefix old s
          then new +:+ str_replace_from old new (String.length old - 1) s'
          else String c (str_replace_from old new 0 s')
      end
  end.

Definition str_replace (old new s : string) : string := str_replace_from old new 0 s.

(** ** The class [Series] *)

Module column_object.

Definition NUMPY_MAPPING : gmap string string :=
  list_to_map
    [ ("Int64", "int64"); ("Int32", "int32"); ("Int16", "int16"); ("Int8", "int8");
      ("UInt64", "uint64"); ("UInt32", "uint32"); ("UInt16", "uint16");
      ("UInt8", "uint8"); ("boolean", "bool");
      ("Float64", "float64"); ("Float32", "float32") ].

(** The wrapper: a name, a reference to the native Series and the tag of
    the standard's version. *)
Record Series := mkSeries {
  _name : string;
  _series : loc;
  _api_version : string;
}.

(** An argument typed [Series | Any] in the source. *)
Inductive comparand :=
  | Value (c : cell)
  | Col (s : Series).

(** What the methods of the class return. *)
Inductive retval :=
  | RSeries (s : Series)
  | RPair (q r : Series)
  | RScalar (c : cell)
  | RArray (a : list cell)
  | RInt (n : Z)
  | RStr (s : string)
  | RNative (l : loc)
  | RDType (d : standard.DType)
  | RNamespace (api_version : string).

(** [Series.__init__]: the name of the native Series must be set. *)
Definition __init__ (series : loc) (api_version : string) : M Series :=
  let* name := pd.name series in
  match name with
  | Some n => ret (mkSeries n series api_version)
  | None => raise AssertionError
  end.

(** [s * n] on strings *)
Fixpoint str_repeat (s : string) (n : nat) : string :=
  match n with
  | O => EmptyString
  | S n' => s +:+ str_repeat s n'
  end.

Definition __repr__ (self : Series) : string :=
  let header := " Standard Column (api_version=" +:+ _api_version self +:+ ") " in
  let length := String.length header in
  "┌" +:+ str_repeat "─" length +:+ "┐" +:+ "
" +:+ "|" +:+ header +:+ "|" +:+ "
" +:+ "| Add `.column` to see native output         |" +:+ "
" +:+ "└" +:+ str_repeat "─" length +:+ "┘" +:+ "
".

Definition __iter__ (self : Series) : M retval := raise NotImplementedError.

(** The namespace of the standard, which the adapter builds from its
    [api_version] alone. *)
Definition __column_namespace__ (self : Series) : string := _api_version self.

Definition _from_series (self : Series) (series : loc) : M Series :=
  let* name := pd.name series in
  let* renamed := pd.rename_nocopy series name in
  __init__ renamed (_api_version self).

Definition name (self : Series) : string := _name self.

Definition column (self : Series) : loc := _series self.

Definition dtype (self : Series) : M standard.DType :=
  let* d := pd.dtype_of (_series self) in
  lift (map_pandas_dtype_to_standard_dtype d).

(** [self._df] is never assigned. *)
Definition parent_dataframe (self : Series) : M retval := raise AttributeError.

(** Modelled from the spec: [validate_column_comparand] lives in
    [polars_api_compat/utils.py], which is not part of the sources at
    hand.  Per the spec it takes the right-hand operand, a scalar or
    another column, checks that a column is index- and shape-compatible
    with the left-hand one, failing with a [ValueError] when it is not,
    and extracts the operand's raw native value. *)
Definition validate_column_comparand (self : Series) (other : comparand)
    : M pd.operand :=
  match other with
  | Value c => ret (pd.Scalar c)
  | Col o =>
      let* mine := pd.index (column self) in
      let* theirs := pd.index (column o) in
      if decide (mine = theirs) then ret (pd.Native (column o))
      else raise ValueError
  end.

(** [self._to_scalar(...)]: the class defines no [_to_scalar] and no
    such attribute is ever set, and at run time its base class is
    [object].  The attribute lookup fails, and Python performs it before
    it evaluates the argument of the call. *)
Definition _to_scalar (self : Series) (argument : M cell) : M cell :=
  raise AttributeError.

(** The shape shared by the binary operators:
    [self._from_series((ser OP other).rename(ser.name, copy=False))]. *)
Definition retag (self : Series) (ser computed : loc) : M Series :=
  let* name := pd.name ser in
  let* renamed := pd.rename_nocopy computed name in
  _from_series self renamed.

Definition binary (f : PdSeries → Pandas.arg → result PdSeries)
    (self : Series) (other : comparand) : M Series :=
  let* other := validate_column_comparand self other in
  let ser := column self in
  let* computed := pd.call2 f ser other in
  retag self ser computed.

(** *** Binary comparisons *)

Definition __eq__ := binary (Pandas.compare Pandas.EQ).
Definition __ne__ := binary (Pandas.compare Pandas.NE).
Definition __ge__ := binary (Pandas.compare Pandas.GE).
Definition __gt__ := binary (Pandas.compare Pandas.GT).
Definition __le__ := binary (Pandas.compare Pandas.LE).
Definition __lt__ := binary (Pandas.compare Pandas.LT).

Definition __and__ := binary Pandas.and_.
Definition __rand__ (self : Series) (other : comparand) : M Series :=
  __and__ self other.
Definition __or__ := binary Pandas.or_.
Definition __ror__ (self : Series) (other : comparand) : M Series :=
  __or__ self other.

(** *** Reverse division, power and modulo *)

Definition __rtruediv__ (self : Series) (other : comparand) : M Series :=
  raise NotImplementedError.
Definition __rfloordiv__ (self : Series) (other : comparand) : M Series :=
  raise NotImplementedError.
Definition __rpow__ (self : Series) (other : comparand) : M Series :=
  raise NotImplementedError.
Definition __rmod__ (self : Series) (other : comparand) : M Series :=
  raise NotImplementedError.

(** *** Transformations that need no collaborator *)

Definition __invert__ (self : Series) : M Series :=
  let ser := column self in
  let* computed := pd.call Pandas.invert ser in
  _from_series self computed.

Definition len (self : Series) : M Z :=
  pd.get (λ v, Ok (Z.of_nat (length (pd_values v)))) (_series self).

Definition get_value (self : Series) (row_number : Z) : M cell :=
  let ser := column self in
  pd.get (Pandas.iloc_get row_number) ser.

Definition slice_rows (self : Series) (start stop step : option Z) : M Series :=
  let* computed := pd.call (Pandas.iloc_slice start stop step) (column self) in
  _from_series self computed.

Definition is_null (self : Series) : M Series :=
  let ser := column self in
  let* computed := pd.call Pandas.isna ser in
  _from_series self computed.

Definition is_nan (self : Series) : M Series :=
  let ser := column self in
  let* d := pd.dtype_of ser in
  if is_extension_array_dtype d then
    let* unequal := pd.call2 (Pandas.compare Pandas.NE) ser (pd.Native ser) in
    let* computed := pd.call2 Pandas.fillna unequal (pd.Scalar (Bool false)) in
    _from_series self computed
  else
    let* computed := pd.call Pandas.isna ser in
    _from_series self computed.

Definition unique_indices (self : Series) (skip_nulls : bool) : M Series :=
  raise NotImplementedError.

(** [ser.where(cond, other)] on objects *)
Definition pd_where (ser cond : loc) (other : pd.operand) : M loc :=
  let* c := load cond in
  pd.call2 (λ v a, Pandas.where_ v c a) ser other.

Definition fill_null (self : Series) (value : comparand) : M Series :=
  let* value := validate_column_comparand self value in
  let* idx := pd.index (column self) in
  let* ser := pd.copy (column self) in
  let* d := pd.dtype_of ser in
  let* ser :=
    if is_extension_array_dtype d then
      (* Mask should include NA values, but not NaN ones *)
      let* missing := pd.call Pandas.isna ser in
      let* unequal := pd.call2 (Pandas.compare Pandas.NE) ser (pd.Native ser) in
      let* unequal := pd.call2 Pandas.fillna unequal (pd.Scalar (Bool false)) in
      let* equal := pd.call Pandas.invert unequal in
      let* mask := pd.call2 Pandas.and_ missing (pd.Native equal) in
      let* keep := pd.call Pandas.invert mask in
      pd_where ser keep value
    else
      pd.call2 Pandas.fillna ser value in
  let* _ := set_index ser idx in
  let* renamed := pd.rename_nocopy ser (Some (name self)) in
  _from_series self renamed.

Definition cumulative_sum (self : Series) (skip_nulls : bool) : M Series :=
  let ser := column self in
  let* computed := pd.call Pandas.cumsum ser in
  _from_series self computed.

Definition cumulative_prod (self : Series) (skip_nulls : bool) : M Series :=
  let ser := column self in
  let* computed := pd.call Pandas.cumprod ser in
  _from_series self computed.

Definition cumulative_max (self : Series) (skip_nulls : bool) : M Series :=
  let ser := column self in
  let* computed := pd.call Pandas.cummax ser in
  _from_series self computed.

Definition cumulative_min (self : Series) (skip_nulls : bool) : M Series :=
  let ser := column self in
  let* computed := pd.call Pandas.cummin ser in
  _from_series self computed.

Definition alias (self : Series) (name : string) : M Series :=
  let ser := column self in
  let* renamed := pd.rename_nocopy ser (Some name) in
  _from_series self renamed.

(** *** [unix_timestamp] *)

Definition unix_timestamp (self : Series) (time_unit : string) : M Series :=
  let ser := column self in
  let* tz := pd.get Pandas.dt_tz ser in
  let* result :=
    match tz with
    | None => pd.call Pandas.sub_epoch ser
    | Some _ =>
        let* utc := pd.call (Pandas.tz_convert "UTC") ser in
        let* naive := pd.call Pandas.tz_localize_none utc in
        pd.call Pandas.sub_epoch naive
    end in
  let* delta := load result in
  let* name := pd.name ser in
  let ns := pd_values delta in
  let* result :=
    if String.eqb time_unit "s" then
      pd.Series
        (np.to_cells (np.floor (Timedelta.total_seconds ns)))
        (pd_index delta) name float64
    else if String.eqb time_unit "ms" then
      pd.Series
        (np.to_cells
           (np.floor
              (np.add_cells
                 (np.mul_int (np.floor (Timedelta.total_seconds ns)) 1000)
                 (np.floordiv_int (Timedelta.microseconds ns) 1000))))
        (pd_index delta) name float64
    else if String.eqb time_unit "us" then
      pd.Series
        (np.to_cells
           (np.add_cells
              (np.mul_int (np.floor (Timedelta.total_seconds ns)) 1000000)
              (Timedelta.microseconds ns)))
        (pd_index delta) name float64
    else if String.eqb time_unit "ns" then
      pd.Series
        (np.Int64_add
           (np.Int64_mul_int
              (np.Int64_add
                 (np.Int64_mul_int
                    (np.to_Int64 (np.floor (Timedelta.total_seconds ns))) 1000000)
                 (np.cells_to_Int64 (Timedelta.microseconds ns)))
              1000)
           (np.cells_to_Int64 (Timedelta.nanoseconds ns)))
        (pd_index delta) name (Int W64)
    else
      raise AssertionError in
  _from_series self result.

(** *** The methods that delegate to a collaborator *)

Section delegated.
Context {B : Backend}.

(** **** Arithmetic *)

Definition __add__ := binary (Pandas.arithmetic bk_numpy Pandas.ADD).
Definition __radd__ (self : Series) (other : comparand) : M Series :=
  __add__ self other.

Definition __sub__ := binary (Pandas.arithmetic bk_numpy Pandas.SUB).

Definition __mul__ := binary (Pandas.arithmetic bk_numpy Pandas.MUL).
Definition __rmul__ (self : Series) (other : comparand) : M Series :=
  __mul__ self other.

(** [-1 * self.__sub__(other)]: the integer does not know how to
    multiply a [Series], so Python calls the [__rmul__] of the
    difference. *)
Definition __rsub__ (self : Series) (other : comparand) : M Series :=
  let* difference := __sub__ self other in
  __rmul__ difference (Value (Num (-1))).

Definition take (self : Series) (indices : Series) : M Series :=
  let* indices := validate_column_comparand self (Col indices) in
  let* computed := pd.call2 bk_iloc (column self) indices in
  _from_series self computed.

Definition filter (self : Series) (mask : Series) : M Series :=
  let ser := column self in
  let* mask := validate_column_comparand self (Col mask) in
  let* computed := pd.call2 bk_loc ser mask in
  _from_series self computed.

Definition __truediv__ := binary (bk_divide TRUEDIV).
Definition __floordiv__ := binary (bk_divide FLOORDIV).
Definition __pow__ := binary (bk_divide POW).
Definition __mod__ := binary (bk_divide MOD).

Definition __divmod__ (self : Series) (other : comparand) : M (Series * Series) :=
  let* quotient := __floordiv__ self other in
  let* product := __mul__ quotient other in
  let* remainder := __sub__ self (Col product) in
  ret (quotient, remainder).

(** **** Reductions *)

Definition any (self : Series) (skip_nulls : bool) : M cell :=
  let ser := column self in
  pd.get (bk_reduce r_any) ser.

Definition all (self : Series) (skip_nulls : bool) : M cell :=
  let ser := column self in
  pd.get (bk_reduce r_all) ser.

Definition min (self : Series) (skip_nulls : bool) : M cell :=
  let ser := column self in
  pd.get (bk_reduce r_min) ser.

Definition max (self : Series) (skip_nulls : bool) : M cell :=
  let ser := column self in
  pd.get (bk_reduce r_max) ser.

Definition sum (self : Series) (skip_nulls : bool) : M cell :=
  let ser := column self in
  pd.get (bk_reduce r_sum) ser.

Definition prod (self : Series) (skip_nulls : bool) : M cell :=
  let ser := column self in
  pd.get (bk_reduce r_prod) ser.

Definition median (self : Series) (skip_nulls : bool) : M cell :=
  let ser := column self in
  pd.get (bk_reduce r_median) ser.

Definition mean (self : Series) (skip_nulls : bool) : M cell :=
  let ser := column self in
  pd.get (bk_reduce r_mean) ser.

Definition std (self : Series) (correction : cell) (skip_nulls : bool) : M cell :=
  let ser := column self in
  _to_scalar self (pd.get (bk_std correction) ser).

Definition var (self : Series) (correction : cell) (skip_nulls : bool) : M cell :=
  let ser := column self in
  _to_scalar self (pd.get (bk_var correction) ser).

Definition n_unique (self : Series) (skip_nulls : bool) : M cell :=
  let ser := column self in
  _to_scalar self (pd.get bk_nunique ser).

(** **** Transformations *)

Definition sort (self : Series) (ascending : bool) (nulls_position : string)
    : M Series :=
  let ser := column self in
  if ascending then
    let* sorted := pd.call bk_sort_values ser in
    let* renamed := pd.rename sorted (Some (name self)) in
    _from_series self renamed
  else
    let* sorted := pd.call bk_sort_values ser in
    let* renamed := pd.rename sorted (Some (name self)) in
    let* reversed := pd.call (Pandas.iloc_slice None None (Some (-1)%Z)) renamed in
    _from_series self reversed.

Definition is_in (self : Series) (values : Series) : M Series :=
  let ser := column self in
  let* values := validate_column_comparand self (Col values) in
  let* computed := pd.call2 bk_isin ser values in
  _from_series self computed.

Definition sorted_indices (self : Series) (ascending : bool)
    (nulls_position : string) : M Series :=
  let ser := column self in
  if ascending then
    let* sorted := pd.call bk_sort_values ser in
    let* labels := pd.call (Pandas.index_to_series (Some (name self))) sorted in
    _from_series self labels
  else
    let* sorted := pd.call bk_sort_values ser in
    let* labels := pd.call (Pandas.index_to_series (Some (name self))) sorted in
    let* reversed := pd.call (Pandas.iloc_slice None None (Some (-1)%Z)) labels in
    _from_series self reversed.

(** [np.isnan(ser).fillna(False).to_numpy(bool)] *)
Definition nan_mask (ser : loc) : M (list bool) :=
  let* nans := pd.call Pandas.isnan ser in
  let* filled := pd.call2 Pandas.fillna nans (pd.Scalar (Bool false)) in
  pd.get Pandas.to_numpy_bool filled.

(** A value that is not the standard's null is assigned as it is; the
    null object itself is nothing pandas can store. *)
Definition python_value (value : scalar) : M cell :=
  match value with
  | Py c => ret c
  | Null => raise TypeError
  end.

Definition fill_nan (self : Series) (value : scalar) : M Series :=
  let* idx := pd.index (column self) in
  let* ser := pd.copy (column self) in
  let* d := pd.dtype_of ser in
  let* _ :=
    if is_extension_array_dtype d then
      if bk_is_null value then
        let* mask := nan_mask ser in
        pd.setitem ser mask NA
      else
        let* mask := nan_mask ser in
        let* v := python_value value in
        pd.setitem ser mask v
    else
      if bk_is_null value then
        let* mask := nan_mask ser in
        pd.setitem ser mask NaN
      else
        let* mask := nan_mask ser in
        let* v := python_value value in
        pd.setitem ser mask v in
  let* _ := set_index ser idx in
  _from_series self ser.

Definition shift (self : Series) (offset : Z) : M Series :=
  let ser := column self in
  let* computed := pd.call (bk_shift offset) ser in
  _from_series self computed.

(** **** Conversions *)

Definition to_array (self : Series) : M (list cell) :=
  let ser := column self in
  let* d := pd.dtype_of (column self) in
  pd.get (bk_to_numpy (default (dtype_name d) (NUMPY_MAPPING !! dtype_name d))) ser.

Definition cast (self : Series) (dtype : standard.DType) : M Series :=
  let ser := column self in
  let pandas_dtype := map_standard_dtype_to_pandas_dtype dtype in
  let* computed := pd.call (Pandas.astype bk_convert pandas_dtype) ser in
  _from_series self computed.

(** **** Temporal methods *)

Definition temporal (field : dt_field) (self : Series) : M Series :=
  let ser := column self in
  let* computed := pd.call (bk_dt field) ser in
  _from_series self computed.

Definition year := temporal dt_year.
Definition month := temporal dt_month.
Definition day := temporal dt_day.
Definition hour := temporal dt_hour.
Definition minute := temporal dt_minute.
Definition second := temporal dt_second.
Definition microsecond := temporal dt_microsecond.

Definition nanosecond (self : Series) : M Series :=
  let ser := column self in
  let* micro := pd.call (bk_dt dt_microsecond) ser in
  let* scaled := pd.call2 (Pandas.arithmetic bk_numpy Pandas.MUL) micro (pd.Scalar (Num 1000)) in
  let* nano := pd.call (bk_dt dt_nanosecond) ser in
  let* computed := pd.call2 (Pandas.arithmetic bk_numpy Pandas.ADD) scaled (pd.Native nano) in
  _from_series self computed.

Definition iso_weekday (self : Series) : M Series :=
  let ser := column self in
  let* weekday := pd.call (bk_dt dt_weekday) ser in
  let* computed := pd.call2 (Pandas.arithmetic bk_numpy Pandas.ADD) weekday (pd.Scalar (Num 1)) in
  _from_series self computed.

Definition floor (self : Series) (frequency : string) : M Series :=
  let frequency :=
    str_replace "nanosecond" "ns"
      (str_replace "microsecond" "us"
         (str_replace "millisecond" "ms"
            (str_replace "second" "S"
               (str_replace "minute" "T"
                  (str_replace "hour" "H"
                     (str_replace "day" "D" frequency)))))) in
  let ser := column self in
  let* computed := pd.call (bk_dt_floor frequency) ser in
  _from_series self computed.

(** **** Every public operation of the class *)

Inductive method :=
  | m_repr | m_iter | m_column_namespace
  | m_name | m_column | m_dtype | m_parent_dataframe
  | m_take (indices : Series) | m_filter (mask : Series)
  | m_get_value (row_number : Z)
  | m_slice_rows (start stop step : option Z)
  | m_eq (other : comparand) | m_ne (other : comparand)
  | m_ge (other : comparand) | m_gt (other : comparand)
  | m_le (other : comparand) | m_lt (other : comparand)
  | m_and (other : comparand) | m_rand (other : comparand)
  | m_or (other : comparand) | m_ror (other : comparand)
  | m_add (other : comparand) | m_radd (other : comparand)
  | m_sub (other : comparand) | m_rsub (other : comparand)
  | m_mul (other : comparand) | m_rmul (other : comparand)
  | m_truediv (other : comparand) | m_rtruediv (other : comparand)
  | m_floordiv (other : comparand) | m_rfloordiv (other : comparand)
  | m_pow (other : comparand) | m_rpow (other : comparand)
  | m_mod (other : comparand) | m_rmod (other : comparand)
  | m_divmod (other : comparand)
  | m_invert
  | m_any (skip_nulls : bool) | m_all (skip_nulls : bool)
  | m_min (skip_nulls : bool) | m_max (skip_nulls : bool)
  | m_sum (skip_nulls : bool) | m_prod (skip_nulls : bool)
  | m_median (skip_nulls : bool) | m_mean (skip_nulls : bool)
  | m_std (correction : cell) (skip_nulls : bool)
  | m_var (correction : cell) (skip_nulls : bool)
  | m_len
  | m_n_unique (skip_nulls : bool)
  | m_is_null | m_is_nan
  | m_sort (ascending : bool) (nulls_position : string)
  | m_is_in (values : Series)
  | m_sorted_indices (ascending : bool) (nulls_position : string)
  | m_unique_indices (skip_nulls : bool)
  | m_fill_nan (value : scalar) | m_fill_null (value : comparand)
  | m_cumulative_sum (skip_nulls : bool) | m_cumulative_prod (skip_nulls : bool)
  | m_cumulative_max (skip_nulls : bool) | m_cumulative_min (skip_nulls : bool)
  | m_alias (name : string)
  | m_shift (offset : Z)
  | m_to_array
  | m_cast (dtype : standard.DType)
  | m_year | m_month | m_day | m_hour | m_minute | m_second
  | m_microsecond | m_nanosecond | m_iso_weekday
  | m_floor (frequency : string)
  | m_unix_timestamp (time_unit : string).

Definition series (m : M Series) : M retval :=
  let* s := m in ret (RSeries s).
Definition value (m : M cell) : M retval :=
  let* c := m in ret (RScalar c).

Definition invoke (m : method) (self : Series) : M retval :=
  match m with
  | m_repr => ret (RStr (__repr__ self))
  | m_iter => __iter__ self
  | m_column_namespace => ret (RNamespace (__column_namespace__ self))
  | m_name => ret (RStr (name self))
  | m_column => ret (RNative (column self))
  | m_dtype => let* d := dtype self in ret (RDType d)
  | m_parent_dataframe => parent_dataframe self
  | m_take indices => series (take self indices)
  | m_filter mask => series (filter self mask)
  | m_get_value row_number => value (get_value self row_number)
  | m_slice_rows start stop step => series (slice_rows self start stop step)
  | m_eq other => series (__eq__ self other)
  | m_ne other => series (__ne__ self other)
  | m_ge other => series (__ge__ self other)
  | m_gt other => series (__gt__ self other)
  | m_le other => series (__le__ self other)
  | m_lt other => series (__lt__ self other)
  | m_and other => series (__and__ self other)
  | m_rand other => series (__rand__ self other)
  | m_or other => series (__or__ self other)
  | m_ror other => series (__ror__ self other)
  | m_add other => series (__add__ self other)
  | m_radd other => series (__radd__ self other)
  | m_sub other => series (__sub__ self other)
  | m_rsub other => series (__rsub__ self other)
  | m_mul other => series (__mul__ self other)
  | m_rmul other => series (__rmul__ self other)
  | m_truediv other => series (__truediv__ self other)
  | m_rtruediv other => series (__rtruediv__ self other)
  | m_floordiv other => series (__floordiv__ self other)
  | m_rfloordiv other => series (__rfloordiv__ self other)
  | m_pow other => series (__pow__ self other)
  | m_rpow other => series (__rpow__ self other)
  | m_mod other => series (__mod__ self other)
  | m_rmod other => series (__rmod__ self other)
  | m_divmod other =>
      let* qr := __divmod__ self other in ret (RPair qr.1 qr.2)
  | m_invert => series (__invert__ self)
  | m_any skip_nulls => value (any self skip_nulls)
  | m_all skip_nulls => value (all self skip_nulls)
  | m_min skip_nulls => value (min self skip_nulls)
  | m_max skip_nulls => value (max self skip_nulls)
  | m_sum skip_nulls => value (sum self skip_nulls)
  | m_prod skip_nulls => value (prod self skip_nulls)
  | m_median skip_nulls => value (median self skip_nulls)
  | m_mean skip_nulls => value (mean self skip_nulls)
  | m_std correction skip_nulls => value (std self correction skip_nulls)
  | m_var correction skip_nulls => value (var self correction skip_nulls)
  | m_len => let* n := len self in ret (RInt n)
  | m_n_unique skip_nulls => value (n_unique self skip_nulls)
  | m_is_null => series (is_null self)
  | m_is_nan => series (is_nan self)
  | m_sort ascending nulls_position => series (sort self ascending nulls_position)
  | m_is_in values => series (is_in self values)
  | m_sorted_indices ascending nulls_position =>
      series (sorted_indices self ascending nulls_position)
  | m_unique_indices skip_nulls => series (unique_indices self skip_nulls)
  | m_fill_nan v => series (fill_nan self v)
  | m_fill_null v => series (fill_null self v)
  | m_cumulative_sum skip_nulls => series (cumulative_sum self skip_nulls)
  | m_cumulative_prod skip_nulls => series (cumulative_prod self skip_nulls)
  | m_cumulative_max skip_nulls => series (cumulative_max self skip_nulls)
  | m_cumulative_min skip_nulls => series (cumulative_min self skip_nulls)
  | m_alias name => series (alias self name)
  | m_shift offset => series (shift self offset)
  | m_to_array => let* a := to_array self in ret (RArray a)
  | m_cast dtype => series (cast self dtype)
  | m_year => series (year self)
  | m_month => series (month self)
  | m_day => series (day self)
  | m_hour => series (hour self)
  | m_minute => series (minute self)
  | m_second => series (second self)
  | m_microsecond => series (microsecond self)
  | m_nanosecond => series (nanosecond self)
  | m_iso_weekday => series (iso_weekday self)
  | m_floor frequency => series (floor self frequency)
  | m_unix_timestamp time_unit => series (unix_timestamp self time_unit)
  end.

End delegated.

End column_object.

(** * The vocabulary of the properties *)

(** ** Stores *)

(** An object of [σ] that the earlier store [σ0] does not have, over a
    buffer that [σ0] does not have either. *)
Definition owned (σ0 σ : store) (l : loc) : Prop :=
  objs σ0 !! l = None ∧
  ∃ o, objs σ !! l = Some o ∧ bufs σ0 !! obj_buf o = None.

(** The native argument a validated operand stands for. *)
Definition arg_of (σ : store) (o : pd.operand) : option Pandas.arg :=
  match o with
  | pd.Scalar c => Some (Pandas.Scalar c)
  | pd.Native l => Pandas.Column <$> view σ l
  end.

(** The native argument a comparand stands for, when comparand validation
    accepts it against the column [v]. *)
Definition comparand_arg (σ : store) (v : PdSeries)
    (other : column_object.comparand) : option Pandas.arg :=
  match other with
  | column_object.Value c => Some (Pandas.Scalar c)
  | column_object.Col o =>
      match view σ (column_object.column o) with
      | Some w => if decide (pd_index v = pd_index w) then Some (Pandas.Column w) else None
      | None => None
      end
  end.

(** ** What a computation does to the store *)

(** A computation that only adds to the store. *)
Definition grows {A} (m : M A) : Prop := ∀ σ, extends σ (m σ).1.

(** A computation that returns a new wrapper of a new object. *)
Definition fresh_series (m : M column_object.Series) : Prop :=
  ∀ σ, extends σ (m σ).1 ∧
       match (m σ).2 with
       | Ok s => objs σ !! column_object.column s = None ∧
                 is_Some (view (m σ).1 (column_object.column s))
       | Raise _ => True
       end.

(** A call that returns a new object over a new buffer. *)
Definition makes (m : M loc) : Prop :=
  ∀ σ, extends σ (m σ).1 ∧
       match (m σ).2 with
       | Ok l => owned σ (m σ).1 l
       | Raise _ => True
       end.

(** Writes in place are judged against an earlier store.  [triple P m Q]:
    started in a store that extends [σ0] and satisfies [P] against it, [m]
    ends in a store that still extends [σ0], and that satisfies [Q] when
    [m] returns. *)
Definition triple {A} (P : store → store → Prop) (m : M A)
    (Q : A → store → store → Prop) : Prop :=
  ∀ σ0 σ, extends σ0 σ → P σ0 σ →
    extends σ0 (m σ).1 ∧
    match (m σ).2 with
    | Ok a => Q a σ0 (m σ).1
    | Raise _ => True
    end.

(** A condition that survives additions to the store. *)
Definition stable (P : store → store → Prop) : Prop :=
  ∀ σ0 σ σ', P σ0 σ → extends σ σ' → P σ0 σ'.

(** The wrappers a method returns. *)
Definition wrappers (r : column_object.retval) : list column_object.Series :=
  match r with
  | column_object.RSeries s => [s]
  | column_object.RPair q r => [q; r]
  | _ => []
  end.

(** A method call is sound when it only adds to the store and every
    wrapper it returns is around an object the store did not have. *)
Definition sound (m : M column_object.retval) : Prop :=
  ∀ σ, extends σ (m σ).1 ∧
       match (m σ).2 with
       | Ok r => ∀ s, s ∈ wrappers r →
                      objs σ !! column_object.column s = None ∧
                      is_Some (view (m σ).1 (column_object.column s))
       | Raise _ => True
       end.

(** ** Slots *)

(** What [(ser != ser).fillna(False)] holds where [ser] holds [c]. *)
Definition self_unequal (c : cell) : cell :=
  match c with
  | NaN | NaT => Bool true
  | _ => Bool false
  end.

(** [NaN] and [NaT], the slots unequal to themselves. *)
Definition nan_like (c : cell) : bool :=
  match c with
  | NaN | NaT => true
  | _ => false
  end.


(** The dtypes whose values have their negative in the dtype. *)
Definition closed_under_negation (d : dtype) : bool :=
  match Pandas.family_of d with
  | Pandas.f_int _ | Pandas.f_float32 | Pandas.f_float64 | Pandas.f_timedelta => true
  | _ => false
  end.

(** ** Reductions, time units and exact timestamps *)

(** The eleven reductions, by name; the standard deviation and the
    variance carry their correction. *)
Inductive reduction_name :=
  | red_sum | red_mean
  | red_std (correction : cell) | red_var (correction : cell)
  | red_min | red_max | red_any | red_all | red_median | red_prod | red_n_unique.

Definition reduce `{B : Backend} (r : reduction_name) (self : column_object.Series)
    (skip_nulls : bool) : M cell :=
  match r with
  | red_sum => column_object.sum self skip_nulls
  | red_mean => column_object.mean self skip_nulls
  | red_std correction => column_object.std self correction skip_nulls
  | red_var correction => column_object.var self correction skip_nulls
  | red_min => column_object.min self skip_nulls
  | red_max => column_object.max self skip_nulls
  | red_any => column_object.any self skip_nulls
  | red_all => column_object.all self skip_nulls
  | red_median => column_object.median self skip_nulls
  | red_prod => column_object.prod self skip_nulls
  | red_n_unique => column_object.n_unique self skip_nulls
  end.

(** The units [unix_timestamp] knows. *)
Definition time_units : list string := ["s"; "ms"; "us"; "ns"].

(** The timestamp the specification describes, to compare with: the
    elapsed nanoseconds since the epoch, floor-divided down to the unit. *)
Definition unix_timestamp_exact (time_unit : string) (ns : Z) : option Z :=
  if String.eqb time_unit "s" then Some (ns / 1000000000)%Z
  else if String.eqb time_unit "ms" then Some (ns / 1000000)%Z
  else if String.eqb time_unit "us" then Some (ns / 1000)%Z
  else if String.eqb time_unit "ns" then Some ns
  else None.

(** ** Strings *)

(** [old] occurs in [s], at some position. *)
Fixpoint occurs (old s : string) : bool :=
  String.prefix old s ||
  match s with
  | EmptyString => false
  | String _ s' => occurs old s'
  end.

(** The character [a] is one of those of [s]. *)
Fixpoint has_char (a : Ascii.ascii) (s : string) : bool :=
  match s with
  | EmptyString => false
  | String c s' => bool_decide (a = c) || has_char a s'
  end.

(** ** Wrappers *)

(** A wrapper whose name is the name of the native Series it wraps. *)
Definition consistent (σ : store) (s : column_object.Series) : Prop :=
  ∃ v, view σ (column_object.column s) = Some v ∧
       pd_name v = Some (column_object.name s).

(** A computation whose wrapper carries the tag [api] and is consistent
    in the store the computation ends in. *)
Definition tagged (api : string) (m : M column_object.Series) : Prop :=
  ∀ σ, match (m σ).2 with
       | Ok s => column_object._api_version s = api ∧ consistent (m σ).1 s
       | Raise _ => True
       end.

(** A method call whose wrappers carry the tag of [self] and are
    consistent. *)
Definition kept (self : column_object.Series) (m : M column_object.retval) : Prop :=
  ∀ σ, match (m σ).2 with
       | Ok r => ∀ s, s ∈ wrappers r →
                      column_object._api_version s = column_object._api_version self ∧
                      consistent (m σ).1 s
       | Raise _ => True
       end.



(** ** Reflected operators *)

(** pandas' own reflected operators, [other + ser] and [other * ser]:
    the operands in their order, slot by slot and in the dtype. *)
Definition reflected_dtype (np : Pandas.numpy) (op : Pandas.arith) (v : PdSeries)
    (a : Pandas.arg) : result dtype :=
  match a with
  | Pandas.Scalar _ => Pandas.arith_dtype np op v a
  | Pandas.Column w =>
      result_bind
        (Pandas.column_family op (Pandas.family_of (pd_dtype w))
           (Pandas.family_of (pd_dtype v)))
        (λ f, result_bind (Pandas.checked op f) (λ f,
              Ok (Pandas.dtype_in (is_masked (pd_dtype v) || Pandas.arg_masked a) f)))
  end.

Definition reflected_arithmetic (np : Pandas.numpy) (op : Pandas.arith) (v : PdSeries)
    (a : Pandas.arg) : result PdSeries :=
  result_bind (reflected_dtype np op v a) (λ d,
  Pandas.elementwise (λ x y, Pandas.cell_arith d op y x) d v a).

(** pandas' own [other & ser] and [other | ser]. *)
Definition reflected_dtype_of_logic (v : PdSeries) (a : Pandas.arg) : dtype :=
  match a with
  | Pandas.Scalar _ => pd_dtype v
  | Pandas.Column w => Pandas.logic_dtype w (Pandas.Column v)
  end.

Definition reflected_and (v : PdSeries) (a : Pandas.arg) : result PdSeries :=
  Pandas.elementwise (λ x y, Pandas.cell_and y x) (reflected_dtype_of_logic v a) v a.

Definition reflected_or (v : PdSeries) (a : Pandas.arg) : result PdSeries :=
  Pandas.elementwise (λ x y, Pandas.cell_or y x) (reflected_dtype_of_logic v a) v a.

(** What [c & b] and [c | b] hold where [c] holds a slot, [b] being a
    boolean: Kleene's logic at a null slot. *)
Definition and_slot (b : bool) (c : cell) : cell := if b then c else Bool false.
Definition or_slot (b : bool) (c : cell) : cell := if b then Bool true else c.

(** ** More on slots *)

(** The numpy dtype of the same family. *)
Definition plain_dtype (d : dtype) : dtype :=
  Pandas.dtype_in false (Pandas.family_of d).

(** What [fill_nan] assigns: the missing marker of the branch when the
    namespace takes the value for null, the value itself otherwise. *)
Definition nan_filler `{B : Backend} (d : dtype) (value : scalar) : option cell :=
  if bk_is_null value then Some (if is_extension_array_dtype d then NA else NaN)
  else match value with
       | Py c => Some c
       | Null => None
       end.

(** The slot [fill_nan] leaves where the column holds [c], [x] being what
    it assigns. *)
Definition nan_filled (d : dtype) (x c : cell) : cell :=
  if nan_like c then Pandas.coerce d x else c.

(** [~] on one slot of a column of booleans. *)
Definition negated (c : cell) : cell :=
  match c with
  | Bool b => Bool (negb b)
  | _ => c
  end.

(** A slot that is a number or a missing slot of dtype [d]. *)
Definition number_or_missing (d : dtype) (c : cell) : Prop :=
  (∃ z, c = Num z) ∨ Pandas.cell_isna d c = true.

(** [m] is the extreme, for the order [le], of the numbers among the
    slots [0..i] of [cs]: it bounds them all and is one of them. *)
Definition running_extreme (le : Z → Z → Prop) (cs : list cell) (i : nat) (m : Z)
    : Prop :=
  (∀ j y, (j ≤ i)%nat → cs !! j = Some (Num y) → le y m) ∧
  (∃ j, (j ≤ i)%nat ∧ cs !! j = Some (Num m)).

(** The elapsed time [ser - datetime(1970, 1, 1)] of one slot. *)
Definition elapsed (c : cell) : cell :=
  match Pandas.cell_arith timedelta64 Pandas.SUB c (Num 0) with
  | Ok d => d
  | Raise _ => c
  end.

(** ** Fixtures for the examples *)

(** A store with one native Series named ["a"], under the default index,
    and the wrapper of it. *)
Definition one_column (cs : list cell) (d : dtype) : store :=
  mkStore
    {[ 0%nat := mkPdObject 0%nat (seqZ 0 (Z.of_nat (length cs))) (Some "a") ]}
    {[ 0%nat := mkPdBuffer d cs ]}.

Definition column_a : column_object.Series :=
  column_object.mkSeries "a" 0%nat "2023.11-beta".

(** The slots of the column a computation returns. *)
Definition slots (m : M column_object.Series) (σ : store) : result (list cell) :=
  (bind m (λ s, pd.get (λ v, Ok (pd_values v)) (column_object.column s)) σ).2.

(** The instants 2023-11-14 22:13:19.999999999 and 22:13:20, one
    nanosecond apart, in nanoseconds since the epoch. *)
Definition just_before : Z := 1699999999999999999.
Definition on_the_second : Z := 1700000000000000000.

(** A backend for the examples: it converts the slots of an integer column
    to floats and refuses every other call. *)
Definition example_backend : Backend := {|
  bk_numpy := Pandas.legacy;
  bk_iloc _ _ := Raise NotImplementedError;
  bk_loc _ _ := Raise NotImplementedError;
  bk_divide _ _ _ := Raise NotImplementedError;
  bk_reduce _ _ := Raise NotImplementedError;
  bk_std _ _ := Raise NotImplementedError;
  bk_var _ _ := Raise NotImplementedError;
  bk_nunique _ := Raise NotImplementedError;
  bk_sort_values _ := Raise NotImplementedError;
  bk_isin _ _ := Raise NotImplementedError;
  bk_shift _ _ := Raise NotImplementedError;
  bk_to_numpy _ _ := Raise NotImplementedError;
  bk_convert from to c :=
    match from, to, c with
    | int _, (float32 | float64), Num z => Ok (Num z)
    | _, _, _ => Raise NotImplementedError
    end;
  bk_dt _ _ := Raise NotImplementedError;
  bk_dt_floor _ _ := Raise NotImplementedError;
  bk_is_null value := match value with Null => true | Py _ => false end;
|}.

(** The same backend over numpy 2. *)
Definition example_backend_nep50 : Backend := {|
  bk_numpy := Pandas.nep50;
  bk_iloc := @bk_iloc example_backend;
  bk_loc := @bk_loc example_backend;
  bk_divide := @bk_divide example_backend;
  bk_reduce := @bk_reduce example_backend;
  bk_std := @bk_std example_backend;
  bk_var := @bk_var example_backend;
  bk_nunique := @bk_nunique example_backend;
  bk_sort_values := @bk_sort_values example_backend;
  bk_isin := @bk_isin example_backend;
  bk_shift := @bk_shift example_backend;
  bk_to_numpy := @bk_to_numpy example_backend;
  bk_convert := @bk_convert example_backend;
  bk_dt := @bk_dt example_backend;
  bk_dt_floor := @bk_dt_floor example_backend;
  bk_is_null := @bk_is_null example_backend;
|}.

(** The order of two rows, each a value with its label. *)
Definition by_value (p q : Z * Z) : Prop := (p.1 ≤ q.1)%Z.

Global Instance by_value_dec : RelDecision by_value.
Proof. intros p q. unfold by_value. apply _. Defined.

(** [sort_values] on a column of integers: the rows by ascending value,
    each with its label. *)
Definition sort_values_of_integers (v : PdSeries) : result PdSeries :=
  match pd_dtype v with
  | int _ =>
      let rows :=
        merge_sort by_value
          (omap (λ p : cell * Z, match p.1 with
                                 | Num z => Some (z, p.2)
                                 | _ => None
                                 end)
             (zip (pd_values v) (pd_index v))) in
      Ok (mkPdSeries (Num <$> rows.*1) (rows.*2) (pd_name v) (pd_dtype v))
  | _ => Raise NotImplementedError
  end.

(** [//] on a column of 64-bit integers and an integer that is not
    zero. *)
Definition floordiv_of_integers (v : PdSeries) (a : Pandas.arg) : result PdSeries :=
  match pd_dtype v, a with
  | int W64, Pandas.Scalar (Num k) =>
      if decide (k = 0%Z) then Raise NotImplementedError
      else Pandas.map_cells (λ c, match c with
                                  | Num x => Ok (Num (x / k))
                                  | _ => Raise NotImplementedError
                                  end) (int W64) v
  | _, _ => Raise NotImplementedError
  end.

(** The calendar fields of the two instants of the examples, both on
    Tuesday 2023-11-14. *)
Definition calendar_field (field : dt_field) (ns : Z) : result Z :=
  if decide (ns = just_before) then
    Ok match field with
       | dt_year => 2023 | dt_month => 11 | dt_day => 14
       | dt_hour => 22 | dt_minute => 13 | dt_second => 19
       | dt_microsecond => 999999 | dt_nanosecond => 999 | dt_weekday => 1
       end%Z
  else if decide (ns = on_the_second) then
    Ok match field with
       | dt_year => 2023 | dt_month => 11 | dt_day => 14
       | dt_hour => 22 | dt_minute => 13 | dt_second => 20
       | dt_microsecond => 0 | dt_nanosecond => 0 | dt_weekday => 1
       end%Z
  else Raise NotImplementedError.

Definition calendar (field : dt_field) (v : PdSeries) : result PdSeries :=
  match pd_dtype v with
  | datetime64 _ =>
      Pandas.map_cells
        (λ c, match c with
              | Num ns => result_bind (calendar_field field ns) (λ z, Ok (Num z))
              | _ => Raise NotImplementedError
              end) (int W32) v
  | _ => Raise AttributeError
  end.

(** A second backend for the examples: it sorts and floor-divides columns
    of integers and knows the calendar of the two instants. *)
Definition fixture_backend : Backend := {|
  bk_numpy := Pandas.legacy;
  bk_iloc := @bk_iloc example_backend;
  bk_loc := @bk_loc example_backend;
  bk_divide op :=
    match op with
    | FLOORDIV => floordiv_of_integers
    | _ => @bk_divide example_backend op
    end;
  bk_reduce := @bk_reduce example_backend;
  bk_std := @bk_std example_backend;
  bk_var := @bk_var example_backend;
  bk_nunique := @bk_nunique example_backend;
  bk_sort_values := sort_values_of_integers;
  bk_isin := @bk_isin example_backend;
  bk_shift := @bk_shift example_backend;
  bk_to_numpy := @bk_to_numpy example_backend;
  bk_convert := @bk_convert example_backend;
  bk_dt := calendar;
  bk_dt_floor := @bk_dt_floor example_backend;
  bk_is_null := @bk_is_null example_backend;
|}.

(** * Properties *)

(** ** The store: what a later store remembers *)

Global Instance extends_preorder : PreOrder extends.
Proof.
  split.
  - intros σ. split; reflexivity.
  - intros σ1 σ2 σ3 [Ho Hb] [Ho' Hb']. split; etrans; eassumption.
Qed.

Lemma view_extends σ σ' l v :
  extends σ σ' → view σ l = Some v → view σ' l = Some v.
Proof.
  intros [Ho Hb]. unfold view.
  destruct (objs σ !! l) as [o|] eqn:Eo; [|done].
  destruct (bufs σ !! obj_buf o) as [b|] eqn:Eb; [|done].
  intros Hv.
  rewrite (lookup_weaken _ _ _ _ Eo Ho), (lookup_weaken _ _ _ _ Eb Hb). done.
Qed.

Lemma extends_fresh_object σ σ' l :
  extends σ σ' → objs σ' !! l = None → objs σ !! l = None.
Proof. intros [Ho _] E. eapply lookup_weaken_None; eassumption. Qed.

Lemma extends_fresh_buffer σ σ' k :
  extends σ σ' → bufs σ' !! k = None → bufs σ !! k = None.
Proof. intros [_ Hb] E. eapply lookup_weaken_None; eassumption. Qed.

Lemma owned_extends σ0 σ σ' l :
  extends σ σ' → owned σ0 σ l → owned σ0 σ' l.
Proof.
  intros [Ho _] [Hn (o & Eo & Hb)]. split; [done|].
  exists o. split; [|done]. eapply lookup_weaken; eassumption.
Qed.

Lemma owned_base σ0 σ1 σ l :
  extends σ0 σ1 → owned σ1 σ l → owned σ0 σ l.
Proof.
  intros X [Hn (o & Eo & Hb)]. split.
  - eapply extends_fresh_object; eassumption.
  - exists o. split; [done|]. eapply extends_fresh_buffer; eassumption.
Qed.

(** ** Running the monad *)

Lemma bind_ok {A B} (m : M A) (k : A → M B) σ σ' a :
  m σ = (σ', Ok a) → bind m k σ = k a σ'.
Proof. unfold bind. intros ->. done. Qed.

Lemma bind_raise {A B} (m : M A) (k : A → M B) σ σ' e :
  m σ = (σ', Raise e) → bind m k σ = (σ', Raise e).
Proof. unfold bind. intros ->. done. Qed.

Lemma load_ok σ l v : view σ l = Some v → load l σ = (σ, Ok v).
Proof. unfold load. intros ->. done. Qed.

Lemma new_series_spec σ v :
  ∃ σ' l, new_series v σ = (σ', Ok l) ∧ extends σ σ' ∧
          view σ' l = Some v ∧ owned σ σ' l.
Proof.
  unfold new_series, bind, alloc_buf, alloc_obj. simpl.
  set (k := fresh (dom (bufs σ))). set (l := fresh (dom (objs σ))).
  assert (Hk : bufs σ !! k = None) by (apply not_elem_of_dom, is_fresh).
  assert (Hl : objs σ !! l = None) by (apply not_elem_of_dom, is_fresh).
  eexists _, _. split; [reflexivity|]. split; [|split].
  - split; simpl; by apply insert_subseteq.
  - unfold view. simpl. rewrite lookup_insert_eq. simpl.
    rewrite lookup_insert_eq. simpl. by destruct v.
  - split; [done|]. eexists. simpl. rewrite lookup_insert_eq. split; done.
Qed.

Lemma share_spec σ l v name :
  view σ l = Some v →
  ∃ σ' l', share l name σ = (σ', Ok l') ∧ extends σ σ' ∧
           view σ' l' = Some (mkPdSeries (pd_values v) (pd_index v) name (pd_dtype v)) ∧
           objs σ !! l' = None.
Proof.
  unfold view, share, alloc_obj.
  destruct (objs σ !! l) as [o|] eqn:Eo; [|done].
  destruct (bufs σ !! obj_buf o) as [b|] eqn:Eb; [|done].
  intros [= <-]. simpl.
  set (l' := fresh (dom (objs σ))).
  assert (Hl : objs σ !! l' = None) by (apply not_elem_of_dom, is_fresh).
  eexists _, _. split; [reflexivity|]. split; [|split].
  - split; simpl; [by apply insert_subseteq|done].
  - simpl. rewrite lookup_insert_eq. simpl. rewrite Eb. done.
  - done.
Qed.

Lemma call_spec f σ l v r :
  view σ l = Some v → f v = Ok r →
  ∃ σ' l', pd.call f l σ = (σ', Ok l') ∧ extends σ σ' ∧
           view σ' l' = Some r ∧ owned σ σ' l'.
Proof.
  intros Hv Hf. unfold pd.call.
  rewrite (bind_ok _ _ _ _ _ (load_ok _ _ _ Hv)).
  unfold lift at 1. unfold bind at 1. rewrite Hf.
  apply new_series_spec.
Qed.

Lemma call_raise f σ l v e :
  view σ l = Some v → f v = Raise e → pd.call f l σ = (σ, Raise e).
Proof.
  intros Hv Hf. unfold pd.call.
  rewrite (bind_ok _ _ _ _ _ (load_ok _ _ _ Hv)).
  unfold lift, bind. rewrite Hf. done.
Qed.

Lemma load_arg_ok σ o a : arg_of σ o = Some a → pd.load_arg o σ = (σ, Ok a).
Proof.
  destruct o as [c|l]; simpl.
  - intros [= <-]. done.
  - destruct (view σ l) as [w|] eqn:Ew; [|done]. intros [= <-].
    unfold bind. rewrite (load_ok _ _ _ Ew). done.
Qed.

Lemma arg_of_extends σ σ' o a :
  extends σ σ' → arg_of σ o = Some a → arg_of σ' o = Some a.
Proof.
  intros X. destruct o as [c|l]; simpl; [done|].
  destruct (view σ l) as [w|] eqn:Ew; [|done].
  rewrite (view_extends _ _ _ _ X Ew). done.
Qed.

Lemma call2_spec f σ l o v a r :
  view σ l = Some v → arg_of σ o = Some a → f v a = Ok r →
  ∃ σ' l', pd.call2 f l o σ = (σ', Ok l') ∧ extends σ σ' ∧
           view σ' l' = Some r ∧ owned σ σ' l'.
Proof.
  intros Hv Ha Hf. unfold pd.call2.
  rewrite (bind_ok _ _ _ _ _ (load_ok _ _ _ Hv)).
  rewrite (bind_ok _ _ _ _ _ (load_arg_ok _ _ _ Ha)).
  unfold lift at 1. unfold bind at 1. rewrite Hf.
  apply new_series_spec.
Qed.

Lemma call2_raise f σ l o v a e :
  view σ l = Some v → arg_of σ o = Some a → f v a = Raise e →
  pd.call2 f l o σ = (σ, Raise e).
Proof.
  intros Hv Ha Hf. unfold pd.call2.
  rewrite (bind_ok _ _ _ _ _ (load_ok _ _ _ Hv)).
  rewrite (bind_ok _ _ _ _ _ (load_arg_ok _ _ _ Ha)).
  unfold lift, bind. rewrite Hf. done.
Qed.

Lemma get_spec {A} (f : PdSeries → result A) σ l v :
  view σ l = Some v → pd.get f l σ = (σ, f v).
Proof.
  intros Hv. unfold pd.get.
  rewrite (bind_ok _ _ _ _ _ (load_ok _ _ _ Hv)). done.
Qed.

Lemma get_ok {A} (f : PdSeries → result A) σ l v a :
  view σ l = Some v → f v = Ok a → pd.get f l σ = (σ, Ok a).
Proof. intros Hv Hf. rewrite (get_spec _ _ _ _ Hv). by rewrite Hf. Qed.

Lemma name_spec σ l v : view σ l = Some v → pd.name l σ = (σ, Ok (pd_name v)).
Proof. intros Hv. unfold pd.name. by rewrite (get_spec _ _ _ _ Hv). Qed.

Lemma index_spec σ l v : view σ l = Some v → pd.index l σ = (σ, Ok (pd_index v)).
Proof. intros Hv. unfold pd.index. by rewrite (get_spec _ _ _ _ Hv). Qed.

Lemma dtype_of_spec σ l v : view σ l = Some v → pd.dtype_of l σ = (σ, Ok (pd_dtype v)).
Proof. intros Hv. unfold pd.dtype_of. by rewrite (get_spec _ _ _ _ Hv). Qed.

Lemma from_series_spec self σ l v n :
  view σ l = Some v → pd_name v = Some n →
  ∃ σ' s, column_object._from_series self l σ = (σ', Ok s) ∧ extends σ σ' ∧
          view σ' (column_object.column s) = Some v ∧
          column_object.name s = n ∧
          objs σ !! column_object.column s = None.
Proof.
  intros Hv Hn. unfold column_object._from_series, pd.rename_nocopy.
  rewrite (bind_ok _ _ _ _ _ (name_spec _ _ _ Hv)).
  destruct (share_spec σ l v (pd_name v) Hv) as (σ' & l' & E & X & V & F).
  rewrite (bind_ok _ _ _ _ _ E).
  unfold column_object.__init__.
  rewrite (bind_ok _ _ _ _ _ (name_spec _ _ _ V)). simpl. rewrite Hn.
  eexists _, _. split; [reflexivity|]. simpl.
  split; [done|]. split; [|done]. rewrite V. by destruct v.
Qed.

Lemma one_column_view cs d :
  view (one_column cs d) (column_object.column column_a)
  = Some (mkPdSeries cs (seqZ 0 (Z.of_nat (length cs))) (Some "a") d).
Proof. reflexivity. Qed.

(** ** Reverse division, power and modulo *)

(** C4.  Each of [__rtruediv__], [__rfloordiv__], [__rpow__] and
    [__rmod__] fails with [NotImplementedError], for every column and
    every operand, and leaves the store as it found it: no native value
    is read, made or written. *)
Theorem reverse_operators_not_implemented
    (self : column_object.Series) (other : column_object.comparand) (σ : store) :
  column_object.__rtruediv__ self other σ = (σ, Raise NotImplementedError) ∧
  column_object.__rfloordiv__ self other σ = (σ, Raise NotImplementedError) ∧
  column_object.__rpow__ self other σ = (σ, Raise NotImplementedError) ∧
  column_object.__rmod__ self other σ = (σ, Raise NotImplementedError).
Proof. repeat split. Qed.

(** ** Reductions and [skip_nulls] *)

(** C5.  For every column, every store and every backend, each of the
    eleven reductions returns the same result, and leaves the same store,
    with [skip_nulls=True] as with [skip_nulls=False]. *)
Theorem skip_nulls_has_no_effect `{B : Backend}
    (r : reduction_name) (self : column_object.Series) (σ : store) :
  reduce r self true σ = reduce r self false σ.
Proof. destruct r; reflexivity. Qed.

(** ** The cumulative maximum *)

(** C9.  On the column [a = [1, 3, None, 2]], [cumulative_max] yields
    [[1, 3, None, 3]], and reversing, taking the cumulative maximum and
    reversing again yields [[3, 3, None, 2]]; both as a float column, where
    [None] is stored as [NaN], and as a nullable integer column, where it
    is stored as [NA]. *)
Theorem cumulative_max_example :
  let reverse_cum_max self :=
    let* reversed := column_object.slice_rows self None None (Some (-1)%Z) in
    let* running := column_object.cumulative_max reversed true in
    column_object.slice_rows running None None (Some (-1)%Z) in
  slots (column_object.cumulative_max column_a true)
    (one_column [Num 1; Num 3; NaN; Num 2] float64)
  = Ok [Num 1; Num 3; NaN; Num 3] ∧
  slots (reverse_cum_max column_a)
    (one_column [Num 1; Num 3; NaN; Num 2] float64)
  = Ok [Num 3; Num 3; NaN; Num 2] ∧
  slots (column_object.cumulative_max column_a true)
    (one_column [Num 1; Num 3; NA; Num 2] (Int W64))
  = Ok [Num 1; Num 3; NA; Num 3] ∧
  slots (reverse_cum_max column_a)
    (one_column [Num 1; Num 3; NA; Num 2] (Int W64))
  = Ok [Num 3; Num 3; NA; Num 2].
Proof. repeat split; vm_compute; reflexivity. Qed.

(** ** Elementwise calls, slot by slot *)

Lemma result_mapM_total {A B} (f : A → result B) (g : A → B) (l : list A) :
  (∀ x, f x = Ok (g x)) → result_mapM f l = Ok (map g l).
Proof.
  intros Hf. induction l as [|x l IH]; simpl; [done|].
  rewrite Hf, IH. done.
Qed.

Lemma zip_with_replicate {A B C} (f : A → B → C) (l : list A) (b : B) :
  zip_with f l (replicate (length l) b) = map (λ x, f x b) l.
Proof. induction l as [|x l IH]; simpl; [done|]. by rewrite IH. Qed.

Lemma zip_self {A} (l : list A) : zip l l = map (λ x, (x, x)) l.
Proof. induction l as [|x l IH]; simpl; [done|]. by rewrite IH. Qed.

Lemma broadcast_self v :
  Pandas.broadcast (length (pd_values v)) (Pandas.Column v) = Ok (pd_values v).
Proof. unfold Pandas.broadcast. rewrite decide_True; done. Qed.

(** [ser != ser] *)
Lemma compare_ne_self v :
  Pandas.compare Pandas.NE v (Pandas.Column v)
  = Ok (mkPdSeries (map (λ c, Pandas.cell_cmp Pandas.NE c c) (pd_values v))
          (pd_index v) (pd_name v) (Pandas.cmp_dtype v (Pandas.Column v))).
Proof.
  unfold Pandas.compare, Pandas.elementwise. rewrite broadcast_self. simpl.
  rewrite zip_self.
  rewrite (result_mapM_total _ (λ p, Pandas.cell_cmp Pandas.NE p.1 p.2)) by done.
  simpl. rewrite map_map. simpl. rewrite decide_True by done. done.
Qed.

(** [ser.fillna(scalar)] *)
Lemma fillna_scalar v c :
  Pandas.fillna v (Pandas.Scalar c)
  = Ok (mkPdSeries
          (map (λ x, if Pandas.cell_isna (pd_dtype v) x
                     then Pandas.coerce (pd_dtype v) c else x) (pd_values v))
          (pd_index v) (pd_name v) (pd_dtype v)).
Proof. unfold Pandas.fillna. simpl. rewrite zip_with_replicate. done. Qed.

Lemma self_unequal_filled d c :
  (let u := Pandas.cell_cmp Pandas.NE c c in
   if Pandas.cell_isna d u then Pandas.coerce d (Bool false) else u)
  = self_unequal c.
Proof.
  destruct c as [| | |z|b]; simpl; try done.
  - by rewrite Z.eqb_refl.
  - by rewrite Z.eqb_refl.
Qed.

(** ** [is_null] and [is_nan] *)

(** A method of the shape
    [ser = self.column; return self._from_series(f(ser))]. *)
Lemma unary_spec f self σ v r n :
  view σ (column_object.column self) = Some v → f v = Ok r → pd_name r = Some n →
  ∃ σ' s,
    bind (pd.call f (column_object.column self)) (column_object._from_series self) σ
    = (σ', Ok s) ∧
    extends σ σ' ∧ view σ' (column_object.column s) = Some r ∧
    column_object.name s = n ∧ objs σ !! column_object.column s = None.
Proof.
  intros Hv Hf Hn.
  destruct (call_spec f σ _ v r Hv Hf) as (σ1 & l1 & E1 & X1 & V1 & O1).
  rewrite (bind_ok _ _ _ _ _ E1).
  destruct (from_series_spec self σ1 l1 r n V1 Hn) as (σ2 & s & E2 & X2 & V2 & N2 & F2).
  exists σ2, s. split; [done|]. split; [by etrans|]. split; [done|]. split; [done|].
  eapply extends_fresh_object; eassumption.
Qed.

Lemma is_null_spec self σ v n :
  view σ (column_object.column self) = Some v → pd_name v = Some n →
  ∃ σ' s w,
    column_object.is_null self σ = (σ', Ok s) ∧ extends σ σ' ∧
    view σ' (column_object.column s) = Some w ∧
    pd_values w = map (λ c, Bool (Pandas.cell_isna (pd_dtype v) c)) (pd_values v) ∧
    objs σ !! column_object.column s = None.
Proof.
  intros Hv Hn.
  destruct (unary_spec Pandas.isna self σ v _ n Hv eq_refl Hn)
    as (σ' & s & E & X & V & _ & F).
  exists σ', s. eexists. split; [exact E|]. split; [done|]. split; [exact V|]. done.
Qed.

Lemma is_nan_extension_spec self σ v n :
  view σ (column_object.column self) = Some v → pd_name v = Some n →
  is_extension_array_dtype (pd_dtype v) = true →
  ∃ σ' s w,
    column_object.is_nan self σ = (σ', Ok s) ∧ extends σ σ' ∧
    view σ' (column_object.column s) = Some w ∧
    pd_values w = map self_unequal (pd_values v) ∧
    objs σ !! column_object.column s = None.
Proof.
  intros Hv Hn Hext. unfold column_object.is_nan.
  rewrite (bind_ok _ _ _ _ _ (dtype_of_spec _ _ _ Hv)). rewrite Hext.
  assert (Ha : arg_of σ (pd.Native (column_object.column self)) = Some (Pandas.Column v))
    by (simpl; by rewrite Hv).
  destruct (call2_spec _ σ _ _ v _ _ Hv Ha (compare_ne_self v))
    as (σ1 & l1 & E1 & X1 & V1 & _).
  rewrite (bind_ok _ _ _ _ _ E1).
  destruct (call2_spec Pandas.fillna σ1 l1 (pd.Scalar (Bool false)) _ _ _ V1 eq_refl
              (fillna_scalar _ _)) as (σ2 & l2 & E2 & X2 & V2 & _).
  rewrite (bind_ok _ _ _ _ _ E2).
  destruct (from_series_spec self σ2 l2 _ n V2 Hn) as (σ3 & s & E3 & X3 & V3 & _ & F3).
  exists σ3, s. eexists. split; [exact E3|]. split; [by do 2 (etrans; [eassumption|])|].
  split; [exact V3|]. split.
  - simpl. rewrite map_map. apply map_ext. intros c. apply self_unequal_filled.
  - eapply extends_fresh_object; [|exact F3]. by etrans.
Qed.

(** A well-typed extension column that holds a [NaN] is a nullable float
    column. *)
Lemma extension_with_NaN_is_masked_float v :
  well_typed v → is_extension_array_dtype (pd_dtype v) = true →
  NaN ∈ pd_values v → pd_dtype v = Float32 ∨ pd_dtype v = Float64.
Proof.
  intros Hwt Hext Hin. unfold well_typed in Hwt. rewrite Forall_forall in Hwt.
  specialize (Hwt _ Hin). destruct (pd_dtype v) as [| | | | | | | | | |[tz|]|]; simpl in *;
    try discriminate; auto.
Qed.

(** C2.  On a well-typed extension column that holds a floating [NaN]
    (next to a true null or not), [is_nan()] and [is_null()] both succeed
    and no position is true in both of their results. *)
Theorem is_nan_is_null_disjoint (self : column_object.Series) (σ : store)
    (v : PdSeries) (n : string) :
  view σ (column_object.column self) = Some v →
  pd_name v = Some n →
  well_typed v →
  is_extension_array_dtype (pd_dtype v) = true →
  NaN ∈ pd_values v →
  ∃ σ1 nans σ2 nulls vn vl,
    column_object.is_nan self σ = (σ1, Ok nans) ∧
    column_object.is_null self σ1 = (σ2, Ok nulls) ∧
    view σ2 (column_object.column nans) = Some vn ∧
    view σ2 (column_object.column nulls) = Some vl ∧
    length (pd_values vn) = length (pd_values v) ∧
    length (pd_values vl) = length (pd_values v) ∧
    ∀ i, ¬ (pd_values vn !! i = Some (Bool true) ∧
            pd_values vl !! i = Some (Bool true)).
Proof.
  intros Hv Hn Hwt Hext Hin.
  destruct (is_nan_extension_spec self σ v n Hv Hn Hext)
    as (σ1 & nans & vn & E1 & X1 & V1 & L1 & _).
  destruct (is_null_spec self σ1 v n (view_extends _ _ _ _ X1 Hv) Hn)
    as (σ2 & nulls & vl & E2 & X2 & V2 & L2 & _).
  exists σ1, nans, σ2, nulls, vn, vl.
  split; [done|]. split; [done|]. split; [by eapply view_extends|]. split; [done|].
  rewrite L1, L2, !length_map. split; [done|]. split; [done|].
  intros i [Hi1 Hi2].
  rewrite list_lookup_fmap in Hi1. rewrite list_lookup_fmap in Hi2.
  destruct (pd_values v !! i) as [c|] eqn:Ec; [|done]. simpl in *.
  assert (Hfit : fits (pd_dtype v) c = true).
  { unfold well_typed in Hwt. rewrite Forall_forall in Hwt.
    apply Hwt. eapply list_elem_of_lookup_2. eassumption. }
  destruct (extension_with_NaN_is_masked_float v Hwt Hext Hin) as [Hd|Hd];
    rewrite Hd in *; destruct c; simpl in *; congruence.
Qed.

Lemma is_nan_is_null_disjoint_witness :
  ∃ σ1 nans σ2 nulls vn vl,
    column_object.is_nan column_a (one_column [NA; NaN; Num 1] Float64) = (σ1, Ok nans) ∧
    column_object.is_null column_a σ1 = (σ2, Ok nulls) ∧
    view σ2 (column_object.column nans) = Some vn ∧
    view σ2 (column_object.column nulls) = Some vl ∧
    length (pd_values vn) = 3%nat ∧
    length (pd_values vl) = 3%nat ∧
    ∀ i, ¬ (pd_values vn !! i = Some (Bool true) ∧
            pd_values vl !! i = Some (Bool true)).
Proof.
  apply (is_nan_is_null_disjoint column_a (one_column [NA; NaN; Num 1] Float64)
           (mkPdSeries [NA; NaN; Num 1] [0; 1; 2]%Z (Some "a") Float64) "a").
  - reflexivity.
  - reflexivity.
  - repeat constructor.
  - reflexivity.
  - set_solver.
Defined.

(** ** [unix_timestamp] and its time unit *)

Lemma sub_epoch_spec v :
  pd_dtype v = datetime64 None →
  ∃ cs, Pandas.sub_epoch v = Ok (mkPdSeries cs (pd_index v) (pd_name v) timedelta64).
Proof.
  intros Hd. unfold Pandas.sub_epoch, Pandas.map_cells. rewrite Hd.
  rewrite (result_mapM_total _
             (λ c, match Pandas.cell_arith timedelta64 Pandas.SUB c (Num 0) with
                   | Ok d => d
                   | Raise _ => c
                   end)).
  - simpl. eauto.
  - intros [| | |z|b]; reflexivity.
Qed.

(** The elapsed time since the epoch, as [unix_timestamp] computes it
    first: a timedelta Series under the index and the name of the
    column. *)
Lemma elapsed_spec σ l v tz :
  view σ l = Some v → pd_dtype v = datetime64 tz →
  ∃ σ' l' cs,
    (match tz with
     | None => pd.call Pandas.sub_epoch l
     | Some _ =>
         let* utc := pd.call (Pandas.tz_convert "UTC") l in
         let* naive := pd.call Pandas.tz_localize_none utc in
         pd.call Pandas.sub_epoch naive
     end) σ = (σ', Ok l') ∧
    extends σ σ' ∧
    view σ' l' = Some (mkPdSeries cs (pd_index v) (pd_name v) timedelta64).
Proof.
  intros Hv Hd. destruct tz as [tz|].
  - assert (H1 : Pandas.tz_convert "UTC" v
                 = Ok (mkPdSeries (pd_values v) (pd_index v) (pd_name v)
                         (datetime64 (Some "UTC"))))
      by (unfold Pandas.tz_convert; by rewrite Hd).
    destruct (call_spec _ σ l v _ Hv H1) as (σ1 & l1 & E1 & X1 & V1 & _).
    rewrite (bind_ok _ _ _ _ _ E1).
    destruct (call_spec Pandas.tz_localize_none σ1 l1 _ _ V1 eq_refl)
      as (σ2 & l2 & E2 & X2 & V2 & _).
    rewrite (bind_ok _ _ _ _ _ E2).
    destruct (sub_epoch_spec (mkPdSeries (pd_values v) (pd_index v) (pd_name v) (datetime64 None))
                eq_refl) as [cs Hs].
    destruct (call_spec _ σ2 l2 _ _ V2 Hs) as (σ3 & l3 & E3 & X3 & V3 & _).
    exists σ3, l3, cs. split; [done|]. split; [|done].
    by do 2 (etrans; [eassumption|]).
  - destruct (sub_epoch_spec v Hd) as [cs Hs].
    destruct (call_spec _ σ l v _ Hv Hs) as (σ1 & l1 & E1 & X1 & V1 & _).
    exists σ1, l1, cs. done.
Qed.

(** [pd.Series(data, name=...)] handed to [_from_series]. *)
Lemma series_wrapped self σ cs idx n d :
  ∃ σ' s,
    bind (pd.Series cs idx (Some n) d) (column_object._from_series self) σ = (σ', Ok s) ∧
    extends σ σ' ∧
    view σ' (column_object.column s) = Some (mkPdSeries cs idx (Some n) d) ∧
    objs σ !! column_object.column s = None.
Proof.
  destruct (new_series_spec σ (mkPdSeries cs idx (Some n) d))
    as (σ1 & l1 & E1 & X1 & V1 & _).
  unfold pd.Series. rewrite (bind_ok _ _ _ _ _ E1).
  destruct (from_series_spec self σ1 l1 _ n V1 eq_refl) as (σ2 & s & E2 & X2 & V2 & _ & F2).
  exists σ2, s. split; [done|]. split; [by etrans|]. split; [done|].
  eapply extends_fresh_object; eassumption.
Qed.

(** C8.  On a datetime column, [unix_timestamp] returns a column for each
    of the units ["s"], ["ms"], ["us"] and ["ns"], and fails with an
    [AssertionError] for every other [time_unit]. *)
Theorem unix_timestamp_time_unit (self : column_object.Series) (σ : store)
    (v : PdSeries) (n : string) (tz : option string) (time_unit : string) :
  view σ (column_object.column self) = Some v →
  pd_name v = Some n →
  pd_dtype v = datetime64 tz →
  (time_unit ∈ time_units →
   ∃ σ' s, column_object.unix_timestamp self time_unit σ = (σ', Ok s)) ∧
  (time_unit ∉ time_units →
   ∃ σ', column_object.unix_timestamp self time_unit σ = (σ', Raise AssertionError)).
Proof.
  intros Hv Hn Hd. unfold column_object.unix_timestamp.
  assert (Htz : Pandas.dt_tz v = Ok tz) by (unfold Pandas.dt_tz; by rewrite Hd).
  rewrite (bind_ok _ _ _ _ _ (get_ok _ _ _ _ _ Hv Htz)).
  destruct (elapsed_spec σ _ v tz Hv Hd) as (σ1 & l1 & cs & E1 & X1 & V1).
  rewrite (bind_ok _ _ _ _ _ E1).
  rewrite (bind_ok _ _ _ _ _ (load_ok _ _ _ V1)).
  rewrite (bind_ok _ _ _ _ _ (name_spec _ _ _ (view_extends _ _ _ _ X1 Hv))).
  rewrite Hn. simpl.
  destruct (String.eqb time_unit "s") eqn:Es.
  { apply String.eqb_eq in Es; subst.
    split; [intros _|intros H; exfalso; apply H; unfold time_units;
                     rewrite !elem_of_cons; tauto].
    destruct (series_wrapped self σ1
                (np.to_cells (np.floor (Timedelta.total_seconds cs)))
                (pd_index v) n float64) as (σ2 & s & E2 & _).
    eauto. }
  destruct (String.eqb time_unit "ms") eqn:Ems.
  { apply String.eqb_eq in Ems; subst.
    split; [intros _|intros H; exfalso; apply H; unfold time_units;
                     rewrite !elem_of_cons; tauto].
    match goal with
    | |- ∃ _ _, bind (pd.Series ?a ?b _ ?d) _ _ = _ =>
        destruct (series_wrapped self σ1 a b n d) as (σ2 & s & E2 & _)
    end.
    eauto. }
  destruct (String.eqb time_unit "us") eqn:Eus.
  { apply String.eqb_eq in Eus; subst.
    split; [intros _|intros H; exfalso; apply H; unfold time_units;
                     rewrite !elem_of_cons; tauto].
    match goal with
    | |- ∃ _ _, bind (pd.Series ?a ?b _ ?d) _ _ = _ =>
        destruct (series_wrapped self σ1 a b n d) as (σ2 & s & E2 & _)
    end.
    eauto. }
  destruct (String.eqb time_unit "ns") eqn:Ens.
  { apply String.eqb_eq in Ens; subst.
    split; [intros _|intros H; exfalso; apply H; unfold time_units;
                     rewrite !elem_of_cons; tauto].
    match goal with
    | |- ∃ _ _, bind (pd.Series ?a ?b _ ?d) _ _ = _ =>
        destruct (series_wrapped self σ1 a b n d) as (σ2 & s & E2 & _)
    end.
    eauto. }
  apply String.eqb_neq in Es, Ems, Eus, Ens.
  split; [|intros _; eexists; reflexivity].
  unfold time_units. rewrite !elem_of_cons, elem_of_nil. tauto.
Qed.

Lemma unix_timestamp_time_unit_witness :
  let σ := one_column [Num 1700000000000000000; NaT] (datetime64 None) in
  (∃ σ' s, column_object.unix_timestamp column_a "ms" σ = (σ', Ok s)) ∧
  (∃ σ', column_object.unix_timestamp column_a "minutes" σ = (σ', Raise AssertionError)).
Proof.
  intros σ.
  destruct (unix_timestamp_time_unit column_a σ
              (mkPdSeries [Num 1700000000000000000; NaT] [0; 1]%Z (Some "a")
                 (datetime64 None)) "a" None "ms" eq_refl eq_refl eq_refl) as [H _].
  destruct (unix_timestamp_time_unit column_a σ
              (mkPdSeries [Num 1700000000000000000; NaT] [0; 1]%Z (Some "a")
                 (datetime64 None)) "a" None "minutes" eq_refl eq_refl eq_refl) as [_ H'].
  split.
  - apply H. apply (bool_decide_unpack ("ms" ∈ time_units)). vm_compute. exact I.
  - apply H'. apply (bool_decide_unpack ("minutes" ∉ time_units)). vm_compute. exact I.
Defined.

(** ** Binary operators *)

Lemma validate_spec self other σ v a :
  view σ (column_object.column self) = Some v →
  comparand_arg σ v other = Some a →
  ∃ o, column_object.validate_column_comparand self other σ = (σ, Ok o) ∧
       arg_of σ o = Some a.
Proof.
  intros Hv Ha. destruct other as [c|o]; simpl in *.
  - injection Ha as <-. eexists. split; reflexivity.
  - destruct (view σ (column_object.column o)) as [w|] eqn:Ew; [|done].
    destruct (decide (pd_index v = pd_index w)) as [Hi|]; [|done].
    injection Ha as <-.
    rewrite (bind_ok _ _ _ _ _ (index_spec _ _ _ Hv)).
    rewrite (bind_ok _ _ _ _ _ (index_spec _ _ _ Ew)).
    rewrite decide_True by done.
    eexists. split; [reflexivity|]. simpl. by rewrite Ew.
Qed.

Lemma binary_spec f self other σ v a r n :
  view σ (column_object.column self) = Some v → pd_name v = Some n →
  comparand_arg σ v other = Some a → f v a = Ok r →
  ∃ σ' s,
    column_object.binary f self other σ = (σ', Ok s) ∧ extends σ σ' ∧
    view σ' (column_object.column s)
    = Some (mkPdSeries (pd_values r) (pd_index r) (Some n) (pd_dtype r)) ∧
    objs σ !! column_object.column s = None.
Proof.
  intros Hv Hn Ha Hf. unfold column_object.binary, column_object.retag.
  destruct (validate_spec self other σ v a Hv Ha) as (o & Eo & Ho).
  rewrite (bind_ok _ _ _ _ _ Eo).
  destruct (call2_spec f σ _ o v a r Hv Ho Hf) as (σ1 & l1 & E1 & X1 & V1 & _).
  rewrite (bind_ok _ _ _ _ _ E1).
  rewrite (bind_ok _ _ _ _ _ (name_spec _ _ _ (view_extends _ _ _ _ X1 Hv))).
  destruct (share_spec σ1 l1 r (pd_name v) V1) as (σ2 & l2 & E2 & X2 & V2 & _).
  unfold pd.rename_nocopy. rewrite (bind_ok _ _ _ _ _ E2).
  rewrite Hn in V2.
  destruct (from_series_spec self σ2 l2 _ n V2 eq_refl) as (σ3 & s & E3 & X3 & V3 & _ & F3).
  exists σ3, s. split; [done|]. split; [by do 2 (etrans; [eassumption|])|].
  split; [done|]. eapply extends_fresh_object; [|exact F3]. by etrans.
Qed.

Lemma binary_raise f self other σ v a e :
  view σ (column_object.column self) = Some v →
  comparand_arg σ v other = Some a → f v a = Raise e →
  column_object.binary f self other σ = (σ, Raise e).
Proof.
  intros Hv Ha Hf. unfold column_object.binary.
  destruct (validate_spec self other σ v a Hv Ha) as (o & Eo & Ho).
  rewrite (bind_ok _ _ _ _ _ Eo).
  by rewrite (bind_raise _ _ _ _ _ (call2_raise f σ _ o v a e Hv Ho Hf)).
Qed.

(** ** The reflected subtraction *)

Lemma wrap_signed_negate n a :
  (0 < n)%Z →
  Pandas.wrap_signed n (Pandas.wrap_signed n a * -1) = Pandas.wrap_signed n (- a).
Proof.
  intros Hn. unfold Pandas.wrap_signed. f_equal.
  assert (0 < 2 ^ n)%Z by (apply Z.pow_pos_nonneg; lia).
  set (h := (2 ^ (n - 1))%Z). set (m := (2 ^ n)%Z) in *.
  replace (((a + h) mod m - h) * -1 + h)%Z with (- a + h + (a + h) / m * m)%Z.
  - apply Z_mod_plus_full.
  - rewrite (Z.mod_eq (a + h) m) by lia. lia.
Qed.

Lemma bits_positive w : (0 < Pandas.bits w)%Z.
Proof. by destruct w. Qed.

(** The dtypes whose values have their negative in the dtype: the signed
    integers, the floats and the timedeltas. *)
Lemma wrap_negate d a :
  closed_under_negation d = true →
  Pandas.wrap d (Pandas.wrap d a * -1) = Pandas.wrap d (- a).
Proof.
  destruct d; simpl; try discriminate; intros _;
    try (apply wrap_signed_negate; try apply bits_positive; lia); lia.
Qed.

Lemma arith_rsub d x y :
  closed_under_negation d = true →
  Pandas.arith_Z d Pandas.MUL (Pandas.arith_Z d Pandas.SUB x y) (-1)
  = Pandas.arith_Z d Pandas.SUB y x.
Proof.
  intros Hd. unfold Pandas.arith_Z. rewrite wrap_negate by done. f_equal. lia.
Qed.

(** One slot: negating the difference gives the reversed difference, and
    the one is refused exactly when the other is. *)
Lemma cell_rsub d x y :
  closed_under_negation d = true →
  match Pandas.cell_arith d Pandas.SUB x y with
  | Ok c => Pandas.cell_arith d Pandas.MUL c (Num (-1))
            = Pandas.cell_arith d Pandas.SUB y x
  | Raise e => Pandas.cell_arith d Pandas.SUB y x = Raise e
  end.
Proof.
  intros Hd.
  destruct x as [| | |x|x], y as [| | |y|y]; cbn -[Pandas.arith_Z];
    try reflexivity; by rewrite arith_rsub.
Qed.

Lemma cell_mul_number d c z :
  ∃ c', Pandas.cell_arith d Pandas.MUL c (Num z) = Ok c'.
Proof. destruct c; simpl; eauto. Qed.

Lemma cells_rsub d (l : list (cell * cell)) :
  closed_under_negation d = true →
  match result_mapM (λ p, Pandas.cell_arith d Pandas.SUB p.1 p.2) l with
  | Ok ds =>
      result_mapM (λ p, Pandas.cell_arith d Pandas.MUL p.1 p.2)
        (zip ds (replicate (length ds) (Num (-1))))
      = result_mapM (λ p, Pandas.cell_arith d Pandas.SUB p.2 p.1) l
  | Raise e => result_mapM (λ p, Pandas.cell_arith d Pandas.SUB p.2 p.1) l = Raise e
  end.
Proof.
  intros Hd. induction l as [|[x y] l IH]; simpl; [done|].
  pose proof (cell_rsub d x y Hd) as Hc.
  destruct (Pandas.cell_arith d Pandas.SUB x y) as [c|e]; simpl.
  - destruct (result_mapM (λ p, Pandas.cell_arith d Pandas.SUB p.1 p.2) l) as [ds|e];
      simpl.
    + rewrite Hc, IH. done.
    + rewrite <- Hc, IH.
      by destruct (cell_mul_number d c (-1)) as [c' ->].
  - by rewrite Hc.
Qed.

Lemma dtype_in_family d : Pandas.dtype_in (is_masked d) (Pandas.family_of d) = d.
Proof. by destruct d. Qed.

(** Multiplying by the Python integer [-1] keeps such a dtype, under
    either numpy. *)
Lemma negation_dtype np v :
  closed_under_negation (pd_dtype v) = true →
  Pandas.arith_dtype np Pandas.MUL v (Pandas.Scalar (Num (-1))) = Ok (pd_dtype v).
Proof.
  intros Hd. unfold Pandas.arith_dtype. destruct v as [cs idx name d]. simpl in *.
  destruct d as [w|w| | | |w|w| | | |tz|]; try discriminate;
    destruct np; try destruct w; reflexivity.
Qed.

(** The difference and the reversed difference have the same dtype when
    it is one of these. *)
Lemma column_family_sub_comm a b f :
  Pandas.column_family Pandas.SUB a b = Ok f →
  closed_under_negation (Pandas.dtype_in false f) = true →
  Pandas.column_family Pandas.SUB b a = Ok f.
Proof.
  destruct a as [|[]|[]| | |tz|], b as [|[]|[]| | |tz'|]; simpl;
    intros [= <-]; simpl; try discriminate; reflexivity.
Qed.

Lemma closed_under_negation_mask m m' f :
  closed_under_negation (Pandas.dtype_in m f)
  = closed_under_negation (Pandas.dtype_in m' f).
Proof. by destruct f, m, m'. Qed.

Lemma rsub_dtype_closed np v a d :
  Pandas.arith_dtype np Pandas.SUB v a = Ok d →
  closed_under_negation d = true →
  Pandas.rsub_dtype np v a = Ok d.
Proof.
  destruct a as [c|w]; [done|].
  unfold Pandas.arith_dtype, Pandas.rsub_dtype. cbn [Pandas.arith_family].
  destruct (Pandas.column_family Pandas.SUB (Pandas.family_of (pd_dtype v))
              (Pandas.family_of (pd_dtype w))) as [f|] eqn:Hf;
    cbn [result_bind]; [|done].
  destruct (Pandas.checked Pandas.SUB f) as [f'|] eqn:Hc; cbn [result_bind]; [|done].
  intros [= <-] Hd.
  assert (f' = f) as -> by (destruct f; simpl in Hc; congruence).
  rewrite (column_family_sub_comm _ _ f Hf).
  - cbn [result_bind]. by rewrite Hc.
  - by rewrite (closed_under_negation_mask _ false f) in Hd.
Qed.

(** X1.  Where the difference has such a dtype, [c.__rsub__(v)], computed as
    [-1 * (c - v)], holds slot by slot what pandas' own [v - c] holds, and
    fails with the same error when [v - c] fails. *)
Lemma rsub_is_reversed_difference `{B : Backend} (self : column_object.Series)
    (other : column_object.comparand) (σ : store) (v : PdSeries) (n : string)
    (a : Pandas.arg) (d : dtype) :
  view σ (column_object.column self) = Some v →
  pd_name v = Some n →
  comparand_arg σ v other = Some a →
  Pandas.arith_dtype bk_numpy Pandas.SUB v a = Ok d →
  closed_under_negation d = true →
  match Pandas.rsub bk_numpy v a with
  | Ok r =>
      ∃ σ' s w, column_object.__rsub__ self other σ = (σ', Ok s) ∧
                view σ' (column_object.column s) = Some w ∧
                pd_values w = pd_values r ∧ pd_dtype w = pd_dtype r
  | Raise e => ∃ σ', column_object.__rsub__ self other σ = (σ', Raise e)
  end.
Proof.
  intros Hv Hn Ha Hd Hclosed.
  unfold column_object.__rsub__, column_object.__rmul__, column_object.__mul__,
    column_object.__sub__.
  pose proof (cells_rsub d) as Hl.
  unfold Pandas.rsub. rewrite (rsub_dtype_closed _ _ _ _ Hd Hclosed). simpl.
  unfold Pandas.elementwise.
  destruct (Pandas.broadcast (length (pd_values v)) a) as [ws|e] eqn:Hb; simpl.
  - specialize (Hl (zip (pd_values v) ws) Hclosed).
    destruct (result_mapM (λ p, Pandas.cell_arith d Pandas.SUB p.1 p.2)
                (zip (pd_values v) ws)) as [ds|e] eqn:Hs.
    + assert (Hsub : Pandas.arithmetic bk_numpy Pandas.SUB v a
                     = Ok (mkPdSeries ds (pd_index v) (Pandas.result_name v a) d)).
      { unfold Pandas.arithmetic, Pandas.elementwise. rewrite Hd. simpl.
        rewrite Hb. simpl. by rewrite Hs. }
      destruct (binary_spec _ self other σ v a _ n Hv Hn Ha Hsub)
        as (σ1 & s1 & E1 & X1 & V1 & _).
      rewrite (bind_ok _ _ _ _ _ E1). simpl in V1.
      rewrite <- Hl.
      set (v1 := mkPdSeries ds (pd_index v) (Some n) d) in V1.
      assert (Hm1 : Pandas.arithmetic bk_numpy Pandas.MUL v1 (Pandas.Scalar (Num (-1)))
                    = result_bind
                        (result_mapM (λ p, Pandas.cell_arith d Pandas.MUL p.1 p.2)
                           (zip ds (replicate (length ds) (Num (-1)))))
                        (λ cs, Ok (mkPdSeries cs (pd_index v) (Some n) d))).
      { unfold Pandas.arithmetic. rewrite (negation_dtype bk_numpy v1 Hclosed).
        reflexivity. }
      destruct (result_mapM (λ p, Pandas.cell_arith d Pandas.MUL p.1 p.2)
                  (zip ds (replicate (length ds) (Num (-1))))) as [cs|e] eqn:Hm;
        simpl in Hm1; simpl.
      * destruct (binary_spec (Pandas.arithmetic bk_numpy Pandas.MUL) s1
                    (column_object.Value (Num (-1))) σ1 v1 (Pandas.Scalar (Num (-1)))
                    _ n V1 eq_refl eq_refl Hm1) as (σ2 & s2 & E2 & X2 & V2 & _).
        exists σ2, s2. eexists. split; [exact E2|]. split; [exact V2|]. done.
      * exists σ1.
        exact (binary_raise (Pandas.arithmetic bk_numpy Pandas.MUL) s1
                 (column_object.Value (Num (-1))) σ1 v1 (Pandas.Scalar (Num (-1))) e
                 V1 eq_refl Hm1).
    + rewrite Hl. simpl. exists σ.
      rewrite (bind_raise _ _ σ σ e); [done|].
      apply (binary_raise _ self other σ v a e Hv Ha).
      unfold Pandas.arithmetic, Pandas.elementwise. rewrite Hd. simpl.
      rewrite Hb. simpl. by rewrite Hs.
  - exists σ.
    rewrite (bind_raise _ _ σ σ e); [done|].
    apply (binary_raise _ self other σ v a e Hv Ha).
    unfold Pandas.arithmetic, Pandas.elementwise. rewrite Hd. simpl. by rewrite Hb.
Qed.

Lemma rsub_is_reversed_difference_witness :
  let σ := one_column [Num 1; NA; Num (-128)] (Int W8) in
  ∃ σ' s w,
    @column_object.__rsub__ example_backend column_a (column_object.Value (Num 5)) σ
    = (σ', Ok s) ∧
    view σ' (column_object.column s) = Some w ∧
    pd_values w = [Num 4; NA; Num (-123)] ∧ pd_dtype w = Int W8.
Proof.
  apply (@rsub_is_reversed_difference example_backend column_a
           (column_object.Value (Num 5))
           (one_column [Num 1; NA; Num (-128)] (Int W8))
           (mkPdSeries [Num 1; NA; Num (-128)] [0; 1; 2]%Z (Some "a") (Int W8)) "a"
           (Pandas.Scalar (Num 5)) (Int W8)); reflexivity.
Defined.

(** C10, at a failing input.  On the unsigned column [[1, 2, 3]] and the
    operand [5], pandas' own [5 - c] is [[4, 3, 2]].  [c - 5] wraps to
    [[252, 253, 254]], and [-1] is no unsigned number: before numpy 2 the
    product moves to 16-bit signed integers and [c.__rsub__(5)] is
    [[-252, -253, -254]]; since numpy 2 the product is refused and
    [c.__rsub__(5)] fails with an [OverflowError]. *)
Theorem rsub_of_unsigned_column :
  let σ := one_column [Num 1; Num 2; Num 3] (uint W8) in
  let c := mkPdSeries [Num 1; Num 2; Num 3] [0; 1; 2]%Z (Some "a") (uint W8) in
  view σ (column_object.column column_a) = Some c ∧
  result_bind (Pandas.rsub Pandas.legacy c (Pandas.Scalar (Num 5)))
    (λ r, Ok (pd_values r)) = Ok [Num 4; Num 3; Num 2] ∧
  result_bind (Pandas.rsub Pandas.nep50 c (Pandas.Scalar (Num 5)))
    (λ r, Ok (pd_values r)) = Ok [Num 4; Num 3; Num 2] ∧
  slots (@column_object.__rsub__ example_backend column_a (column_object.Value (Num 5))) σ
  = Ok [Num (-252); Num (-253); Num (-254)] ∧
  slots (@column_object.__rsub__ example_backend_nep50 column_a
           (column_object.Value (Num 5))) σ
  = Raise OverflowError.
Proof. repeat split; vm_compute; reflexivity. Qed.

(** ** Casting and the dtype tables *)

Lemma dtype_tables_round_trip (d : standard.DType) :
  map_pandas_dtype_to_standard_dtype (map_standard_dtype_to_pandas_dtype d) = Ok d.
Proof. destruct d as [t|t]; destruct t; reflexivity. Qed.

Lemma result_mapM_Forall {A B} (f : A → result B) (l : list A) :
  Forall (λ x, ∃ y, f x = Ok y) l → ∃ ys, result_mapM f l = Ok ys.
Proof.
  induction 1 as [|x l [y Hy] _ [ys IH]]; simpl; [eauto|].
  rewrite Hy, IH. simpl. eauto.
Qed.

(** C7.  For every column and every standard dtype, when the backend
    converts every slot of the column to the native dtype of the table,
    [cast] returns a column whose [dtype] is the standard dtype asked
    for. *)
Theorem cast_dtype_round_trip `{B : Backend} (self : column_object.Series)
    (σ : store) (v : PdSeries) (n : string) (d : standard.DType) :
  view σ (column_object.column self) = Some v →
  pd_name v = Some n →
  Forall (λ c, ∃ c', bk_convert (pd_dtype v) (map_standard_dtype_to_pandas_dtype d) c
                     = Ok c') (pd_values v) →
  ∃ σ' s, column_object.cast self d σ = (σ', Ok s) ∧
          column_object.dtype s σ' = (σ', Ok d).
Proof.
  intros Hv Hn Hc. apply result_mapM_Forall in Hc as [cs Hcs].
  destruct (unary_spec
              (Pandas.astype bk_convert (map_standard_dtype_to_pandas_dtype d))
              self σ v
              (mkPdSeries cs (pd_index v) (pd_name v) (map_standard_dtype_to_pandas_dtype d))
              n Hv) as (σ' & s & E & X & V & _).
  { unfold Pandas.astype, Pandas.map_cells. by rewrite Hcs. }
  { done. }
  exists σ', s. split; [exact E|].
  unfold column_object.dtype.
  rewrite (bind_ok _ _ _ _ _ (dtype_of_spec _ _ _ V)). simpl.
  unfold lift. by rewrite dtype_tables_round_trip.
Qed.

Lemma cast_dtype_round_trip_witness :
  ∃ σ' s,
    @column_object.cast example_backend column_a (standard.Plain standard.Float64)
      (one_column [Num 1; Num 2] (int W64)) = (σ', Ok s) ∧
    column_object.dtype s σ' = (σ', Ok (standard.Plain standard.Float64)).
Proof.
  apply (@cast_dtype_round_trip example_backend column_a
           (one_column [Num 1; Num 2] (int W64))
           (mkPdSeries [Num 1; Num 2] [0; 1]%Z (Some "a") (int W64)) "a"
           (standard.Plain standard.Float64)).
  - reflexivity.
  - reflexivity.
  - repeat constructor; eexists; reflexivity.
Defined.

(** ** No native value is ever mutated *)

(** *** Computations that only add to the store *)

Lemma grows_ret {A} (a : A) : grows (ret a).
Proof. intros σ. reflexivity. Qed.

Lemma grows_raise {A} e : grows (@raise A e).
Proof. intros σ. reflexivity. Qed.

Lemma grows_lift {A} (r : result A) : grows (lift r).
Proof. intros σ. reflexivity. Qed.

Lemma grows_bind {A B} (m : M A) (k : A → M B) :
  grows m → (∀ a, grows (k a)) → grows (bind m k).
Proof.
  intros Hm Hk σ. unfold bind. specialize (Hm σ).
  destruct (m σ) as [σ1 [a|e]]; simpl in *; [|done].
  etrans; [exact Hm|]. apply Hk.
Qed.

Lemma grows_load l : grows (load l).
Proof. intros σ. unfold load. by destruct (view σ l). Qed.

Lemma grows_new_series v : grows (new_series v).
Proof.
  intros σ. destruct (new_series_spec σ v) as (σ' & l & E & X & _).
  by rewrite E.
Qed.

Lemma grows_share l name : grows (share l name).
Proof.
  intros σ. unfold share, alloc_obj.
  destruct (objs σ !! l) as [o|]; simpl; [|done].
  split; simpl; [|done].
  apply insert_subseteq, not_elem_of_dom, is_fresh.
Qed.

Create HintDb grows.
#[local] Hint Resolve grows_ret grows_raise grows_lift grows_load grows_new_series
  grows_share : grows.

(** The binds, the conditionals and the matches of a method body, taken
    apart down to the calls. *)
Ltac grow :=
  repeat first
    [ match goal with |- ∀ _, _ => intro end
    | solve [auto with grows]
    | apply grows_bind
    | match goal with
      | |- grows (if ?b then _ else _) => destruct b
      | |- grows (match ?x with _ => _ end) => destruct x
      end ].

Lemma grows_call f l : grows (pd.call f l).
Proof. unfold pd.call. grow. Qed.

Lemma grows_load_arg o : grows (pd.load_arg o).
Proof. unfold pd.load_arg. grow. Qed.
#[local] Hint Resolve grows_call grows_load_arg : grows.

Lemma grows_call2 f l o : grows (pd.call2 f l o).
Proof. unfold pd.call2. grow. Qed.

Lemma grows_get {A} (f : PdSeries → result A) l : grows (pd.get f l).
Proof. unfold pd.get. grow. Qed.
#[local] Hint Resolve grows_call2 grows_get : grows.

Lemma grows_name l : grows (pd.name l).
Proof. unfold pd.name. grow. Qed.

Lemma grows_index l : grows (pd.index l).
Proof. unfold pd.index. grow. Qed.

Lemma grows_dtype_of l : grows (pd.dtype_of l).
Proof. unfold pd.dtype_of. grow. Qed.

Lemma grows_rename_nocopy l name : grows (pd.rename_nocopy l name).
Proof. unfold pd.rename_nocopy. grow. Qed.

Lemma grows_rename l name : grows (pd.rename l name).
Proof. unfold pd.rename. grow. Qed.

Lemma grows_copy l : grows (pd.copy l).
Proof. unfold pd.copy. grow. Qed.

Lemma grows_Series cs idx name d : grows (pd.Series cs idx name d).
Proof. unfold pd.Series. grow. Qed.
#[local] Hint Resolve grows_name grows_index grows_dtype_of grows_rename_nocopy
  grows_rename grows_copy grows_Series : grows.

Lemma grows_init l api : grows (column_object.__init__ l api).
Proof. unfold column_object.__init__. grow. Qed.
#[local] Hint Resolve grows_init : grows.

Lemma grows_validate self other :
  grows (column_object.validate_column_comparand self other).
Proof. unfold column_object.validate_column_comparand. grow. Qed.

Lemma grows_to_scalar self m : grows (column_object._to_scalar self m).
Proof. unfold column_object._to_scalar. grow. Qed.
#[local] Hint Resolve grows_validate grows_to_scalar : grows.

(** *** Computations that return a new wrapper of a new object *)

Lemma fresh_series_grows m : fresh_series m → grows m.
Proof. intros H σ. apply H. Qed.

Lemma fresh_bind {A} (m : M A) (k : A → M column_object.Series) :
  grows m → (∀ a, fresh_series (k a)) → fresh_series (bind m k).
Proof.
  intros Hm Hk σ. unfold bind. specialize (Hm σ).
  destruct (m σ) as [σ1 [a|e]]; simpl in *; [|done].
  destruct (Hk a σ1) as [X F]. split; [by etrans|].
  destruct ((k a σ1).2) as [s|]; [|done].
  destruct F as [F1 F2]. split; [|done].
  eapply extends_fresh_object; eassumption.
Qed.

Lemma fresh_raise e : fresh_series (raise e).
Proof. intros σ. split; [reflexivity|done]. Qed.

Lemma fresh_init_shared l name api :
  fresh_series (bind (pd.rename_nocopy l name) (λ r, column_object.__init__ r api)).
Proof.
  intros σ. unfold bind, pd.rename_nocopy, share, alloc_obj.
  destruct (objs σ !! l) as [o|] eqn:Eo; simpl; [|split; [reflexivity|done]].
  set (l' := fresh (dom (objs σ))).
  assert (Hl : objs σ !! l' = None) by (apply not_elem_of_dom, is_fresh).
  set (σ' := mkStore _ _).
  assert (X : extends σ σ') by (split; simpl; [by apply insert_subseteq|done]).
  unfold column_object.__init__, pd.name, pd.get, bind, load.
  destruct (view σ' l') as [w|] eqn:Ew; simpl; [|done].
  destruct (pd_name w); simpl; [|done].
  split; [done|]. split; [done|]. rewrite Ew. eauto.
Qed.

Lemma fresh_from_series self l : fresh_series (column_object._from_series self l).
Proof.
  unfold column_object._from_series. apply fresh_bind; [grow|].
  intros name. apply fresh_init_shared.
Qed.

Ltac fresh_result :=
  repeat first
    [ match goal with |- ∀ _, _ => intro end
    | apply fresh_from_series
    | apply fresh_raise
    | apply fresh_bind; [solve [grow]|]
    | match goal with
      | |- fresh_series (if ?b then _ else _) => destruct b
      | |- fresh_series (match ?x with _ => _ end) => destruct x
      end ].

Lemma fresh_retag self ser computed :
  fresh_series (column_object.retag self ser computed).
Proof. unfold column_object.retag. fresh_result. Qed.

Lemma fresh_binary f self other : fresh_series (column_object.binary f self other).
Proof. unfold column_object.binary. fresh_result. Qed.

(** *** Writes in place, relative to an earlier store *)

Lemma stable_owned l : stable (λ σ0 σ, owned σ0 σ l).
Proof. intros σ0 σ σ' H X. eapply owned_extends; eassumption. Qed.

Lemma stable_True : stable (λ _ _, True).
Proof. done. Qed.

Lemma triple_bind {A B} P (m : M A) Q (k : A → M B) R :
  triple P m Q → (∀ a, triple (Q a) (k a) R) → triple P (bind m k) R.
Proof.
  intros Hm Hk σ0 σ X HP. unfold bind. specialize (Hm σ0 σ X HP).
  destruct (m σ) as [σ1 [a|e]]; simpl in *; [|tauto].
  destruct Hm as [X1 HQ]. apply (Hk a σ0 σ1 X1 HQ).
Qed.

Lemma triple_grows {A} P (m : M A) :
  stable P → grows m → triple P m (λ _, P).
Proof.
  intros HP Hm σ0 σ X H. specialize (Hm σ).
  split; [by etrans|]. destruct ((m σ).2); [|done]. eapply HP; eassumption.
Qed.

Lemma makes_new_series v : makes (new_series v).
Proof.
  intros σ. destruct (new_series_spec σ v) as (σ' & l & E & X & _ & O).
  rewrite E. done.
Qed.

Lemma makes_bind {A} (m : M A) (k : A → M loc) :
  grows m → (∀ a, makes (k a)) → makes (bind m k).
Proof.
  intros Hm Hk σ. unfold bind. specialize (Hm σ).
  destruct (m σ) as [σ1 [a|e]]; simpl in *; [|done].
  destruct (Hk a σ1) as [X O]. split; [by etrans|].
  destruct ((k a σ1).2) as [l|]; [|done]. eapply owned_base; eassumption.
Qed.

Ltac make :=
  repeat first
    [ match goal with |- ∀ _, _ => intro end
    | apply makes_new_series
    | apply makes_bind; [solve [grow]|]
    | match goal with
      | |- makes (if ?b then _ else _) => destruct b
      | |- makes (match ?x with _ => _ end) => destruct x
      end ].

Lemma makes_call f l : makes (pd.call f l).
Proof. unfold pd.call. make. Qed.

Lemma makes_call2 f l o : makes (pd.call2 f l o).
Proof. unfold pd.call2. make. Qed.

Lemma triple_makes P (m : M loc) :
  makes m → triple P m (λ l σ0 σ, owned σ0 σ l).
Proof.
  intros Hm σ0 σ X _. destruct (Hm σ) as [X1 O].
  split; [by etrans|]. destruct ((m σ).2); [|done]. eapply owned_base; eassumption.
Qed.

Lemma triple_set_index l idx :
  triple (λ σ0 σ, owned σ0 σ l) (set_index l idx) (λ _ σ0 σ, owned σ0 σ l).
Proof.
  intros σ0 σ [Xo Xb] [Hn (o & Eo & Hb)]. unfold set_index. rewrite Eo.
  destruct (view σ l) as [v|]; simpl; [|done].
  destruct (decide (length idx = length (pd_values v))); simpl; [|done].
  split.
  - split; simpl; [|done]. by apply insert_subseteq_r.
  - split; [done|]. eexists. simpl. rewrite lookup_insert_eq. split; [reflexivity|done].
Qed.

Lemma triple_write_cells l f :
  triple (λ σ0 σ, owned σ0 σ l) (write_cells l f) (λ _ σ0 σ, owned σ0 σ l).
Proof.
  intros σ0 σ [Xo Xb] [Hn (o & Eo & Hb)]. unfold write_cells. rewrite Eo.
  destruct (view σ l) as [v|]; simpl; [|done].
  destruct (f v) as [cs|e]; simpl; [|done].
  split.
  - split; simpl; [done|]. by apply insert_subseteq_r.
  - split; [done|]. exists o. done.
Qed.

Lemma triple_fresh_series P (m : M column_object.Series) :
  fresh_series m →
  triple P m (λ s σ0 σ, objs σ0 !! column_object.column s = None ∧
                        is_Some (view σ (column_object.column s))).
Proof.
  intros Hm σ0 σ X _. destruct (Hm σ) as [X1 F].
  split; [by etrans|]. destruct ((m σ).2) as [s|]; [|done].
  destruct F as [F1 F2]. split; [|done]. eapply extends_fresh_object; eassumption.
Qed.

Lemma triple_fresh (m : M column_object.Series) :
  triple (λ _ _, True) m
    (λ s σ0 σ, objs σ0 !! column_object.column s = None ∧
               is_Some (view σ (column_object.column s))) →
  fresh_series m.
Proof. intros H σ. by apply (H σ σ). Qed.

Ltac triple_step :=
  first
    [ apply triple_set_index
    | apply triple_write_cells
    | apply triple_fresh_series; solve [fresh_result]
    | apply triple_makes; solve [make]
    | apply triple_grows;
      [first [apply stable_owned | apply stable_True] | solve [grow]] ].

Ltac triple_steps :=
  repeat first
    [ match goal with |- ∀ _, _ => intro end
    | solve [triple_step]
    | eapply triple_bind; [solve [triple_step]|] ].

(** [fill_null] assigns an index, and it assigns it to the Series that
    [where] or [fillna] has just returned. *)
Lemma fresh_fill_null self value :
  fresh_series (column_object.fill_null self value).
Proof.
  apply triple_fresh. unfold column_object.fill_null, column_object.pd_where.
  triple_steps.
Qed.

(** [fill_nan] assigns slots and an index, and it assigns them to the copy
    it has made of the column. *)
Lemma fresh_fill_nan `{B : Backend} self value :
  fresh_series (column_object.fill_nan self value).
Proof.
  apply triple_fresh.
  unfold column_object.fill_nan, column_object.nan_mask, column_object.python_value,
    pd.setitem, pd.copy.
  eapply triple_bind; [solve [triple_step]|]. intros idx.
  eapply triple_bind; [solve [triple_step]|]. intros ser.
  eapply triple_bind; [solve [triple_step]|]. intros d.
  eapply triple_bind.
  - instantiate (1 := λ _ σ0 σ, owned σ0 σ ser).
    destruct (is_extension_array_dtype d), (bk_is_null value); triple_steps.
  - triple_steps.
Qed.

(** *** Every operation *)

Lemma sound_raise e : sound (raise e).
Proof. intros σ. split; [reflexivity|done]. Qed.

Lemma sound_ret r : wrappers r = [] → sound (ret r).
Proof. intros Hr σ. split; [reflexivity|]. simpl. rewrite Hr. set_solver. Qed.

Lemma sound_plain {A} (m : M A) (f : A → column_object.retval) :
  grows m → (∀ a, wrappers (f a) = []) → sound (bind m (λ a, ret (f a))).
Proof.
  intros Hm Hf σ. unfold bind, ret. specialize (Hm σ).
  destruct (m σ) as [σ1 [a|e]]; simpl in *; [|done].
  split; [done|]. rewrite Hf. set_solver.
Qed.

Lemma sound_series m : fresh_series m → sound (column_object.series m).
Proof.
  intros Hm σ. unfold column_object.series, bind, ret. specialize (Hm σ).
  destruct (m σ) as [σ1 [s|e]]; simpl in *; [|tauto].
  destruct Hm as [X F]. split; [done|].
  intros s' Hs. apply list_elem_of_singleton in Hs as ->. done.
Qed.

Lemma sound_divmod `{B : Backend} self other :
  sound (bind (column_object.__divmod__ self other)
           (λ qr, ret (column_object.RPair qr.1 qr.2))).
Proof.
  intros σ. unfold column_object.__divmod__, bind, ret.
  destruct (fresh_binary (bk_divide FLOORDIV) self other σ) as [X1 F1].
  change (column_object.__floordiv__ self other σ)
    with (column_object.binary (bk_divide FLOORDIV) self other σ).
  destruct (column_object.binary (bk_divide FLOORDIV) self other σ)
    as [σ1 [q|e]]; simpl in *; [|done].
  destruct (fresh_binary (Pandas.arithmetic bk_numpy Pandas.MUL) q other σ1) as [X2 _].
  change (column_object.__mul__ q other σ1)
    with (column_object.binary (Pandas.arithmetic bk_numpy Pandas.MUL) q other σ1).
  destruct (column_object.binary (Pandas.arithmetic bk_numpy Pandas.MUL) q other σ1)
    as [σ2 [p|e]]; simpl in *; [|split; [by etrans|done]].
  destruct (fresh_binary (Pandas.arithmetic bk_numpy Pandas.SUB) self (column_object.Col p) σ2)
    as [X3 F3].
  change (column_object.__sub__ self (column_object.Col p) σ2)
    with (column_object.binary (Pandas.arithmetic bk_numpy Pandas.SUB) self
            (column_object.Col p) σ2).
  destruct (column_object.binary (Pandas.arithmetic bk_numpy Pandas.SUB) self
              (column_object.Col p) σ2) as [σ3 [r|e]]; simpl in *;
    [|split; [by do 2 (etrans; [eassumption|])|done]].
  split; [by do 2 (etrans; [eassumption|])|].
  intros s Hs. destruct F1 as [F1 [vq Vq]]. destruct F3 as [F3 V3].
  apply elem_of_cons in Hs as [->|Hs].
  - split; [done|]. exists vq.
    eapply view_extends; [|exact Vq]. by etrans.
  - apply list_elem_of_singleton in Hs as ->. split; [|done].
    eapply extends_fresh_object; [|exact F3]. by etrans.
Qed.

Lemma invoke_sound `{B : Backend} (m : column_object.method)
    (self : column_object.Series) :
  sound (column_object.invoke m self).
Proof.
  destruct m; simpl;
    first
      [ apply sound_divmod
      | apply sound_raise
      | apply sound_ret; reflexivity
      | apply sound_series;
        first [ apply fresh_fill_null | apply fresh_fill_nan | apply fresh_binary
              | solve [fresh_result]
              | unfold column_object.sort, column_object.sorted_indices;
                solve [fresh_result] ]
      | apply sound_plain; [solve [grow]|reflexivity] ].
Qed.

(** C6.  Whatever the method, the column, the arguments and the store,
    the call leaves every native object and every buffer of the store as
    it was, so that the column and every Series operand wrap the native
    value they wrapped before; and every wrapper it returns is around an
    object the store did not have.  [fill_null] and [fill_nan], the two
    methods that write in place, are among the methods. *)
Theorem native_values_never_mutated `{B : Backend} (m : column_object.method)
    (self : column_object.Series) (σ : store) :
  extends σ (column_object.invoke m self σ).1 ∧
  (∀ l v, view σ l = Some v → view (column_object.invoke m self σ).1 l = Some v) ∧
  match (column_object.invoke m self σ).2 with
  | Ok r =>
      ∀ s, s ∈ wrappers r →
           objs σ !! column_object.column s = None ∧
           is_Some (view (column_object.invoke m self σ).1 (column_object.column s))
  | Raise _ => True
  end.
Proof.
  destruct (invoke_sound m self σ) as [X F].
  split; [done|]. split; [|done].
  intros l v. by apply view_extends.
Qed.

(** ** [unix_timestamp] and the order of time *)

Lemma unix_timestamp_exact_monotone time_unit (t1 t2 x1 x2 : Z) :
  (t1 ≤ t2)%Z →
  unix_timestamp_exact time_unit t1 = Some x1 →
  unix_timestamp_exact time_unit t2 = Some x2 →
  (x1 ≤ x2)%Z.
Proof.
  intros Ht. unfold unix_timestamp_exact.
  repeat case_match; intros [= <-] [= <-]; try lia;
    apply Z.div_le_mono; lia.
Qed.

Lemma unix_timestamp_exact_consistent (t s ms us ns : Z) :
  unix_timestamp_exact "s" t = Some s →
  unix_timestamp_exact "ms" t = Some ms →
  unix_timestamp_exact "us" t = Some us →
  unix_timestamp_exact "ns" t = Some ns →
  (ms = s * 1000 + ((t / 1000) mod 1000000) / 1000 ∧
   us = s * 1000000 + (t / 1000) mod 1000000 ∧
   ns = us * 1000 + t mod 1000)%Z.
Proof.
  unfold unix_timestamp_exact. simpl. intros [= <-] [= <-] [= <-] [= <-].
  pose proof (Z.div_mod t 1000 ltac:(lia)).
  pose proof (Z.div_mod (t / 1000) 1000000 ltac:(lia)).
  pose proof (Z.div_mod ((t / 1000) mod 1000000) 1000 ltac:(lia)).
  pose proof (Z.mod_pos_bound t 1000 ltac:(lia)).
  pose proof (Z.mod_pos_bound (t / 1000) 1000000 ltac:(lia)).
  pose proof (Z.mod_pos_bound ((t / 1000) mod 1000000) 1000 ltac:(lia)).
  assert (t / 1000000000 = t / 1000 / 1000000)%Z as ->
    by (rewrite Z.div_div by lia; reflexivity).
  assert (t / 1000000 = t / 1000 / 1000)%Z as ->
    by (rewrite Z.div_div by lia; reflexivity).
  assert (t / 1000 / 1000 = t / 1000 / 1000000 * 1000 + (t / 1000) mod 1000000 / 1000)%Z.
  { symmetry. apply Z.div_unique with (r := ((t / 1000) mod 1000000 mod 1000)%Z); lia. }
  lia.
Qed.

(** C3, at a failing input.  [total_seconds] is a 64-bit float: the
    nanosecond count of [just_before] rounds to that of [on_the_second],
    so that [unix_timestamp] takes the second of the later instant and adds
    the sub-second fields of the earlier one.  In seconds the earlier
    instant is one second late; in milliseconds, microseconds and
    nanoseconds it gets a larger timestamp than the later instant, where
    exact floor division gives the smaller one. *)
Theorem unix_timestamp_not_monotone :
  (just_before < on_the_second)%Z ∧
  slots (column_object.unix_timestamp column_a "s")
    (one_column [Num just_before; Num on_the_second] (datetime64 None))
  = Ok [Num 1700000000; Num 1700000000] ∧
  slots (column_object.unix_timestamp column_a "ms")
    (one_column [Num just_before; Num on_the_second] (datetime64 None))
  = Ok [Num 1700000000999; Num 1700000000000] ∧
  slots (column_object.unix_timestamp column_a "us")
    (one_column [Num just_before; Num on_the_second] (datetime64 None))
  = Ok [Num 1700000000999999; Num 1700000000000000] ∧
  slots (column_object.unix_timestamp column_a "ns")
    (one_column [Num just_before; Num on_the_second] (datetime64 None))
  = Ok [Num 1700000000999999999; Num 1700000000000000000] ∧
  unix_timestamp_exact "s" just_before = Some 1699999999%Z ∧
  unix_timestamp_exact "ms" just_before = Some 1699999999999%Z ∧
  unix_timestamp_exact "us" just_before = Some 1699999999999999%Z ∧
  unix_timestamp_exact "ns" just_before = Some 1699999999999999999%Z.
Proof. repeat split; vm_compute; reflexivity. Qed.

(** ** [fill_null] *)

(** C1, at a failing input.  A time-zone-aware datetime column has an
    extension dtype, its missing slots are [NaT], and [NaT] is unequal to
    itself: the mask of [fill_null], meant to leave out the [NaN] slots of
    a nullable float column, leaves out every missing slot of this column.
    [fill_null] returns the column as it was and [is_null] still reports
    the slot.  On the naive datetime column with the same slots, which
    takes the [fillna] branch, the slot is filled. *)
Theorem fill_null_leaves_NaT_in_aware_column :
  let aware := one_column [NaT; Num on_the_second] (datetime64 (Some "UTC")) in
  let naive := one_column [NaT; Num on_the_second] (datetime64 None) in
  let fill := column_object.fill_null column_a (column_object.Value (Num 0)) in
  slots fill aware = Ok [NaT; Num on_the_second] ∧
  slots (let* filled := fill in column_object.is_null filled) aware
  = Ok [Bool true; Bool false] ∧
  slots fill naive = Ok [Num 0; Num on_the_second] ∧
  slots (let* filled := fill in column_object.is_null filled) naive
  = Ok [Bool false; Bool false].
Proof. repeat split; vm_compute; reflexivity. Qed.

(** *** Where [fill_null] does fill

    On the plain columns, and on the well-typed nullable ones, the
    property holds for every scalar that is a value. *)

Lemma result_mapM_map {A B C} (f : B → result C) (g : A → B) (l : list A) :
  result_mapM f (map g l) = result_mapM (λ x, f (g x)) l.
Proof. induction l as [|x l IH]; simpl; [done|]. by rewrite IH. Qed.






Lemma set_index_spec σ l v idx :
  view σ l = Some v → length idx = length (pd_values v) →
  ∃ σ', set_index l idx σ = (σ', Ok ()) ∧
        view σ' l = Some (mkPdSeries (pd_values v) idx (pd_name v) (pd_dtype v)).
Proof.
  intros Hv Hl. unfold set_index. rewrite Hv.
  unfold view in Hv.
  destruct (objs σ !! l) as [o|] eqn:Eo; [|done].
  destruct (bufs σ !! obj_buf o) as [b|] eqn:Eb; [|done].
  injection Hv as <-. simpl in *.
  rewrite decide_True by done.
  eexists. split; [reflexivity|].
  unfold view. simpl. rewrite lookup_insert_eq. simpl. by rewrite Eb.
Qed.






(** * More of the adapter

    The properties below are read off the methods one by one: what each
    hands to pandas, what it returns, when it fails. *)

(** ** [floor] and its frequency *)

Lemma append_cons a s t : String a s +:+ t = String a (s +:+ t).
Proof. reflexivity. Qed.

Lemma append_empty t : EmptyString +:+ t = t.
Proof. reflexivity. Qed.

Lemma str_replace_absent old new s :
  occurs old s = false → str_replace old new s = s.
Proof.
  unfold str_replace. induction s as [|c s IH]; [done|].
  cbn [occurs str_replace_from]. intros [Hp Ho]%orb_false_elim.
  rewrite Hp. by rewrite IH.
Qed.

Lemma occurs_tail c old s : occurs (String c old) s = true → occurs old s = true.
Proof.
  induction s as [|x s IH]; [done|].
  cbn [occurs]. intros [Hp|Ho]%orb_true_elim; apply orb_true_intro; right.
  - simpl in Hp. destruct (Ascii.ascii_dec c x); [|done].
    destruct s; cbn [occurs]; by rewrite Hp.
  - by apply IH.
Qed.

Lemma occurs_append pre old s : occurs old s = false → occurs (pre +:+ old) s = false.
Proof.
  intros H. induction pre as [|c pre IH]; [done|].
  rewrite append_cons.
  destruct (occurs (String c (pre +:+ old)) s) eqn:E; [|done].
  apply occurs_tail in E. congruence.
Qed.

(** A prefix of a replaced string that does not hold the new character is
    a prefix of the string itself. *)
Lemma prefix_replaced old a w s :
  has_char a w = false →
  String.prefix w (str_replace_from old (String a EmptyString) 0 s) = true →
  String.prefix w s = true.
Proof.
  revert s. induction w as [|x w IH]; intros s Hw Hp.
  { by destruct s. }
  cbn [has_char] in Hw. apply orb_false_elim in Hw as [Hx Hw].
  apply bool_decide_eq_false in Hx.
  destruct s as [|c s]; [done|].
  cbn [str_replace_from] in Hp.
  destruct (String.prefix old (String c s)).
  - rewrite append_cons in Hp. simpl in Hp.
    destruct (Ascii.ascii_dec x a); [congruence|done].
  - simpl in Hp |- *. destruct (Ascii.ascii_dec x c); [|done]. by apply IH.
Qed.

(** Once [old] is replaced by a character it does not hold, it occurs no
    more. *)
Lemma occurs_replaced old a k s :
  old ≠ EmptyString → has_char a old = false →
  occurs old (str_replace_from old (String a EmptyString) k s) = false.
Proof.
  intros Hne Ha. revert k. induction s as [|c s IH]; intros k.
  { simpl. destruct old; [done|]. done. }
  destruct k as [|k]; cbn [str_replace_from]; [|apply IH].
  destruct (String.prefix old (String c s)) eqn:Hp.
  - rewrite append_cons, append_empty. cbn [occurs]. rewrite IH, orb_false_r.
    destruct old as [|o old]; [done|]. simpl in Ha |- *.
    apply orb_false_elim in Ha as [Ho _]. apply bool_decide_eq_false in Ho.
    destruct (Ascii.ascii_dec o a); [congruence|done].
  - cbn [occurs]. rewrite IH, orb_false_r.
    destruct old as [|o old]; [done|].
    destruct (String.prefix (String o old)
                (String c (str_replace_from (String o old) (String a EmptyString) 0 s)))
      eqn:Hq; [|done].
    simpl in Hq, Hp. destruct (Ascii.ascii_dec o c); [|done].
    simpl in Ha. apply orb_false_elim in Ha as [_ Ha].
    apply prefix_replaced in Hq; [congruence|done].
Qed.

(** After ["second"] has become ["S"], no word that ends in ["second"] is
    left to replace. *)
Lemma floor_frequency_dead (s : string) :
  let t := str_replace "second" "S" s in
  str_replace "nanosecond" "ns"
    (str_replace "microsecond" "us" (str_replace "millisecond" "ms" t)) = t.
Proof.
  intros t.
  assert (Ht : occurs "second" t = false) by (by apply occurs_replaced).
  rewrite (str_replace_absent "millisecond" "ms" t) by apply (occurs_append "milli" _ _ Ht).
  rewrite (str_replace_absent "microsecond" "us" t) by apply (occurs_append "micro" _ _ Ht).
  by rewrite (str_replace_absent "nanosecond" "ns" t) by apply (occurs_append "nano" _ _ Ht).
Qed.

(** X3.  [floor] translates four words of its frequency, ["day"],
    ["hour"], ["minute"] and ["second"]: the replacements of
    ["millisecond"], ["microsecond"] and ["nanosecond"] come after that of
    ["second"] and never apply, whatever the frequency.  So
    ["1millisecond"] reaches [ser.dt.floor] as ["1milliS"]. *)
Theorem floor_translates_four_units `{B : Backend} (self : column_object.Series)
    (frequency : string) :
  column_object.floor self frequency
  = (let* computed :=
       pd.call
         (bk_dt_floor
            (str_replace "second" "S"
               (str_replace "minute" "T"
                  (str_replace "hour" "H" (str_replace "day" "D" frequency)))))
         (column_object.column self) in
     column_object._from_series self computed) ∧
  column_object.floor self "1millisecond"
  = (let* computed := pd.call (bk_dt_floor "1milliS") (column_object.column self) in
     column_object._from_series self computed).
Proof.
  split.
  - unfold column_object.floor. by rewrite floor_frequency_dead.
  - reflexivity.
Qed.

(** ** The methods that fail on every column *)


(** ** The tag and the name of the wrappers *)

Lemma tagged_raise api e : tagged api (raise e).
Proof. by intros σ. Qed.

Lemma tagged_bind {A} api (m : M A) (k : A → M column_object.Series) :
  (∀ a, tagged api (k a)) → tagged api (bind m k).
Proof.
  intros Hk σ. unfold bind. destruct (m σ) as [σ1 [a|e]]; [|done]. apply Hk.
Qed.

Lemma tagged_then api (m : M column_object.Series)
    (k : column_object.Series → M column_object.Series) :
  tagged api m →
  (∀ s, column_object._api_version s = api → tagged api (k s)) →
  tagged api (bind m k).
Proof.
  intros Hm Hk σ. unfold bind. specialize (Hm σ).
  destruct (m σ) as [σ1 [s|e]]; [|done]. simpl in Hm. destruct Hm as [Ha _].
  by apply Hk.
Qed.

Lemma tagged_init l api : tagged api (column_object.__init__ l api).
Proof.
  intros σ. unfold column_object.__init__, pd.name, pd.get, bind, load, lift.
  destruct (view σ l) as [v|] eqn:Hv; [|done]. simpl.
  destruct (pd_name v) as [n|] eqn:Hn; [|done]. simpl.
  split; [done|]. by exists v.
Qed.

Lemma tagged_from_series self l :
  tagged (column_object._api_version self) (column_object._from_series self l).
Proof.
  unfold column_object._from_series. do 2 (apply tagged_bind; intros ?).
  apply tagged_init.
Qed.

Ltac tag :=
  repeat first
    [ match goal with |- ∀ _, _ => intro end
    | apply tagged_from_series
    | apply tagged_raise
    | apply tagged_bind
    | match goal with
      | |- tagged _ (if ?b then _ else _) => destruct b
      | |- tagged _ (match ?x with _ => _ end) => destruct x
      end ].

Lemma tagged_binary f self other :
  tagged (column_object._api_version self) (column_object.binary f self other).
Proof. unfold column_object.binary, column_object.retag. tag. Qed.

Lemma consistent_extends σ σ' s : extends σ σ' → consistent σ s → consistent σ' s.
Proof. intros X (v & Hv & Hn). exists v. split; [|done]. by apply (view_extends σ). Qed.

Lemma kept_series self m :
  tagged (column_object._api_version self) m → kept self (column_object.series m).
Proof.
  intros Hm σ. unfold column_object.series, bind, ret. specialize (Hm σ).
  destruct (m σ) as [σ1 [s|e]]; simpl in *; [|done].
  intros s' Hs. apply list_elem_of_singleton in Hs as ->. done.
Qed.

Lemma kept_plain {A} self (m : M A) (f : A → column_object.retval) :
  (∀ a, wrappers (f a) = []) → kept self (bind m (λ a, ret (f a))).
Proof.
  intros Hf σ. unfold bind, ret.
  destruct (m σ) as [σ1 [a|e]]; simpl; [|done]. rewrite Hf. set_solver.
Qed.

Lemma kept_divmod `{B : Backend} self other :
  kept self (bind (column_object.__divmod__ self other)
               (λ qr, ret (column_object.RPair qr.1 qr.2))).
Proof.
  intros σ. unfold column_object.__divmod__, bind, ret.
  pose proof (tagged_binary (bk_divide FLOORDIV) self other σ) as T1.
  change (column_object.__floordiv__ self other σ)
    with (column_object.binary (bk_divide FLOORDIV) self other σ).
  destruct (column_object.binary (bk_divide FLOORDIV) self other σ)
    as [σ1 [q|e]]; simpl in *; [|done].
  destruct (fresh_binary (Pandas.arithmetic bk_numpy Pandas.MUL) q other σ1) as [X2 _].
  change (column_object.__mul__ q other σ1)
    with (column_object.binary (Pandas.arithmetic bk_numpy Pandas.MUL) q other σ1).
  destruct (column_object.binary (Pandas.arithmetic bk_numpy Pandas.MUL) q other σ1)
    as [σ2 [p|e]]; simpl in *; [|done].
  destruct (fresh_binary (Pandas.arithmetic bk_numpy Pandas.SUB) self
              (column_object.Col p) σ2) as [X3 _].
  pose proof (tagged_binary (Pandas.arithmetic bk_numpy Pandas.SUB) self
                (column_object.Col p) σ2) as T3.
  change (column_object.__sub__ self (column_object.Col p) σ2)
    with (column_object.binary (Pandas.arithmetic bk_numpy Pandas.SUB) self
            (column_object.Col p) σ2).
  destruct (column_object.binary (Pandas.arithmetic bk_numpy Pandas.SUB) self
              (column_object.Col p) σ2) as [σ3 [r|e]]; simpl in *; [|done].
  intros s Hs. apply elem_of_cons in Hs as [->|Hs].
  - destruct T1 as [A1 C1]. split; [done|].
    apply (consistent_extends σ1); [by etrans|done].
  - apply list_elem_of_singleton in Hs as ->. done.
Qed.

Lemma invoke_kept `{B : Backend} (m : column_object.method)
    (self : column_object.Series) :
  kept self (column_object.invoke m self).
Proof.
  destruct m; cbn [column_object.invoke];
    try (apply kept_divmod);
    try (apply kept_series;
         first [ apply tagged_binary
               | unfold column_object.__rand__, column_object.__ror__,
                   column_object.__radd__, column_object.__rmul__;
                 apply tagged_binary
               | unfold column_object.__rsub__, column_object.__rmul__;
                 apply tagged_then;
                 [apply tagged_binary|intros s <-; apply tagged_binary]
               | unfold column_object.take, column_object.filter,
                   column_object.slice_rows, column_object.__rtruediv__,
                   column_object.__rfloordiv__, column_object.__rpow__,
                   column_object.__rmod__, column_object.__invert__,
                   column_object.is_null, column_object.is_nan, column_object.sort,
                   column_object.is_in, column_object.sorted_indices,
                   column_object.unique_indices, column_object.fill_nan,
                   column_object.fill_null, column_object.cumulative_sum,
                   column_object.cumulative_prod, column_object.cumulative_max,
                   column_object.cumulative_min, column_object.alias,
                   column_object.shift, column_object.cast, column_object.year,
                   column_object.month, column_object.day, column_object.hour,
                   column_object.minute, column_object.second,
                   column_object.microsecond, column_object.temporal,
                   column_object.nanosecond, column_object.iso_weekday,
                   column_object.floor, column_object.unix_timestamp;
                 solve [tag] ]);
    try (intros σ; simpl; set_solver);
    try (unfold column_object.value; apply kept_plain; done);
    try (apply kept_plain; done).
Qed.

(** X5.  Whatever the method, the column and the store: every wrapper
    a method returns carries the [api_version] of the wrapper it was
    called on, and its name is the name of the native Series it wraps. *)
Theorem returned_wrappers_keep_tag_and_name `{B : Backend} (m : column_object.method)
    (self : column_object.Series) (σ : store) :
  match (column_object.invoke m self σ).2 with
  | Ok r =>
      ∀ s, s ∈ wrappers r →
           column_object._api_version s = column_object._api_version self ∧
           ∃ v, view (column_object.invoke m self σ).1 (column_object.column s) = Some v ∧
                pd_name v = Some (column_object.name s)
  | Raise _ => True
  end.
Proof. apply invoke_kept. Qed.

(** ** Positional access *)

Lemma omap_fmap {A B C} (f : B → option C) (g : A → B) (l : list A) :
  omap f (g <$> l) = omap (λ x, f (g x)) l.
Proof. induction l as [|x l IH]; [done|]. csimpl. by rewrite IH. Qed.

Lemma omap_lookup_nil {A} (ks : list nat) : omap (λ k, @nil A !! k) ks = [].
Proof. by induction ks. Qed.

Lemma omap_lookup_seq {A} (r : list A) (m : nat) :
  omap (λ k, r !! k) (seq 0 m) = take m r.
Proof.
  revert r. induction m as [|m IH]; intros r; [done|].
  destruct r as [|x r]; [apply omap_lookup_nil|].
  cbn [seq]. rewrite <- fmap_S_seq. csimpl. rewrite omap_fmap. simpl.
  by rewrite IH.
Qed.

Lemma omap_ext_in {A B} (f g : A → option B) (l : list A) :
  (∀ x, x ∈ l → f x = g x) → omap f l = omap g l.
Proof.
  intros H. apply list_omap_ext, Forall_Forall2_diag, Forall_forall. exact H.
Qed.

(** The positions [start], [start + step], ... taken [n] times. *)
Lemma pick_positions {A} (l : list A) (start step : Z) (n : nat) :
  Pandas.pick l ((λ k, (start + k * step)%Z) <$> seqZ 0 (Z.of_nat n))
  = omap (λ k : nat, l !! Z.to_nat (start + Z.of_nat k * step)) (seq 0 n).
Proof.
  unfold Pandas.pick, seqZ. rewrite Nat2Z.id, !omap_fmap.
  apply omap_ext_in. intros k _. by rewrite Z.add_0_r.
Qed.

Lemma pick_window {A} (l : list A) (a b : Z) :
  (0 ≤ a ≤ b)%Z →
  Pandas.pick l (Pandas.py_range a b 1) = take (Z.to_nat (b - a)) (drop (Z.to_nat a) l).
Proof.
  intros Hab. unfold Pandas.py_range. simpl.
  match goal with
  | |- context [seqZ 0 ?n] => assert (n = Z.of_nat (Z.to_nat (b - a))) as ->
  end.
  { destruct (Z.ltb_spec a b); rewrite ?Z.div_1_r; lia. }
  rewrite pick_positions, <- omap_lookup_seq.
  apply omap_ext_in. intros k _. rewrite lookup_drop. f_equal. lia.
Qed.

Lemma pick_reverse {A} (l : list A) :
  Pandas.pick l (Pandas.py_range (Z.of_nat (length l) - 1) (-1) (-1)) = reverse l.
Proof.
  unfold Pandas.py_range. simpl.
  match goal with
  | |- context [seqZ 0 ?n] => assert (n = Z.of_nat (length l)) as ->
  end.
  { change (- (-1))%Z with 1%Z.
    destruct (Z.ltb_spec (-1) (Z.of_nat (length l) - 1)); rewrite ?Z.div_1_r; lia. }
  rewrite pick_positions.
  rewrite <- (take_ge (reverse l) (length l)) by (by rewrite length_reverse).
  rewrite <- omap_lookup_seq.
  apply omap_ext_in. intros k [_ Hk]%elem_of_seq.
  rewrite reverse_lookup by lia. f_equal. lia.
Qed.

Lemma iloc_slice_window (a b : Z) v :
  (0 ≤ a ≤ b)%Z → (b ≤ Z.of_nat (length (pd_values v)))%Z →
  Pandas.iloc_slice (Some a) (Some b) None v
  = Ok (mkPdSeries (take (Z.to_nat (b - a)) (drop (Z.to_nat a) (pd_values v)))
          (take (Z.to_nat (b - a)) (drop (Z.to_nat a) (pd_index v)))
          (pd_name v) (pd_dtype v)).
Proof.
  intros Hab Hb. unfold Pandas.iloc_slice, Pandas.slice_indices. simpl.
  destruct (Z.ltb_spec a 0); [lia|]. destruct (Z.ltb_spec b 0); [lia|].
  rewrite !Z.min_l by lia. simpl. by rewrite !pick_window.
Qed.

Lemma iloc_slice_reverse v :
  length (pd_index v) = length (pd_values v) →
  Pandas.iloc_slice None None (Some (-1)%Z) v
  = Ok (mkPdSeries (reverse (pd_values v)) (reverse (pd_index v))
          (pd_name v) (pd_dtype v)).
Proof.
  intros Hl. unfold Pandas.iloc_slice, Pandas.slice_indices. simpl.
  rewrite pick_reverse. rewrite <- Hl at 1. by rewrite pick_reverse.
Qed.

(** X6.  [len] is the number of slots [n].  [get_value] returns the slot
    at a position from [0] to [n - 1], counts a position from [-n] to
    [-1] from the end, and fails with an [IndexError] on every other
    position. *)
Theorem get_value_bounds (self : column_object.Series) (σ : store) (v : PdSeries)
    (row_number : Z) :
  view σ (column_object.column self) = Some v →
  let n := Z.of_nat (length (pd_values v)) in
  column_object.len self σ = (σ, Ok n) ∧
  ((0 ≤ row_number < n)%Z →
   ∃ c, pd_values v !! Z.to_nat row_number = Some c ∧
        column_object.get_value self row_number σ = (σ, Ok c)) ∧
  ((- n ≤ row_number < 0)%Z →
   column_object.get_value self row_number σ
   = column_object.get_value self (row_number + n) σ) ∧
  ((row_number < - n ∨ n ≤ row_number)%Z →
   column_object.get_value self row_number σ = (σ, Raise IndexError)).
Proof.
  intros Hv n. unfold column_object.get_value, column_object.len.
  rewrite !(get_spec _ σ _ v Hv). unfold Pandas.iloc_get. fold n.
  split; [done|]. split; [|split].
  - intros Hi. destruct (Z.ltb_spec row_number 0); [lia|].
    destruct (Z.ltb_spec row_number 0); [lia|].
    destruct (lookup_lt_is_Some_2 (pd_values v) (Z.to_nat row_number)) as [c Hc]; [lia|].
    exists c. by rewrite Hc.
  - intros Hi. destruct (Z.ltb_spec row_number 0); [|lia].
    destruct (Z.ltb_spec (row_number + n) 0); [lia|].
    destruct (Z.ltb_spec (row_number + n) 0); [lia|]. done.
  - intros Hi. destruct (Z.ltb_spec row_number 0).
    + destruct (Z.ltb_spec (row_number + n) 0); [done|lia].
    + destruct (Z.ltb_spec row_number 0); [lia|].
      rewrite lookup_ge_None_2; [done|lia].
Qed.

Lemma get_value_bounds_witness :
  let σ := one_column [Num 10; Num 20; Num 30] (int W64) in
  column_object.len column_a σ = (σ, Ok 3%Z) ∧
  column_object.get_value column_a (-1) σ = (σ, Ok (Num 30)) ∧
  column_object.get_value column_a (-1) σ = column_object.get_value column_a 2 σ ∧
  column_object.get_value column_a 3 σ = (σ, Raise IndexError).
Proof.
  pose proof (get_value_bounds column_a
                (one_column [Num 10; Num 20; Num 30] (int W64))
                (mkPdSeries [Num 10; Num 20; Num 30] [0; 1; 2]%Z (Some "a") (int W64)))
    as H.
  split; [apply (H 0%Z eq_refl)|]. split; [reflexivity|]. split.
  - apply (H (-1)%Z eq_refl). simpl. lia.
  - apply (H 3%Z eq_refl). simpl. lia.
Defined.

(** X7.  With [0 ≤ start ≤ stop ≤ len], [slice_rows(start, stop, None)]
    holds the slots from [start] to [stop - 1] with their labels, under
    the name and the dtype of the column. *)
Theorem slice_rows_window (self : column_object.Series) (σ : store) (v : PdSeries)
    (n : string) (start stop : Z) :
  view σ (column_object.column self) = Some v →
  pd_name v = Some n →
  (0 ≤ start ≤ stop)%Z → (stop ≤ Z.of_nat (length (pd_values v)))%Z →
  ∃ σ' s,
    column_object.slice_rows self (Some start) (Some stop) None σ = (σ', Ok s) ∧
    view σ' (column_object.column s)
    = Some (mkPdSeries
              (take (Z.to_nat (stop - start)) (drop (Z.to_nat start) (pd_values v)))
              (take (Z.to_nat (stop - start)) (drop (Z.to_nat start) (pd_index v)))
              (Some n) (pd_dtype v)).
Proof.
  intros Hv Hn Hab Hb.
  destruct (unary_spec (Pandas.iloc_slice (Some start) (Some stop) None) self σ v _ n Hv
              (iloc_slice_window start stop v Hab Hb) Hn)
    as (σ' & s & E & _ & V & _).
  exists σ', s. split; [exact E|]. by rewrite V, Hn.
Qed.

Lemma slice_rows_window_witness :
  ∃ σ' s,
    column_object.slice_rows column_a (Some 1%Z) (Some 3%Z) None
      (one_column [Num 10; Num 20; Num 30; Num 40] (int W64)) = (σ', Ok s) ∧
    view σ' (column_object.column s)
    = Some (mkPdSeries [Num 20; Num 30] [1; 2]%Z (Some "a") (int W64)).
Proof.
  apply (slice_rows_window column_a
           (one_column [Num 10; Num 20; Num 30; Num 40] (int W64))
           (mkPdSeries [Num 10; Num 20; Num 30; Num 40] [0; 1; 2; 3]%Z (Some "a") (int W64))
           "a" 1 3); [reflexivity|reflexivity|lia|simpl; lia].
Defined.

(** X8.  [slice_rows(None, None, -1)] holds the slots and the labels in
    reverse order; done twice it gives the column back; and a step of
    zero fails with a [ValueError], whatever the bounds. *)
Theorem slice_rows_backwards (self : column_object.Series) (σ : store) (v : PdSeries)
    (n : string) :
  view σ (column_object.column self) = Some v →
  pd_name v = Some n →
  length (pd_index v) = length (pd_values v) →
  (∃ σ' s,
     column_object.slice_rows self None None (Some (-1)%Z) σ = (σ', Ok s) ∧
     view σ' (column_object.column s)
     = Some (mkPdSeries (reverse (pd_values v)) (reverse (pd_index v))
               (Some n) (pd_dtype v))) ∧
  (∃ σ1 s1 σ2 s2,
     column_object.slice_rows self None None (Some (-1)%Z) σ = (σ1, Ok s1) ∧
     column_object.slice_rows s1 None None (Some (-1)%Z) σ1 = (σ2, Ok s2) ∧
     view σ2 (column_object.column s2) = Some v) ∧
  ∀ start stop,
    column_object.slice_rows self start stop (Some 0%Z) σ = (σ, Raise ValueError).
Proof.
  intros Hv Hn Hl.
  destruct (unary_spec (Pandas.iloc_slice None None (Some (-1)%Z)) self σ v _ n Hv
              (iloc_slice_reverse v Hl) Hn)
    as (σ1 & s1 & E1 & _ & V1 & _).
  simpl in V1.
  split; [|split].
  - exists σ1, s1. split; [exact E1|]. by rewrite V1, Hn.
  - set (r := mkPdSeries (reverse (pd_values v)) (reverse (pd_index v))
                (pd_name v) (pd_dtype v)) in *.
    assert (Hlr : length (pd_index r) = length (pd_values r)).
    { simpl. by rewrite !length_reverse. }
    destruct (unary_spec (Pandas.iloc_slice None None (Some (-1)%Z)) s1 σ1 r _ n V1
                (iloc_slice_reverse r Hlr) Hn)
      as (σ2 & s2 & E2 & _ & V2 & _).
    exists σ1, s1, σ2, s2. split; [exact E1|]. split; [exact E2|].
    rewrite V2. subst r. simpl. rewrite !reverse_involutive. by destruct v.
  - intros start stop. unfold column_object.slice_rows.
    apply bind_raise. by apply (call_raise _ σ _ v).
Qed.

Lemma slice_rows_backwards_witness :
  let σ := one_column [Num 10; Num 20; Num 30] (int W64) in
  let v := mkPdSeries [Num 10; Num 20; Num 30] [0; 1; 2]%Z (Some "a") (int W64) in
  (∃ σ' s,
     column_object.slice_rows column_a None None (Some (-1)%Z) σ = (σ', Ok s) ∧
     view σ' (column_object.column s)
     = Some (mkPdSeries [Num 30; Num 20; Num 10] [2; 1; 0]%Z (Some "a") (int W64))) ∧
  (∃ σ1 s1 σ2 s2,
     column_object.slice_rows column_a None None (Some (-1)%Z) σ = (σ1, Ok s1) ∧
     column_object.slice_rows s1 None None (Some (-1)%Z) σ1 = (σ2, Ok s2) ∧
     view σ2 (column_object.column s2) = Some v) ∧
  ∀ start stop,
    column_object.slice_rows column_a start stop (Some 0%Z) σ = (σ, Raise ValueError).
Proof.
  apply (slice_rows_backwards column_a
           (one_column [Num 10; Num 20; Num 30] (int W64))
           (mkPdSeries [Num 10; Num 20; Num 30] [0; 1; 2]%Z (Some "a") (int W64)) "a");
    reflexivity.
Defined.

(** ** Sorting *)

(** X9.  Whatever order [sort_values] gives, [sort(ascending=False)] holds
    the slots and the labels of [sort(ascending=True)] in reverse order,
    both under the name of the wrapper; [nulls_position] changes
    nothing. *)
Theorem sort_descending_is_reversed `{B : Backend} (self : column_object.Series)
    (σ : store) (v w : PdSeries) (first last : string) :
  view σ (column_object.column self) = Some v →
  bk_sort_values v = Ok w →
  length (pd_index w) = length (pd_values w) →
  ∃ σ1 up σ2 down,
    column_object.sort self true first σ = (σ1, Ok up) ∧
    column_object.sort self false last σ = (σ2, Ok down) ∧
    view σ1 (column_object.column up)
    = Some (mkPdSeries (pd_values w) (pd_index w)
              (Some (column_object.name self)) (pd_dtype w)) ∧
    view σ2 (column_object.column down)
    = Some (mkPdSeries (reverse (pd_values w)) (reverse (pd_index w))
              (Some (column_object.name self)) (pd_dtype w)).
Proof.
  intros Hv Hs Hl.
  destruct (call_spec _ σ _ v w Hv Hs) as (σa & la & Ea & _ & Va & _).
  set (named := mkPdSeries (pd_values w) (pd_index w)
                  (Some (column_object.name self)) (pd_dtype w)).
  destruct (call_spec (λ v, Ok (mkPdSeries (pd_values v) (pd_index v)
                                  (Some (column_object.name self)) (pd_dtype v)))
              σa la w named Va eq_refl) as (σb & lb & Eb & _ & Vb & _).
  destruct (from_series_spec self σb lb named _ Vb eq_refl)
    as (σ1 & up & E1 & _ & V1 & _).
  destruct (call_spec _ σb lb named _ Vb (iloc_slice_reverse named Hl))
    as (σc & lc & Ec & _ & Vc & _).
  destruct (from_series_spec self σc lc _ _ Vc eq_refl)
    as (σ2 & down & E2 & _ & V2 & _).
  exists σ1, up, σ2, down. unfold column_object.sort.
  rewrite !(bind_ok _ _ _ _ _ Ea), !(bind_ok (pd.rename la _) _ _ _ _ Eb).
  rewrite (bind_ok _ _ _ _ _ Ec). done.
Qed.

Lemma sort_descending_is_reversed_witness :
  let σ := one_column [Num 3; Num 1; Num 2] (int W64) in
  ∃ σ1 up σ2 down,
    @column_object.sort fixture_backend column_a true "last" σ = (σ1, Ok up) ∧
    @column_object.sort fixture_backend column_a false "last" σ = (σ2, Ok down) ∧
    view σ1 (column_object.column up)
    = Some (mkPdSeries [Num 1; Num 2; Num 3] [1; 2; 0]%Z (Some "a") (int W64)) ∧
    view σ2 (column_object.column down)
    = Some (mkPdSeries [Num 3; Num 2; Num 1] [0; 2; 1]%Z (Some "a") (int W64)).
Proof.
  apply (@sort_descending_is_reversed fixture_backend column_a
           (one_column [Num 3; Num 1; Num 2] (int W64))
           (mkPdSeries [Num 3; Num 1; Num 2] [0; 1; 2]%Z (Some "a") (int W64))
           (mkPdSeries [Num 1; Num 2; Num 3] [1; 2; 0]%Z (Some "a") (int W64))
           "last" "last"); reflexivity.
Defined.

(** X10.  The slots of [sorted_indices] are the labels of the sorted
    column, in its order when ascending and in reverse order otherwise,
    as 64-bit integers under the name of the wrapper. *)
Theorem sorted_indices_are_labels_of_sort `{B : Backend} (self : column_object.Series)
    (σ : store) (v w : PdSeries) (first last : string) :
  view σ (column_object.column self) = Some v →
  bk_sort_values v = Ok w →
  ∃ σ1 up σ2 down,
    column_object.sorted_indices self true first σ = (σ1, Ok up) ∧
    column_object.sorted_indices self false last σ = (σ2, Ok down) ∧
    view σ1 (column_object.column up)
    = Some (mkPdSeries (Num <$> pd_index w) (pd_index w)
              (Some (column_object.name self)) (int W64)) ∧
    view σ2 (column_object.column down)
    = Some (mkPdSeries (Num <$> reverse (pd_index w)) (reverse (pd_index w))
              (Some (column_object.name self)) (int W64)).
Proof.
  intros Hv Hs.
  destruct (call_spec _ σ _ v w Hv Hs) as (σa & la & Ea & _ & Va & _).
  set (labels := mkPdSeries (Num <$> pd_index w) (pd_index w)
                   (Some (column_object.name self)) (int W64)).
  destruct (call_spec (Pandas.index_to_series (Some (column_object.name self)))
              σa la w labels Va eq_refl) as (σb & lb & Eb & _ & Vb & _).
  destruct (from_series_spec self σb lb labels _ Vb eq_refl)
    as (σ1 & up & E1 & _ & V1 & _).
  assert (Hl : length (pd_index labels) = length (pd_values labels)).
  { simpl. by rewrite length_fmap. }
  destruct (call_spec _ σb lb labels _ Vb (iloc_slice_reverse labels Hl))
    as (σc & lc & Ec & _ & Vc & _).
  destruct (from_series_spec self σc lc _ _ Vc eq_refl)
    as (σ2 & down & E2 & _ & V2 & _).
  exists σ1, up, σ2, down. unfold column_object.sorted_indices.
  rewrite !(bind_ok _ _ _ _ _ Ea), !(bind_ok _ _ _ _ _ Eb).
  rewrite (bind_ok _ _ _ _ _ Ec).
  split; [done|]. split; [done|]. split; [done|].
  rewrite V2. simpl. by rewrite fmap_reverse.
Qed.

Lemma sorted_indices_are_labels_of_sort_witness :
  let σ := one_column [Num 3; Num 1; Num 2] (int W64) in
  ∃ σ1 up σ2 down,
    @column_object.sorted_indices fixture_backend column_a true "last" σ = (σ1, Ok up) ∧
    @column_object.sorted_indices fixture_backend column_a false "last" σ
    = (σ2, Ok down) ∧
    view σ1 (column_object.column up)
    = Some (mkPdSeries [Num 1; Num 2; Num 0] [1; 2; 0]%Z (Some "a") (int W64)) ∧
    view σ2 (column_object.column down)
    = Some (mkPdSeries [Num 0; Num 2; Num 1] [0; 2; 1]%Z (Some "a") (int W64)).
Proof.
  apply (@sorted_indices_are_labels_of_sort fixture_backend column_a
           (one_column [Num 3; Num 1; Num 2] (int W64))
           (mkPdSeries [Num 3; Num 1; Num 2] [0; 1; 2]%Z (Some "a") (int W64))
           (mkPdSeries [Num 1; Num 2; Num 3] [1; 2; 0]%Z (Some "a") (int W64))
           "last" "last"); reflexivity.
Defined.

(** ** [alias] *)

Lemma share_buffer σ l v name :
  view σ l = Some v →
  ∃ l', share l name σ
        = (mkStore (<[l' := mkPdObject (default 0%nat (obj_buf <$> objs σ !! l))
                              (pd_index v) name]> (objs σ)) (bufs σ), Ok l') ∧
        objs σ !! l' = None.
Proof.
  unfold view, share. intros Hv.
  destruct (objs σ !! l) as [o|] eqn:Ho; [|done].
  destruct (bufs σ !! obj_buf o) as [b|] eqn:Hb; [|done].
  injection Hv as <-. simpl.
  exists (fresh (dom (objs σ))). split; [done|].
  apply not_elem_of_dom, is_fresh.
Qed.

(** X11.  [alias] returns a wrapper under the new name over the same
    slots, labels and dtype.  No data is copied: the new native object
    points to the buffer of the old one and the store has no new buffer;
    the column itself keeps its name. *)
Theorem alias_shares_the_data (self : column_object.Series) (σ : store) (v : PdSeries)
    (name : string) :
  view σ (column_object.column self) = Some v →
  ∃ σ' s o o',
    column_object.alias self name σ = (σ', Ok s) ∧
    column_object.name s = name ∧
    view σ' (column_object.column s)
    = Some (mkPdSeries (pd_values v) (pd_index v) (Some name) (pd_dtype v)) ∧
    view σ' (column_object.column self) = Some v ∧
    objs σ !! column_object.column self = Some o ∧
    objs σ' !! column_object.column s = Some o' ∧
    obj_buf o' = obj_buf o ∧
    bufs σ' = bufs σ.
Proof.
  intros Hv. unfold column_object.alias, column_object._from_series,
    pd.rename_nocopy, column_object.__init__.
  assert (∃ o, objs σ !! column_object.column self = Some o) as [o Ho].
  { unfold view in Hv. destruct (objs σ !! column_object.column self); [eauto|done]. }
  destruct (share_buffer σ _ v (Some name) Hv) as (l1 & E1 & F1).
  rewrite Ho in E1. simpl in E1.
  set (σ1 := mkStore (<[l1 := mkPdObject (obj_buf o) (pd_index v) (Some name)]> (objs σ))
               (bufs σ)) in *.
  assert (X1 : extends σ σ1).
  { split; [|done]. by apply insert_subseteq. }
  set (v1 := mkPdSeries (pd_values v) (pd_index v) (Some name) (pd_dtype v)).
  assert (V1 : view σ1 l1 = Some v1).
  { unfold view in Hv |- *. simpl. rewrite lookup_insert_eq. simpl.
    rewrite Ho in Hv. destruct (bufs σ !! obj_buf o); [|done]. by injection Hv as <-. }
  destruct (share_buffer σ1 l1 v1 (Some name) V1) as (l2 & E2 & F2).
  simpl in E2. rewrite lookup_insert_eq in E2. simpl in E2.
  set (σ2 := mkStore (<[l2 := mkPdObject (obj_buf o) (pd_index v) (Some name)]>
                        (<[l1 := mkPdObject (obj_buf o) (pd_index v) (Some name)]> (objs σ)))
               (bufs σ)) in *.
  assert (X2 : extends σ1 σ2).
  { split; [|done]. by apply insert_subseteq. }
  assert (V2 : view σ2 l2 = Some v1).
  { unfold view in V1 |- *. simpl in *. rewrite lookup_insert_eq. simpl.
    rewrite lookup_insert_eq in V1. simpl in V1. exact V1. }
  rewrite (bind_ok _ _ _ _ _ E1), (bind_ok _ _ _ _ _ (name_spec σ1 l1 v1 V1)).
  rewrite (bind_ok _ _ _ _ _ E2), (bind_ok _ _ _ _ _ (name_spec σ2 l2 v1 V2)).
  simpl. exists σ2, (column_object.mkSeries name l2 (column_object._api_version self)),
    o, (mkPdObject (obj_buf o) (pd_index v) (Some name)).
  split; [done|]. split; [done|]. split; [exact V2|].
  split; [by apply (view_extends σ σ2); [etrans|]|].
  split; [done|]. split; [|done]. simpl. by rewrite lookup_insert_eq.
Qed.

Lemma alias_shares_the_data_witness :
  let σ := one_column [Num 1; NaN] float64 in
  ∃ σ' s o o',
    column_object.alias column_a "b" σ = (σ', Ok s) ∧
    column_object.name s = "b" ∧
    view σ' (column_object.column s)
    = Some (mkPdSeries [Num 1; NaN] [0; 1]%Z (Some "b") float64) ∧
    view σ' (column_object.column column_a)
    = Some (mkPdSeries [Num 1; NaN] [0; 1]%Z (Some "a") float64) ∧
    objs σ !! column_object.column column_a = Some o ∧
    objs σ' !! column_object.column s = Some o' ∧
    obj_buf o' = obj_buf o ∧
    bufs σ' = bufs σ.
Proof.
  apply (alias_shares_the_data column_a (one_column [Num 1; NaN] float64)
           (mkPdSeries [Num 1; NaN] [0; 1]%Z (Some "a") float64) "b").
  reflexivity.
Defined.

(** ** Comparisons *)







(** ** [is_nan] and [fill_nan] *)

Lemma is_nan_plain self σ v :
  view σ (column_object.column self) = Some v →
  is_extension_array_dtype (pd_dtype v) = false →
  column_object.is_nan self σ = column_object.is_null self σ.
Proof.
  intros Hv Hd. unfold column_object.is_nan.
  rewrite (bind_ok _ _ _ _ _ (dtype_of_spec σ _ v Hv)). by rewrite Hd.
Qed.



Lemma write_cells_spec σ l v f cs :
  view σ l = Some v → f v = Ok cs →
  ∃ σ', write_cells l f σ = (σ', Ok ()) ∧
        view σ' l = Some (mkPdSeries cs (pd_index v) (pd_name v) (pd_dtype v)).
Proof.
  intros Hv Hf. unfold write_cells. rewrite Hv, Hf.
  unfold view in Hv.
  destruct (objs σ !! l) as [o|] eqn:Eo; [|done].
  destruct (bufs σ !! obj_buf o) as [b|] eqn:Eb; [|done].
  injection Hv as <-. simpl in *.
  eexists. split; [reflexivity|].
  unfold view. simpl. rewrite Eo, lookup_insert_eq. done.
Qed.

Lemma isnan_filled c d :
  (let u := Pandas.cell_isnan c in
   if Pandas.cell_isna d u then Pandas.coerce d (Bool false) else u)
  = Bool (nan_like c).
Proof. destruct c; try done; simpl; by destruct (is_masked d). Qed.

Lemma nan_mask_spec σ l v :
  view σ l = Some v →
  ∃ σ', column_object.nan_mask l σ = (σ', Ok (nan_like <$> pd_values v)) ∧
        extends σ σ'.
Proof.
  intros Hv. unfold column_object.nan_mask.
  destruct (call_spec Pandas.isnan σ l v _ Hv eq_refl) as (σ1 & l1 & E1 & X1 & V1 & _).
  rewrite (bind_ok _ _ _ _ _ E1).
  destruct (call2_spec Pandas.fillna σ1 l1 (pd.Scalar (Bool false)) _ _ _ V1 eq_refl
              (fillna_scalar _ _)) as (σ2 & l2 & E2 & X2 & V2 & _).
  rewrite (bind_ok _ _ _ _ _ E2).
  simpl in V2. rewrite map_map in V2.
  rewrite (map_ext _ (λ c, Bool (nan_like c))) in V2 by (intros c; apply isnan_filled).
  exists σ2. split; [|by etrans].
  apply (get_ok _ σ2 l2 _ _ V2). unfold Pandas.to_numpy_bool. simpl.
  rewrite result_mapM_map. by apply result_mapM_total.
Qed.

Lemma setitem_nan_mask x v :
  Pandas.setitem_mask (nan_like <$> pd_values v) x v
  = Ok (nan_filled (pd_dtype v) x <$> pd_values v).
Proof.
  unfold Pandas.setitem_mask. rewrite length_fmap, decide_True by done.
  f_equal. rewrite zip_with_fmap_r, zip_with_diag. done.
Qed.

(** What [fill_nan] returns: the slots unequal to themselves take the
    value, the others stay, under the labels, the name and the dtype of
    the column. *)
Lemma fill_nan_spec `{B : Backend} self σ v n value x :
  view σ (column_object.column self) = Some v →
  pd_name v = Some n →
  length (pd_index v) = length (pd_values v) →
  nan_filler (pd_dtype v) value = Some x →
  ∃ σ' s,
    column_object.fill_nan self value σ = (σ', Ok s) ∧
    view σ' (column_object.column s)
    = Some (mkPdSeries (nan_filled (pd_dtype v) x <$> pd_values v)
              (pd_index v) (Some n) (pd_dtype v)).
Proof.
  intros Hv Hn Hlen Hx. unfold column_object.fill_nan.
  rewrite (bind_ok _ _ _ _ _ (index_spec _ _ _ Hv)).
  destruct (call_spec Ok σ _ v v Hv eq_refl) as (σ1 & l1 & E1 & X1 & V1 & _).
  unfold pd.copy. rewrite (bind_ok _ _ _ _ _ E1).
  rewrite (bind_ok _ _ _ _ _ (dtype_of_spec _ _ _ V1)).
  destruct (nan_mask_spec σ1 l1 v V1) as (σ2 & E2 & X2).
  pose proof (view_extends _ _ _ _ X2 V1) as V2.
  destruct (write_cells_spec σ2 l1 v _ _ V2 (setitem_nan_mask x v)) as (σ3 & E3 & V3).
  assert (E : (if is_extension_array_dtype (pd_dtype v)
               then
                 if bk_is_null value
                 then let* mask := column_object.nan_mask l1 in pd.setitem l1 mask NA
                 else let* mask := column_object.nan_mask l1 in
                      let* v0 := column_object.python_value value in
                      pd.setitem l1 mask v0
               else
                 if bk_is_null value
                 then let* mask := column_object.nan_mask l1 in pd.setitem l1 mask NaN
                 else let* mask := column_object.nan_mask l1 in
                      let* v0 := column_object.python_value value in
                      pd.setitem l1 mask v0) σ1 = (σ3, Ok ())).
  { unfold nan_filler in Hx.
    destruct (is_extension_array_dtype (pd_dtype v)), (bk_is_null value);
      rewrite (bind_ok _ _ _ _ _ E2);
      try (injection Hx as <-; exact E3);
      destruct value as [|c]; try discriminate Hx; injection Hx as <-; exact E3. }
  rewrite (bind_ok _ _ _ _ _ E).
  destruct (set_index_spec σ3 l1 _ (pd_index v) V3) as (σ4 & E4 & V4).
  { simpl. by rewrite length_fmap. }
  rewrite (bind_ok _ _ _ _ _ E4). simpl in V4.
  destruct (from_series_spec self σ4 l1 _ n V4 Hn) as (σ5 & s & E5 & _ & V5 & _).
  exists σ5, s. split; [exact E5|]. by rewrite V5, Hn.
Qed.

Lemma nan_filled_float d x c :
  is_float d = true → fits d c = true →
  nan_filled d x c = if decide (c = NaN) then Pandas.coerce d x else c.
Proof. intros Hd Hc. destruct d; try discriminate; by destruct c. Qed.

(** X14.  On a well-typed float column, nullable or not, [fill_nan]
    with a number (that the namespace does not take for null) puts the
    number in the [NaN] slots and leaves every other slot as it is, the
    null slots of a nullable column included; [is_nan] of the result
    reports no slot. *)
Theorem fill_nan_replaces_nan_only `{B : Backend} (self : column_object.Series)
    (σ : store) (v : PdSeries) (n : string) (x : cell) :
  view σ (column_object.column self) = Some v →
  pd_name v = Some n →
  length (pd_index v) = length (pd_values v) →
  is_float (pd_dtype v) = true →
  well_typed v →
  bk_is_null (Py x) = false →
  fits (pd_dtype v) x = true →
  Pandas.is_missing x = false →
  ∃ σ1 filled vf σ2 nans vn,
    column_object.fill_nan self (Py x) σ = (σ1, Ok filled) ∧
    view σ1 (column_object.column filled) = Some vf ∧
    pd_values vf = (λ c, if decide (c = NaN) then x else c) <$> pd_values v ∧
    column_object.is_nan filled σ1 = (σ2, Ok nans) ∧
    view σ2 (column_object.column nans) = Some vn ∧
    length (pd_values vn) = length (pd_values v) ∧
    Forall (λ c, c = Bool false) (pd_values vn).
Proof.
  intros Hv Hn Hlen Hd Hwt Hnull _ Hx.
  assert (Hfill : nan_filler (pd_dtype v) (Py x) = Some x).
  { unfold nan_filler. by rewrite Hnull. }
  destruct (fill_nan_spec self σ v n (Py x) x Hv Hn Hlen Hfill) as (σ1 & filled & E1 & V1).
  assert (Hvals : nan_filled (pd_dtype v) x <$> pd_values v
                  = (λ c, if decide (c = NaN) then x else c) <$> pd_values v).
  { apply Forall_fmap_ext_1. eapply Forall_impl; [exact Hwt|].
    intros c Hc. simpl in Hc. rewrite nan_filled_float by done.
    unfold Pandas.coerce. by rewrite Hx. }
  rewrite Hvals in V1.
  set (vf := mkPdSeries ((λ c, if decide (c = NaN) then x else c) <$> pd_values v)
               (pd_index v) (Some n) (pd_dtype v)) in *.
  destruct (is_extension_array_dtype (pd_dtype v)) eqn:Hext.
  - assert (Hclean : Forall (λ c, self_unequal c = Bool false) (pd_values vf)).
    { simpl. apply Forall_fmap. eapply Forall_impl; [exact Hwt|].
      intros c Hc. simpl in *. destruct (decide (c = NaN)) as [->|Hne].
      - destruct x; try discriminate; done.
      - destruct (pd_dtype v); try discriminate; destruct c; try done;
          by destruct Hne. }
    destruct (is_nan_extension_spec filled σ1 vf n V1 eq_refl Hext)
      as (σ2 & nans & vn & E2 & _ & V2 & L2 & _).
    exists σ1, filled, vf, σ2, nans, vn.
    split; [exact E1|]. split; [exact V1|]. split; [done|].
    split; [exact E2|]. split; [exact V2|]. rewrite L2.
    split; [simpl; by rewrite ?length_map, ?length_fmap|].
    by apply Forall_fmap.
  - assert (Hclean : Forall (λ c, Pandas.cell_isna (pd_dtype v) c = false)
                       (pd_values vf)).
    { simpl. apply Forall_fmap. eapply Forall_impl; [exact Hwt|].
      intros c Hc. simpl in *. destruct (decide (c = NaN)) as [->|Hne].
      - destruct x; try discriminate; done.
      - destruct (pd_dtype v); try discriminate; destruct c; try done;
          by destruct Hne. }
    destruct (is_null_spec filled σ1 vf n V1 eq_refl)
      as (σ2 & nans & vn & E2 & _ & V2 & L2 & _).
    exists σ1, filled, vf, σ2, nans, vn.
    split; [exact E1|]. split; [exact V1|]. split; [done|].
    split; [by rewrite (is_nan_plain filled σ1 vf V1 Hext)|]. split; [exact V2|].
    rewrite L2.
    split; [simpl; by rewrite ?length_map, ?length_fmap|].
    apply Forall_fmap. eapply Forall_impl; [exact Hclean|].
    intros c Hc. simpl in *. by rewrite Hc.
Qed.

Lemma fill_nan_replaces_nan_only_witness :
  let σ := one_column [NA; NaN; Num 1] Float64 in
  ∃ σ1 filled vf σ2 nans vn,
    @column_object.fill_nan example_backend column_a (Py (Num 0)) σ = (σ1, Ok filled) ∧
    view σ1 (column_object.column filled) = Some vf ∧
    pd_values vf = [NA; Num 0; Num 1] ∧
    column_object.is_nan filled σ1 = (σ2, Ok nans) ∧
    view σ2 (column_object.column nans) = Some vn ∧
    length (pd_values vn) = 3%nat ∧
    Forall (λ c, c = Bool false) (pd_values vn).
Proof.
  apply (@fill_nan_replaces_nan_only example_backend column_a
           (one_column [NA; NaN; Num 1] Float64)
           (mkPdSeries [NA; NaN; Num 1] [0; 1; 2]%Z (Some "a") Float64) "a" (Num 0));
    try reflexivity.
  repeat constructor.
Defined.

(** X15.  With a value that the namespace takes for null, [fill_nan]
    turns the [NaN] slots of a well-typed nullable float column into null
    slots, and returns the slots of a plain float column as they are. *)
Theorem fill_nan_with_null `{B : Backend} (self : column_object.Series)
    (σ : store) (v : PdSeries) (n : string) (value : scalar) :
  view σ (column_object.column self) = Some v →
  pd_name v = Some n →
  length (pd_index v) = length (pd_values v) →
  is_float (pd_dtype v) = true →
  well_typed v →
  bk_is_null value = true →
  ∃ σ' s,
    column_object.fill_nan self value σ = (σ', Ok s) ∧
    view σ' (column_object.column s)
    = Some (mkPdSeries
              (if is_masked (pd_dtype v)
               then (λ c, if decide (c = NaN) then NA else c) <$> pd_values v
               else pd_values v)
              (pd_index v) (Some n) (pd_dtype v)).
Proof.
  intros Hv Hn Hlen Hd Hwt Hnull.
  set (x := if is_extension_array_dtype (pd_dtype v) then NA else NaN).
  assert (Hfill : nan_filler (pd_dtype v) value = Some x).
  { unfold nan_filler. by rewrite Hnull. }
  destruct (fill_nan_spec self σ v n value x Hv Hn Hlen Hfill) as (σ' & s & E & V).
  exists σ', s. split; [exact E|]. rewrite V. do 2 f_equal.
  destruct (is_masked (pd_dtype v)) eqn:Hm.
  - apply Forall_fmap_ext_1. eapply Forall_impl; [exact Hwt|].
    intros c Hc. simpl in Hc. rewrite nan_filled_float by done.
    destruct (decide (c = NaN)); [|done].
    subst x. by destruct (pd_dtype v).
  - rewrite <- (list_fmap_id (pd_values v)) at 2.
    apply Forall_fmap_ext_1. eapply Forall_impl; [exact Hwt|].
    intros c Hc. simpl in Hc. rewrite nan_filled_float by done.
    destruct (decide (c = NaN)) as [->|]; [|done].
    subst x. by destruct (pd_dtype v).
Qed.

Lemma fill_nan_with_null_witness :
  let σ := one_column [NA; NaN; Num 1] Float64 in
  ∃ σ' s,
    @column_object.fill_nan example_backend column_a Null σ = (σ', Ok s) ∧
    view σ' (column_object.column s)
    = Some (mkPdSeries [NA; NA; Num 1] [0; 1; 2]%Z (Some "a") Float64).
Proof.
  apply (@fill_nan_with_null example_backend column_a
           (one_column [NA; NaN; Num 1] Float64)
           (mkPdSeries [NA; NaN; Num 1] [0; 1; 2]%Z (Some "a") Float64) "a" Null);
    try reflexivity.
  repeat constructor.
Defined.

(** ** [__invert__] *)

Lemma result_mapM_Forall_total {A B} (f : A → result B) (g : A → B) (l : list A) :
  Forall (λ x, f x = Ok (g x)) l → result_mapM f l = Ok (g <$> l).
Proof. induction 1 as [|x l Hx Hl IH]; [done|]. simpl. by rewrite Hx, IH. Qed.

Lemma invert_booleans v :
  Pandas.is_bool (pd_dtype v) = true → well_typed v →
  Pandas.invert v
  = Ok (mkPdSeries (negated <$> pd_values v) (pd_index v) (pd_name v) (pd_dtype v)).
Proof.
  intros Hd Hwt. unfold Pandas.invert, Pandas.map_cells.
  rewrite (result_mapM_Forall_total _ negated); [done|].
  eapply Forall_impl; [exact Hwt|]. intros c Hc. simpl in Hc.
  destruct (pd_dtype v); try discriminate; by destruct c.
Qed.

Lemma negated_well_typed v :
  Pandas.is_bool (pd_dtype v) = true → well_typed v →
  well_typed (mkPdSeries (negated <$> pd_values v) (pd_index v) (pd_name v) (pd_dtype v)).
Proof.
  intros Hd Hwt. unfold well_typed. simpl. apply Forall_fmap.
  eapply Forall_impl; [exact Hwt|]. intros c Hc. simpl in *.
  destruct (pd_dtype v); try discriminate; by destruct c.
Qed.

(** X16.  On a well-typed column of booleans, nullable or not,
    [__invert__] negates the slots that hold a boolean and keeps the null
    ones, under the labels and the name of the column; done twice it gives
    the column back. *)
Theorem invert_twice_is_identity (self : column_object.Series) (σ : store)
    (v : PdSeries) (n : string) :
  view σ (column_object.column self) = Some v →
  pd_name v = Some n →
  Pandas.is_bool (pd_dtype v) = true →
  well_typed v →
  ∃ σ1 once σ2 twice,
    column_object.__invert__ self σ = (σ1, Ok once) ∧
    column_object.__invert__ once σ1 = (σ2, Ok twice) ∧
    view σ1 (column_object.column once)
    = Some (mkPdSeries (negated <$> pd_values v) (pd_index v) (Some n) (pd_dtype v)) ∧
    view σ2 (column_object.column twice) = Some v.
Proof.
  intros Hv Hn Hd Hwt.
  destruct (unary_spec Pandas.invert self σ v _ n Hv (invert_booleans v Hd Hwt) Hn)
    as (σ1 & once & E1 & _ & V1 & _).
  set (w := mkPdSeries (negated <$> pd_values v) (pd_index v) (pd_name v) (pd_dtype v))
    in *.
  destruct (unary_spec Pandas.invert once σ1 w _ n V1
              (invert_booleans w Hd (negated_well_typed v Hd Hwt)) Hn)
    as (σ2 & twice & E2 & _ & V2 & _).
  exists σ1, once, σ2, twice.
  split; [exact E1|]. split; [exact E2|]. split; [by rewrite V1; unfold w; rewrite Hn|].
  rewrite V2. subst w. simpl. rewrite <- list_fmap_compose.
  rewrite (Forall_fmap_ext_1 (negated ∘ negated) id).
  - rewrite list_fmap_id. by destruct v.
  - apply Forall_forall. intros c _. destruct c as [| | |z|b]; try done.
    simpl. by rewrite negb_involutive.
Qed.

Lemma invert_twice_is_identity_witness :
  let σ := one_column [Bool true; NA; Bool false] boolean in
  ∃ σ1 once σ2 twice,
    column_object.__invert__ column_a σ = (σ1, Ok once) ∧
    column_object.__invert__ once σ1 = (σ2, Ok twice) ∧
    view σ1 (column_object.column once)
    = Some (mkPdSeries [Bool false; NA; Bool true] [0; 1; 2]%Z (Some "a") boolean) ∧
    view σ2 (column_object.column twice)
    = Some (mkPdSeries [Bool true; NA; Bool false] [0; 1; 2]%Z (Some "a") boolean).
Proof.
  apply (invert_twice_is_identity column_a
           (one_column [Bool true; NA; Bool false] boolean)
           (mkPdSeries [Bool true; NA; Bool false] [0; 1; 2]%Z (Some "a") boolean) "a");
    try reflexivity.
  repeat constructor.
Defined.

(** ** [cumulative_max] and [cumulative_min] *)

Section accumulate.
Variable (f : Z → Z → Z) (g : bool → bool → bool) (le : Z → Z → Prop).
Hypothesis le_refl : ∀ x, le x x.
Hypothesis le_trans : ∀ x y z, le x y → le y z → le x z.
Hypothesis f_choice : ∀ x y, (f x y = x ∧ le y x) ∨ (f x y = y ∧ le x y).

Lemma accumulate_length first step d acc cs :
  length (Pandas.accumulate first step d acc cs) = length cs.
Proof.
  revert acc. induction cs as [|c cs IH]; intros acc; [done|].
  simpl. destruct (Pandas.cell_isna d c); simpl; by rewrite IH.
Qed.

Lemma accumulate_missing first step d acc cs i c :
  cs !! i = Some c → Pandas.cell_isna d c = true →
  Pandas.accumulate first step d acc cs !! i = Some c.
Proof.
  revert acc i. induction cs as [|c0 cs IH]; intros acc [|i] Hi Hc; try done.
  - injection Hi as ->. simpl. by rewrite Hc.
  - simpl. destruct (Pandas.cell_isna d c0); simpl; by apply IH.
Qed.

(** The running value, once a number [a], stays the extreme of [a] and
    the numbers met since. *)
Lemma accumulate_running d (a : Z) cs i z :
  Forall (number_or_missing d) cs →
  cs !! i = Some (Num z) →
  ∃ m, Pandas.accumulate id (Pandas.step_order f g) d (Some (Num a)) cs !! i
       = Some (Num m) ∧
       le a m ∧
       (∀ j y, (j ≤ i)%nat → cs !! j = Some (Num y) → le y m) ∧
       (m = a ∨ ∃ j, (j ≤ i)%nat ∧ cs !! j = Some (Num m)).
Proof using le_refl le_trans f_choice.
  intros Hcs. revert a i. induction Hcs as [|c cs Hc Hcs IH]; intros a i Hi; [done|].
  simpl. destruct (Pandas.cell_isna d c) eqn:Hna.
  - destruct i as [|i]; simpl in Hi.
    { injection Hi as ->. done. }
    destruct (IH a i Hi) as (m & Hm & Ham & Hup & Hin).
    exists m. split; [done|]. split; [done|]. split.
    + intros [|j] y Hj Hy; simpl in Hy.
      * injection Hy as ->. done.
      * apply (Hup j); [lia|done].
    + destruct Hin as [->|(j & Hj & Hy)]; [by left|].
      right. exists (S j). split; [lia|done].
  - destruct Hc as [[y ->]|Hc]; [|congruence].
    cbn [Pandas.step_order Pandas.step_Z Pandas.numeric].
    destruct i as [|i]; simpl in Hi.
    + injection Hi as ->. simpl. exists (f a z). split; [done|].
      destruct (f_choice a z) as [[-> Hle]|[-> Hle]].
      * split; [done|]. split; [|by left].
        intros [|j] y' Hj Hy; [|lia]. simpl in Hy. by injection Hy as ->.
      * split; [done|]. split; [|right; exists 0%nat; done].
        intros [|j] y' Hj Hy; [|lia]. simpl in Hy. by injection Hy as ->.
    + simpl. destruct (IH (f a y) i Hi) as (m & Hm & Ham & Hup & Hin).
      exists m. split; [done|].
      destruct (f_choice a y) as [[E Hle]|[E Hle]]; rewrite E in *.
      * split; [done|]. split.
        -- intros [|j] y' Hj Hy; simpl in Hy.
           ++ injection Hy as ->. by apply (le_trans _ a).
           ++ apply (Hup j); [lia|done].
        -- destruct Hin as [->|(j & Hj & Hy)]; [by left|].
           right. exists (S j). split; [lia|done].
      * split; [by apply (le_trans _ y)|]. split.
        -- intros [|j] y' Hj Hy; simpl in Hy.
           ++ by injection Hy as ->.
           ++ apply (Hup j); [lia|done].
        -- destruct Hin as [->|(j & Hj & Hy)].
           ++ right. exists 0%nat. split; [lia|done].
           ++ right. exists (S j). split; [lia|done].
Qed.

Lemma accumulate_extreme d cs i z :
  Forall (number_or_missing d) cs →
  cs !! i = Some (Num z) →
  ∃ m, Pandas.accumulate id (Pandas.step_order f g) d None cs !! i = Some (Num m) ∧
       running_extreme le cs i m.
Proof using le_refl le_trans f_choice.
  intros Hcs. revert i. induction Hcs as [|c cs Hc Hcs IH]; intros i Hi; [done|].
  simpl. destruct (Pandas.cell_isna d c) eqn:Hna.
  - destruct i as [|i]; simpl in Hi.
    { injection Hi as ->. done. }
    destruct (IH i Hi) as (m & Hm & Hup & j & Hj & Hy).
    exists m. split; [done|]. split.
    + intros [|j'] y Hj' Hy'; simpl in Hy'.
      * injection Hy' as ->. done.
      * apply (Hup j'); [lia|done].
    + exists (S j). split; [lia|done].
  - destruct Hc as [[y ->]|Hc]; [|congruence].
    destruct i as [|i]; simpl in Hi.
    + injection Hi as ->. exists z. split; [done|]. split.
      * intros [|j] y' Hj Hy; [|lia]. simpl in Hy. by injection Hy as ->.
      * exists 0%nat. done.
    + simpl. destruct (accumulate_running d y cs i z Hcs Hi) as (m & Hm & Ham & Hup & Hin).
      exists m. split; [done|]. split.
      * intros [|j] y' Hj Hy; simpl in Hy.
        -- by injection Hy as ->.
        -- apply (Hup j); [lia|done].
      * destruct Hin as [->|(j & Hj & Hy)].
        -- exists 0%nat. split; [lia|done].
        -- exists (S j). split; [lia|done].
Qed.

End accumulate.

Lemma max_choice x y : (Z.max x y = x ∧ y ≤ x)%Z ∨ (Z.max x y = y ∧ x ≤ y)%Z.
Proof. lia. Qed.

Lemma min_choice x y : (Z.min x y = x ∧ Z.ge y x) ∨ (Z.min x y = y ∧ Z.ge x y).
Proof. lia. Qed.

Lemma ge_reflexive x : Z.ge x x.
Proof. lia. Qed.

Lemma ge_transitive x y z : Z.ge x y → Z.ge y z → Z.ge x z.
Proof. lia. Qed.

(** X17.  On a column whose slots are numbers or missing, whatever
    [skip_nulls]: [cumulative_max] and [cumulative_min] return as many
    slots as the column has; a missing slot stays where it is; and where
    the column holds a number, [cumulative_max] holds the greatest and
    [cumulative_min] the least of the numbers of the column up to that
    slot. *)
Theorem cumulative_extremes (self : column_object.Series) (σ : store) (v : PdSeries)
    (n : string) (skip_nulls : bool) :
  view σ (column_object.column self) = Some v →
  pd_name v = Some n →
  Forall (number_or_missing (pd_dtype v)) (pd_values v) →
  ∃ σ1 highs vh σ2 lows vl,
    column_object.cumulative_max self skip_nulls σ = (σ1, Ok highs) ∧
    column_object.cumulative_min self skip_nulls σ = (σ2, Ok lows) ∧
    view σ1 (column_object.column highs) = Some vh ∧
    view σ2 (column_object.column lows) = Some vl ∧
    length (pd_values vh) = length (pd_values v) ∧
    length (pd_values vl) = length (pd_values v) ∧
    ∀ i c, pd_values v !! i = Some c →
           match c with
           | Num z =>
               ∃ hi lo, pd_values vh !! i = Some (Num hi) ∧
                        pd_values vl !! i = Some (Num lo) ∧
                        running_extreme Z.le (pd_values v) i hi ∧
                        running_extreme Z.ge (pd_values v) i lo
           | _ => pd_values vh !! i = Some c ∧ pd_values vl !! i = Some c
           end.
Proof.
  intros Hv Hn Hcs.
  destruct (unary_spec Pandas.cummax self σ v _ n Hv eq_refl Hn)
    as (σ1 & highs & E1 & _ & V1 & _).
  destruct (unary_spec Pandas.cummin self σ v _ n Hv eq_refl Hn)
    as (σ2 & lows & E2 & _ & V2 & _).
  eexists σ1, highs, _, σ2, lows, _.
  split; [exact E1|]. split; [exact E2|]. split; [exact V1|]. split; [exact V2|].
  cbn [pd_values]. rewrite !accumulate_length.
  split; [done|]. split; [done|].
  intros i c Hi.
  assert (Hc : number_or_missing (pd_dtype v) c).
  { rewrite Forall_lookup in Hcs. by apply (Hcs i). }
  destruct c as [| | |z|b];
    try (destruct Hc as [[z' Hz]|Hc]; [discriminate Hz|];
         split; by apply accumulate_missing).
  destruct (accumulate_extreme Z.max orb Z.le Z.le_refl Z.le_trans max_choice
              (pd_dtype v) (pd_values v) i z Hcs Hi) as (hi & Hhi & Rhi).
  destruct (accumulate_extreme Z.min andb Z.ge ge_reflexive ge_transitive min_choice
              (pd_dtype v) (pd_values v) i z Hcs Hi) as (lo & Hlo & Rlo).
  exists hi, lo. done.
Qed.

Lemma cumulative_extremes_witness :
  let σ := one_column [Num 1; Num 3; NA; Num 2] (Int W64) in
  ∃ σ1 highs vh σ2 lows vl,
    column_object.cumulative_max column_a true σ = (σ1, Ok highs) ∧
    column_object.cumulative_min column_a true σ = (σ2, Ok lows) ∧
    view σ1 (column_object.column highs) = Some vh ∧
    view σ2 (column_object.column lows) = Some vl ∧
    length (pd_values vh) = 4%nat ∧
    length (pd_values vl) = 4%nat ∧
    ∀ i c, [Num 1; Num 3; NA; Num 2] !! i = Some c →
           match c with
           | Num z =>
               ∃ hi lo, pd_values vh !! i = Some (Num hi) ∧
                        pd_values vl !! i = Some (Num lo) ∧
                        running_extreme Z.le [Num 1; Num 3; NA; Num 2] i hi ∧
                        running_extreme Z.ge [Num 1; Num 3; NA; Num 2] i lo
           | _ => pd_values vh !! i = Some c ∧ pd_values vl !! i = Some c
           end.
Proof.
  apply (cumulative_extremes column_a (one_column [Num 1; Num 3; NA; Num 2] (Int W64))
           (mkPdSeries [Num 1; Num 3; NA; Num 2] [0; 1; 2; 3]%Z (Some "a") (Int W64))
           "a" true); try reflexivity.
  repeat (apply List.Forall_cons; [first [by left; eexists | by right]|]).
  apply List.Forall_nil.
Defined.

(** ** [to_array] *)

Lemma numpy_mapping_lookup d :
  default (dtype_name d) (column_object.NUMPY_MAPPING !! dtype_name d)
  = dtype_name (plain_dtype d).
Proof.
  destruct d as [w|w| | | |w|w| | | |[tz|]|]; try destruct w; vm_compute; reflexivity.
Qed.

(** X18.  [to_array] asks [to_numpy] for the numpy dtype of the same
    family: the plain counterpart of a nullable dtype, and the dtype
    itself otherwise.  The name of a nullable dtype never reaches
    pandas. *)
Theorem to_array_asks_for_the_plain_dtype `{B : Backend} (self : column_object.Series)
    (σ : store) (v : PdSeries) :
  view σ (column_object.column self) = Some v →
  column_object.to_array self σ
  = (σ, bk_to_numpy (dtype_name (plain_dtype (pd_dtype v))) v).
Proof.
  intros Hv. unfold column_object.to_array.
  rewrite (bind_ok _ _ _ _ _ (dtype_of_spec σ _ v Hv)).
  by rewrite numpy_mapping_lookup, (get_spec _ σ _ v Hv).
Qed.

Lemma to_array_asks_for_the_plain_dtype_witness :
  let σ := one_column [Num 1; NA] (Int W64) in
  @column_object.to_array example_backend column_a σ
  = (σ, @bk_to_numpy example_backend "int64"
          (mkPdSeries [Num 1; NA] [0; 1]%Z (Some "a") (Int W64))).
Proof.
  apply (@to_array_asks_for_the_plain_dtype example_backend column_a
           (one_column [Num 1; NA] (Int W64))
           (mkPdSeries [Num 1; NA] [0; 1]%Z (Some "a") (Int W64))).
  reflexivity.
Defined.

(** ** Arithmetic on calendar fields *)

Lemma wrap_signed_small n z :
  (0 < n)%Z → (- 2 ^ (n - 1) ≤ z < 2 ^ (n - 1))%Z → Pandas.wrap_signed n z = z.
Proof.
  intros Hn Hz. unfold Pandas.wrap_signed.
  assert (2 ^ n = 2 * 2 ^ (n - 1))%Z as ->.
  { rewrite <- Z.pow_succ_r by lia. f_equal. lia. }
  rewrite Z.mod_small; lia.
Qed.

Lemma mapM_numbers d op (xs ys : list Z) :
  result_mapM (λ p, Pandas.cell_arith d op p.1 p.2) (zip (Num <$> xs) (Num <$> ys))
  = Ok (zip_with (λ x y, Num (Pandas.arith_Z d op x y)) xs ys).
Proof.
  revert ys. induction xs as [|x xs IH]; intros [|y ys]; try done.
  csimpl. by rewrite IH.
Qed.

Lemma int32_with_small_int np op k :
  (- 2 ^ 31 ≤ k < 2 ^ 31)%Z →
  Pandas.with_int np op (Pandas.f_int W32) k = Ok (Pandas.f_int W32).
Proof.
  intros Hk. unfold Pandas.with_int, Pandas.fits_signed. simpl.
  change (32 - 1)%Z with 31%Z.
  assert ((- 2 ^ 31 <=? k)%Z && (k <? 2 ^ 31)%Z = true) as Hfit.
  { apply andb_true_intro. split; [apply Z.leb_le|apply Z.ltb_lt]; lia. }
  destruct np; by rewrite Hfit.
Qed.

Lemma int32_scalar_arithmetic np op (w : PdSeries) (ks : list Z) (k : Z) :
  pd_dtype w = int W32 → pd_values w = Num <$> ks →
  (- 2 ^ 31 ≤ k < 2 ^ 31)%Z →
  Pandas.arithmetic np op w (Pandas.Scalar (Num k))
  = Ok (mkPdSeries ((λ x, Num (Pandas.arith_Z (int W32) op x k)) <$> ks)
          (pd_index w) (pd_name w) (int W32)).
Proof.
  intros Hd Hv Hk. unfold Pandas.arithmetic, Pandas.arith_dtype, Pandas.arith_family.
  rewrite Hd. cbn [Pandas.family_of]. rewrite int32_with_small_int by done.
  destruct op; simpl; unfold Pandas.elementwise; simpl;
    rewrite Hv, length_fmap, <- fmap_replicate, mapM_numbers; simpl;
    by rewrite zip_with_replicate.
Qed.

Lemma int32_column_addition np (a b : PdSeries) (xs ys : list Z) :
  pd_dtype a = int W32 → pd_dtype b = int W32 →
  pd_values a = Num <$> xs → pd_values b = Num <$> ys → length xs = length ys →
  Pandas.arithmetic np Pandas.ADD a (Pandas.Column b)
  = Ok (mkPdSeries (zip_with (λ x y, Num (Pandas.arith_Z (int W32) Pandas.ADD x y)) xs ys)
          (pd_index a) (Pandas.result_name a (Pandas.Column b)) (int W32)).
Proof.
  intros Ha Hb Hx Hy Hl. unfold Pandas.arithmetic, Pandas.arith_dtype, Pandas.arith_family.
  rewrite Ha, Hb. simpl. unfold Pandas.elementwise. simpl.
  rewrite Hx, Hy, !length_fmap. destruct (decide (length ys = length xs)); [|lia].
  simpl. rewrite Hb. change (Pandas.wider W32 W32) with W32. simpl.
  by rewrite mapM_numbers.
Qed.

(** X19.  Where [ser.dt.weekday] is a 32-bit integer column that
    numbers the days from 0 to 6, [iso_weekday] numbers them from 1 to 7,
    under the same labels and name, with either numpy. *)
Theorem iso_weekday_counts_from_one `{B : Backend} (self : column_object.Series)
    (σ : store) (v w : PdSeries) (n : string) (days : list Z) :
  view σ (column_object.column self) = Some v →
  bk_dt dt_weekday v = Ok w →
  pd_name w = Some n →
  pd_dtype w = int W32 →
  pd_values w = Num <$> days →
  Forall (λ d, 0 ≤ d ≤ 6)%Z days →
  ∃ σ' s,
    column_object.iso_weekday self σ = (σ', Ok s) ∧
    view σ' (column_object.column s)
    = Some (mkPdSeries ((λ d, Num (d + 1)) <$> days) (pd_index w) (Some n) (int W32)) ∧
    Forall (λ d, 1 ≤ d + 1 ≤ 7)%Z days.
Proof.
  intros Hv Hw Hn Hd Hc Hr.
  destruct (call_spec _ σ _ v w Hv Hw) as (σ1 & l1 & E1 & _ & V1 & _).
  assert (Hsum : Pandas.arithmetic bk_numpy Pandas.ADD w (Pandas.Scalar (Num 1))
                 = Ok (mkPdSeries ((λ d, Num (d + 1)) <$> days) (pd_index w)
                         (Some n) (int W32))).
  { rewrite (int32_scalar_arithmetic _ _ w days 1 Hd Hc) by lia. rewrite Hn.
    do 2 f_equal. apply Forall_fmap_ext_1. eapply Forall_impl; [exact Hr|].
    intros d Hd'. simpl in *. f_equal. apply wrap_signed_small; lia. }
  destruct (call2_spec _ σ1 l1 (pd.Scalar (Num 1)) w _ _ V1 eq_refl Hsum)
    as (σ2 & l2 & E2 & _ & V2 & _).
  destruct (from_series_spec self σ2 l2 _ n V2 eq_refl) as (σ3 & s & E3 & _ & V3 & _).
  exists σ3, s. unfold column_object.iso_weekday.
  rewrite (bind_ok _ _ _ _ _ E1), (bind_ok _ _ _ _ _ E2).
  split; [done|]. split; [done|].
  eapply Forall_impl; [exact Hr|]. simpl. lia.
Qed.

Lemma iso_weekday_counts_from_one_witness :
  let σ := one_column [Num just_before; Num on_the_second] (datetime64 None) in
  ∃ σ' s,
    @column_object.iso_weekday fixture_backend column_a σ = (σ', Ok s) ∧
    view σ' (column_object.column s)
    = Some (mkPdSeries [Num 2; Num 2] [0; 1]%Z (Some "a") (int W32)) ∧
    Forall (λ d, 1 ≤ d + 1 ≤ 7)%Z [1; 1]%Z.
Proof.
  apply (@iso_weekday_counts_from_one fixture_backend column_a
           (one_column [Num just_before; Num on_the_second] (datetime64 None))
           (mkPdSeries [Num just_before; Num on_the_second] [0; 1]%Z (Some "a")
              (datetime64 None))
           (mkPdSeries [Num 1; Num 1] [0; 1]%Z (Some "a") (int W32))
           "a" [1; 1]%Z); try reflexivity.
  repeat constructor; lia.
Defined.

(** X20.  Where [ser.dt.microsecond] and [ser.dt.nanosecond] are 32-bit
    integer columns of the same name, below a million and below a
    thousand, [nanosecond] is [microsecond * 1000 + nanosecond] exactly:
    32 bits hold the product and the sum. *)
Theorem nanosecond_fits_32_bits `{B : Backend} (self : column_object.Series)
    (σ : store) (v micro nano : PdSeries) (n : string) (us ns : list Z) :
  view σ (column_object.column self) = Some v →
  bk_dt dt_microsecond v = Ok micro →
  bk_dt dt_nanosecond v = Ok nano →
  pd_name micro = Some n → pd_name nano = Some n →
  pd_dtype micro = int W32 → pd_dtype nano = int W32 →
  pd_values micro = Num <$> us → pd_values nano = Num <$> ns →
  length us = length ns →
  Forall (λ u, 0 ≤ u < 1000000)%Z us →
  Forall (λ k, 0 ≤ k < 1000)%Z ns →
  ∃ σ' s,
    column_object.nanosecond self σ = (σ', Ok s) ∧
    view σ' (column_object.column s)
    = Some (mkPdSeries (zip_with (λ u k, Num (u * 1000 + k)) us ns)
              (pd_index micro) (Some n) (int W32)).
Proof.
  intros Hv Hm Hk Hnm Hnk Hdm Hdk Hcm Hck Hl Hus Hns.
  destruct (call_spec _ σ _ v micro Hv Hm) as (σ1 & l1 & E1 & X1 & V1 & _).
  set (scaled := mkPdSeries ((λ u, Num (u * 1000)) <$> us) (pd_index micro)
                   (Some n) (int W32)).
  assert (Hscaled : Pandas.arithmetic bk_numpy Pandas.MUL micro (Pandas.Scalar (Num 1000))
                    = Ok scaled).
  { rewrite (int32_scalar_arithmetic _ _ micro us 1000 Hdm Hcm) by lia. rewrite Hnm.
    unfold scaled. do 2 f_equal. apply Forall_fmap_ext_1.
    eapply Forall_impl; [exact Hus|].
    intros u Hu. simpl in *. f_equal. apply wrap_signed_small; lia. }
  destruct (call2_spec _ σ1 l1 (pd.Scalar (Num 1000)) micro _ _ V1 eq_refl Hscaled)
    as (σ2 & l2 & E2 & X2 & V2 & _).
  assert (Hv2 : view σ2 (column_object.column self) = Some v).
  { apply (view_extends σ); [by etrans|done]. }
  destruct (call_spec _ σ2 _ v nano Hv2 Hk) as (σ3 & l3 & E3 & X3 & V3 & _).
  assert (V2' : view σ3 l2 = Some scaled) by (by apply (view_extends σ2)).
  set (total := mkPdSeries (zip_with (λ u k, Num (u * 1000 + k)) us ns)
                  (pd_index micro) (Some n) (int W32)).
  assert (Htotal : Pandas.arithmetic bk_numpy Pandas.ADD scaled (Pandas.Column nano)
                   = Ok total).
  { rewrite (int32_column_addition _ scaled nano ((λ u, u * 1000)%Z <$> us) ns);
      [|done|done|by (simpl; rewrite <- list_fmap_compose)|done|by rewrite length_fmap].
    unfold total. simpl. rewrite Hnk. destruct (decide (Some n = Some n)); [|done].
    do 2 f_equal. rewrite zip_with_fmap_l.
    clear -Hl Hus Hns. revert ns Hl Hns.
    induction Hus as [|u us Hu Hus IH]; intros [|k ns] Hl Hns; try done.
    inversion Hns as [|?? Hk Hns']; subst. simpl. f_equal.
    - f_equal. apply wrap_signed_small; lia.
    - apply IH; [by injection Hl|done]. }
  assert (A3 : arg_of σ3 (pd.Native l3) = Some (Pandas.Column nano)).
  { simpl. by rewrite V3. }
  destruct (call2_spec _ σ3 l2 (pd.Native l3) scaled _ _ V2' A3 Htotal)
    as (σ4 & l4 & E4 & _ & V4 & _).
  destruct (from_series_spec self σ4 l4 _ n V4 eq_refl) as (σ5 & s & E5 & _ & V5 & _).
  exists σ5, s. unfold column_object.nanosecond.
  rewrite (bind_ok _ _ _ _ _ E1), (bind_ok _ _ _ _ _ E2), (bind_ok _ _ _ _ _ E3),
    (bind_ok _ _ _ _ _ E4).
  done.
Qed.

Lemma nanosecond_fits_32_bits_witness :
  let σ := one_column [Num just_before; Num on_the_second] (datetime64 None) in
  ∃ σ' s,
    @column_object.nanosecond fixture_backend column_a σ = (σ', Ok s) ∧
    view σ' (column_object.column s)
    = Some (mkPdSeries [Num 999999999; Num 0] [0; 1]%Z (Some "a") (int W32)).
Proof.
  apply (@nanosecond_fits_32_bits fixture_backend column_a
           (one_column [Num just_before; Num on_the_second] (datetime64 None))
           (mkPdSeries [Num just_before; Num on_the_second] [0; 1]%Z (Some "a")
              (datetime64 None))
           (mkPdSeries [Num 999999; Num 0] [0; 1]%Z (Some "a") (int W32))
           (mkPdSeries [Num 999; Num 0] [0; 1]%Z (Some "a") (int W32))
           "a" [999999; 0]%Z [999; 0]%Z); try reflexivity.
  - repeat constructor; lia.
  - repeat constructor; lia.
Defined.

(** ** [__divmod__] *)

Lemma zip_with_fmap_replicate {A B C D} (f : B → C → D) (g : A → B) (l : list A) (c : C) :
  zip_with f (g <$> l) (replicate (length l) c) = (λ x, f (g x) c) <$> l.
Proof. induction l as [|x l IH]; [done|]. csimpl. by rewrite <- IH. Qed.

Lemma wrap_signed_sub_idemp n a b :
  (0 < n)%Z →
  Pandas.wrap_signed n (a - Pandas.wrap_signed n b) = Pandas.wrap_signed n (a - b).
Proof.
  intros Hn. unfold Pandas.wrap_signed. f_equal.
  assert (0 < 2 ^ n)%Z by (apply Z.pow_pos_nonneg; lia).
  replace (a - ((b + 2 ^ (n - 1)) `mod` 2 ^ n - 2 ^ (n - 1)) + 2 ^ (n - 1))%Z
    with ((a + 2 ^ (n - 1) + 2 ^ (n - 1)) - (b + 2 ^ (n - 1)) `mod` 2 ^ n)%Z by lia.
  rewrite Zminus_mod_idemp_r. f_equal. lia.
Qed.

Lemma int64_with_int np op k :
  (- 2 ^ 63 ≤ k < 2 ^ 63)%Z →
  Pandas.with_int np op (Pandas.f_int W64) k = Ok (Pandas.f_int W64).
Proof.
  intros Hk. unfold Pandas.with_int, Pandas.fits_signed. simpl.
  change (64 - 1)%Z with 63%Z.
  assert ((- 2 ^ 63 <=? k)%Z && (k <? 2 ^ 63)%Z = true) as Hfit.
  { apply andb_true_intro. split; [apply Z.leb_le|apply Z.ltb_lt]; lia. }
  destruct np; by rewrite Hfit.
Qed.

(** X21.  On a column of 64-bit integers and a positive integer [k]:
    where [//] gives the floor quotients under the labels of the column,
    [__divmod__] returns them with the remainders [x mod k], both named
    after the column, so that each slot is [quotient * k + remainder].
    The product [quotient * k] may wrap; the difference does not. *)
Theorem divmod_remainder_is_modulo `{B : Backend} (self : column_object.Series)
    (σ : store) (v q : PdSeries) (n : string) (xs : list Z) (k : Z) :
  view σ (column_object.column self) = Some v →
  pd_name v = Some n →
  pd_dtype v = int W64 →
  pd_values v = Num <$> xs →
  (0 < k < 2 ^ 63)%Z →
  Forall (λ x, - 2 ^ 63 ≤ x < 2 ^ 63)%Z xs →
  bk_divide FLOORDIV v (Pandas.Scalar (Num k)) = Ok q →
  pd_values q = (λ x, Num (x / k)) <$> xs →
  pd_index q = pd_index v →
  pd_dtype q = int W64 →
  ∃ σ' quotient remainder vq vr,
    column_object.__divmod__ self (column_object.Value (Num k)) σ
    = (σ', Ok (quotient, remainder)) ∧
    view σ' (column_object.column quotient) = Some vq ∧
    view σ' (column_object.column remainder) = Some vr ∧
    pd_values vq = (λ x, Num (x / k)) <$> xs ∧
    pd_values vr = (λ x, Num (x `mod` k)) <$> xs ∧
    pd_name vq = Some n ∧ pd_name vr = Some n.
Proof.
  intros Hv Hn Hd Hxs Hk Hrange Hq Hqv Hqi Hqd.
  unfold column_object.__divmod__, column_object.__floordiv__, column_object.__mul__,
    column_object.__sub__.
  destruct (binary_spec _ self (column_object.Value (Num k)) σ v _ q n Hv Hn eq_refl Hq)
    as (σ1 & quotient & E1 & X1 & V1 & _).
  rewrite (bind_ok _ _ _ _ _ E1).
  set (vq := mkPdSeries (pd_values q) (pd_index q) (Some n) (pd_dtype q)) in *.
  set (vp := mkPdSeries (Num <$> ((λ x, Pandas.wrap_signed 64 (x / k * k)) <$> xs))
               (pd_index q) (Some n) (int W64)).
  assert (Hp : Pandas.arithmetic bk_numpy Pandas.MUL vq (Pandas.Scalar (Num k)) = Ok vp).
  { unfold Pandas.arithmetic, Pandas.arith_dtype, Pandas.arith_family. simpl.
    rewrite Hqd. cbn [Pandas.family_of]. rewrite int64_with_int by lia. simpl.
    unfold Pandas.elementwise. simpl.
    assert (Hqv' : pd_values q = Num <$> ((λ x, x / k)%Z <$> xs))
      by (rewrite Hqv; apply (list_fmap_compose (λ x, x / k)%Z Num)).
    rewrite Hqv', !length_fmap, <- fmap_replicate.
    rewrite mapM_numbers. simpl. unfold vp. do 2 f_equal.
    rewrite zip_with_fmap_replicate.
    apply (list_fmap_compose (λ x, Pandas.wrap_signed 64 (x / k * k)) Num). }
  destruct (binary_spec _ quotient (column_object.Value (Num k)) σ1 vq _ vp n V1
              eq_refl eq_refl Hp) as (σ2 & product & E2 & X2 & V2 & _).
  rewrite (bind_ok _ _ _ _ _ E2). simpl in V2.
  fold vp in V2.
  set (vr := mkPdSeries ((λ x, Num (x `mod` k)) <$> xs) (pd_index v) (Some n) (int W64)).
  assert (Hr : Pandas.arithmetic bk_numpy Pandas.SUB v (Pandas.Column vp) = Ok vr).
  { unfold Pandas.arithmetic, Pandas.arith_dtype, Pandas.arith_family. simpl.
    rewrite Hd. simpl. unfold Pandas.elementwise. simpl.
    rewrite Hxs, !length_fmap, decide_True by done. simpl.
    rewrite mapM_numbers. simpl. rewrite Hn, decide_True by done.
    unfold vr. do 2 f_equal.
    rewrite zip_with_fmap_r, zip_with_diag.
    apply Forall_fmap_ext_1. eapply Forall_impl; [exact Hrange|].
    intros x Hx. simpl in *. f_equal.
    rewrite wrap_signed_sub_idemp by lia.
    replace (x - x / k * k)%Z with (x `mod` k)%Z by (rewrite Z.mod_eq; lia).
    apply wrap_signed_small; [lia|].
    pose proof (Z.mod_pos_bound x k). lia. }
  assert (Hv2 : view σ2 (column_object.column self) = Some v).
  { apply (view_extends σ); [by etrans|done]. }
  assert (Ha : comparand_arg σ2 v (column_object.Col product) = Some (Pandas.Column vp)).
  { simpl. rewrite V2. simpl. by rewrite decide_True. }
  destruct (binary_spec _ self (column_object.Col product) σ2 v _ vr n Hv2 Hn Ha Hr)
    as (σ3 & remainder & E3 & X3 & V3 & _).
  rewrite (bind_ok _ _ _ _ _ E3). simpl in V3.
  exists σ3, quotient, remainder, vq, vr.
  split; [done|].
  split; [apply (view_extends σ1); [by etrans|done]|].
  split; [exact V3|]. done.
Qed.

Lemma divmod_remainder_is_modulo_witness :
  let σ := one_column [Num 7; Num (-7); Num 6] (int W64) in
  ∃ σ' quotient remainder vq vr,
    @column_object.__divmod__ fixture_backend column_a (column_object.Value (Num 3)) σ
    = (σ', Ok (quotient, remainder)) ∧
    view σ' (column_object.column quotient) = Some vq ∧
    view σ' (column_object.column remainder) = Some vr ∧
    pd_values vq = [Num 2; Num (-3); Num 2] ∧
    pd_values vr = [Num 1; Num 2; Num 0] ∧
    pd_name vq = Some "a" ∧ pd_name vr = Some "a".
Proof.
  apply (@divmod_remainder_is_modulo fixture_backend column_a
           (one_column [Num 7; Num (-7); Num 6] (int W64))
           (mkPdSeries [Num 7; Num (-7); Num 6] [0; 1; 2]%Z (Some "a") (int W64))
           (mkPdSeries [Num 2; Num (-3); Num 2] [0; 1; 2]%Z (Some "a") (int W64))
           "a" [7; -7; 6]%Z 3); try reflexivity.
  - lia.
  - repeat constructor; lia.
Defined.

(** ** [unix_timestamp]: the shape of the result and the missing slots *)

Lemma sub_epoch_slots v :
  pd_dtype v = datetime64 None →
  Pandas.sub_epoch v
  = Ok (mkPdSeries (elapsed <$> pd_values v) (pd_index v) (pd_name v) timedelta64).
Proof.
  intros Hd. unfold Pandas.sub_epoch, Pandas.map_cells. rewrite Hd.
  rewrite (result_mapM_total _ elapsed); [done|].
  intros [| | |z|b]; reflexivity.
Qed.

Lemma elapsed_slots σ l v tz :
  view σ l = Some v → pd_dtype v = datetime64 tz →
  ∃ σ' l',
    (match tz with
     | None => pd.call Pandas.sub_epoch l
     | Some _ =>
         let* utc := pd.call (Pandas.tz_convert "UTC") l in
         let* naive := pd.call Pandas.tz_localize_none utc in
         pd.call Pandas.sub_epoch naive
     end) σ = (σ', Ok l') ∧
    extends σ σ' ∧
    view σ' l'
    = Some (mkPdSeries (elapsed <$> pd_values v) (pd_index v) (pd_name v) timedelta64).
Proof.
  intros Hv Hd. destruct tz as [tz|].
  - assert (H1 : Pandas.tz_convert "UTC" v
                 = Ok (mkPdSeries (pd_values v) (pd_index v) (pd_name v)
                         (datetime64 (Some "UTC"))))
      by (unfold Pandas.tz_convert; by rewrite Hd).
    destruct (call_spec _ σ l v _ Hv H1) as (σ1 & l1 & E1 & X1 & V1 & _).
    rewrite (bind_ok _ _ _ _ _ E1).
    destruct (call_spec Pandas.tz_localize_none σ1 l1 _ _ V1 eq_refl)
      as (σ2 & l2 & E2 & X2 & V2 & _).
    rewrite (bind_ok _ _ _ _ _ E2).
    destruct (call_spec _ σ2 l2 _ _ V2
                (sub_epoch_slots
                   (mkPdSeries (pd_values v) (pd_index v) (pd_name v) (datetime64 None))
                   eq_refl)) as (σ3 & l3 & E3 & X3 & V3 & _).
    exists σ3, l3. split; [done|]. split; [|done].
    by do 2 (etrans; [eassumption|]).
  - destruct (call_spec _ σ l v _ Hv (sub_epoch_slots v Hd))
      as (σ1 & l1 & E1 & X1 & V1 & _).
    exists σ1, l1. done.
Qed.

Ltac slot_lookup H :=
  unfold np.to_cells, np.floor, np.add_cells, np.mul_int, np.floordiv_int,
    np.to_Int64, np.cells_to_Int64, np.Int64_mul_int, np.Int64_add,
    Timedelta.total_seconds, Timedelta.microseconds, Timedelta.nanoseconds;
  repeat first [rewrite list_lookup_fmap | rewrite lookup_zip_with];
  rewrite H; reflexivity.

Ltac slot_count :=
  unfold np.to_cells, np.floor, np.add_cells, np.mul_int, np.floordiv_int,
    np.to_Int64, np.cells_to_Int64, np.Int64_mul_int, np.Int64_add,
    Timedelta.total_seconds, Timedelta.microseconds, Timedelta.nanoseconds;
  repeat first [rewrite length_fmap | rewrite length_zip_with];
  lia.

(** X22.  On a datetime column, time-zone-aware or not, and for each of
    the four units, [unix_timestamp] returns a column with the labels,
    the name and the number of slots of the column: 64-bit floats for
    ["s"], ["ms"] and ["us"], nullable 64-bit integers for ["ns"].  A
    [NaT] slot gives [NaN], and null for ["ns"]. *)
Theorem unix_timestamp_keeps_missing (self : column_object.Series) (σ : store)
    (v : PdSeries) (n : string) (tz : option string) (time_unit : string) :
  view σ (column_object.column self) = Some v →
  pd_name v = Some n →
  pd_dtype v = datetime64 tz →
  time_unit ∈ time_units →
  ∃ σ' s r,
    column_object.unix_timestamp self time_unit σ = (σ', Ok s) ∧
    view σ' (column_object.column s) = Some r ∧
    pd_index r = pd_index v ∧
    pd_name r = Some n ∧
    pd_dtype r = (if String.eqb time_unit "ns" then Int W64 else float64) ∧
    length (pd_values r) = length (pd_values v) ∧
    ∀ i, pd_values v !! i = Some NaT →
         pd_values r !! i = Some (if String.eqb time_unit "ns" then NA else NaN).
Proof.
  intros Hv Hn Hd Hu. unfold column_object.unix_timestamp.
  assert (Htz : Pandas.dt_tz v = Ok tz) by (unfold Pandas.dt_tz; by rewrite Hd).
  rewrite (bind_ok _ _ _ _ _ (get_ok _ _ _ _ _ Hv Htz)).
  destruct (elapsed_slots σ _ v tz Hv Hd) as (σ1 & l1 & E1 & X1 & V1).
  rewrite (bind_ok _ _ _ _ _ E1).
  rewrite (bind_ok _ _ _ _ _ (load_ok _ _ _ V1)).
  rewrite (bind_ok _ _ _ _ _ (name_spec _ _ _ (view_extends _ _ _ _ X1 Hv))).
  rewrite Hn. cbn [pd_values pd_index].
  unfold time_units in Hu. rewrite !elem_of_cons, elem_of_nil in Hu.
  destruct Hu as [->|[->|[->|[->|[]]]]]; cbn [String.eqb Ascii.eqb Bool.eqb];
    match goal with
    | |- ∃ _ _ _, bind (pd.Series ?a ?b _ ?d) _ _ = _ ∧ _ =>
        destruct (series_wrapped self σ1 a b n d) as (σ2 & s & E2 & _ & V2 & _)
    end;
    (exists σ2, s; eexists; split; [exact E2|]; split; [exact V2|];
     cbn [pd_values pd_index pd_name pd_dtype];
     split; [done|]; split; [done|]; split; [done|]; split;
     [slot_count|intros i Hi; slot_lookup Hi]).
Qed.

Lemma unix_timestamp_keeps_missing_witness :
  let σ := one_column [Num on_the_second; NaT] (datetime64 None) in
  ∃ σ' s r,
    column_object.unix_timestamp column_a "ns" σ = (σ', Ok s) ∧
    view σ' (column_object.column s) = Some r ∧
    pd_index r = [0; 1]%Z ∧
    pd_name r = Some "a" ∧
    pd_dtype r = Int W64 ∧
    length (pd_values r) = 2%nat ∧
    ∀ i, [Num on_the_second; NaT] !! i = Some NaT → pd_values r !! i = Some NA.
Proof.
  apply (unix_timestamp_keeps_missing column_a
           (one_column [Num on_the_second; NaT] (datetime64 None))
           (mkPdSeries [Num on_the_second; NaT] [0; 1]%Z (Some "a") (datetime64 None))
           "a" None "ns"); try reflexivity.
  unfold time_units. rewrite !elem_of_cons. tauto.
Defined.

(** ** Reflected operators and boolean combinators *)

Lemma cell_add_comm d x y :
  Pandas.cell_arith d Pandas.ADD x y = Pandas.cell_arith d Pandas.ADD y x.
Proof.
  destruct x as [| | |x|[]], y as [| | |y|[]]; simpl; try done;
    by rewrite Z.add_comm.
Qed.

Lemma cell_mul_comm d x y :
  Pandas.cell_arith d Pandas.MUL x y = Pandas.cell_arith d Pandas.MUL y x.
Proof.
  destruct x as [| | |x|[]], y as [| | |y|[]]; simpl; try done;
    by rewrite Z.mul_comm.
Qed.

Lemma cell_and_comm x y : Pandas.cell_and x y = Pandas.cell_and y x.
Proof.
  destruct x as [| | |x|[]], y as [| | |y|[]]; simpl; try done;
    by rewrite Z.land_comm.
Qed.

Lemma cell_or_comm x y : Pandas.cell_or x y = Pandas.cell_or y x.
Proof.
  destruct x as [| | |x|[]], y as [| | |y|[]]; simpl; try done;
    by rewrite Z.lor_comm.
Qed.

Lemma wider_comm a b : Pandas.wider a b = Pandas.wider b a.
Proof. by destruct a, b. Qed.

Lemma column_family_comm op a b :
  op ≠ Pandas.SUB → Pandas.column_family op a b = Pandas.column_family op b a.
Proof.
  intros Hop. destruct op; [|done|];
    destruct a as [|[]|[]| | |tz|], b as [|[]|[]| | |tz'|]; reflexivity.
Qed.

Lemma logic_dtype_comm v w :
  Pandas.logic_dtype v (Pandas.Column w) = Pandas.logic_dtype w (Pandas.Column v).
Proof.
  unfold Pandas.logic_dtype.
  destruct (decide (pd_dtype v = pd_dtype w)) as [E|E].
  - rewrite decide_True by done. done.
  - rewrite decide_False by done.
    by rewrite (andb_comm (Pandas.is_bool (pd_dtype w))),
      (orb_comm (is_masked (pd_dtype w))).
Qed.

Lemma elementwise_ext f g d v a :
  (∀ x y, f x y = g x y) → Pandas.elementwise f d v a = Pandas.elementwise g d v a.
Proof.
  intros H. unfold Pandas.elementwise.
  destruct (Pandas.broadcast (length (pd_values v)) a) as [ws|e]; [|done]. simpl.
  assert (result_mapM (λ p, f p.1 p.2) (zip (pd_values v) ws)
          = result_mapM (λ p, g p.1 p.2) (zip (pd_values v) ws)) as ->; [|done].
  induction (zip (pd_values v) ws) as [|p l IH]; [done|]. simpl. by rewrite H, IH.
Qed.

Lemma reflected_arithmetic_commutes np op v a :
  op ≠ Pandas.SUB →
  reflected_arithmetic np op v a = Pandas.arithmetic np op v a.
Proof.
  intros Hop. unfold reflected_arithmetic, Pandas.arithmetic.
  assert (reflected_dtype np op v a = Pandas.arith_dtype np op v a) as ->.
  { destruct a as [c|w]; [done|]. unfold reflected_dtype, Pandas.arith_dtype.
    cbn [Pandas.arith_family]. by rewrite (column_family_comm op _ _ Hop). }
  destruct (Pandas.arith_dtype np op v a) as [d|e]; [|done]. simpl.
  apply elementwise_ext. intros x y.
  destruct op; [apply cell_add_comm|done|apply cell_mul_comm].
Qed.

Lemma reflected_and_commutes v a : reflected_and v a = Pandas.and_ v a.
Proof.
  unfold reflected_and, Pandas.and_.
  assert (reflected_dtype_of_logic v a = Pandas.logic_dtype v a) as ->.
  { destruct a as [c|w]; [done|]. simpl. apply (logic_dtype_comm w v). }
  apply elementwise_ext. intros x y. apply cell_and_comm.
Qed.

Lemma reflected_or_commutes v a : reflected_or v a = Pandas.or_ v a.
Proof.
  unfold reflected_or, Pandas.or_.
  assert (reflected_dtype_of_logic v a = Pandas.logic_dtype v a) as ->.
  { destruct a as [c|w]; [done|]. simpl. apply (logic_dtype_comm w v). }
  apply elementwise_ext. intros x y. apply cell_or_comm.
Qed.

Lemma binary_ext f g self other σ :
  (∀ v a, f v a = g v a) →
  column_object.binary f self other σ = column_object.binary g self other σ.
Proof.
  intros H. unfold column_object.binary, bind.
  destruct (column_object.validate_column_comparand self other σ) as [σ1 [o|e]]; [|done].
  unfold pd.call2, bind.
  destruct (load (column_object.column self) σ1) as [σ2 [v|e]]; [|done].
  destruct (pd.load_arg o σ2) as [σ3 [a|e]]; [|done].
  by rewrite H.
Qed.

(** X23.  On the columns of the model (booleans, integers, floats,
    datetimes and timedeltas), the reflected operators that the class
    implements by the forward ones are right: [__radd__], [__rmul__],
    [__rand__] and [__ror__] return, on every operand and in every store,
    what the same method shape returns over pandas' own [other + ser],
    [other * ser], [other & ser] and [other | ser], these operators being
    commutative slot by slot and in the dtype. *)
Theorem reflected_operators_commute `{B : Backend} (self : column_object.Series)
    (other : column_object.comparand) (σ : store) :
  column_object.__radd__ self other σ
  = column_object.binary (reflected_arithmetic bk_numpy Pandas.ADD) self other σ ∧
  column_object.__rmul__ self other σ
  = column_object.binary (reflected_arithmetic bk_numpy Pandas.MUL) self other σ ∧
  column_object.__rand__ self other σ
  = column_object.binary reflected_and self other σ ∧
  column_object.__ror__ self other σ
  = column_object.binary reflected_or self other σ.
Proof.
  unfold column_object.__radd__, column_object.__rmul__, column_object.__rand__,
    column_object.__ror__, column_object.__add__, column_object.__mul__,
    column_object.__and__, column_object.__or__.
  split; [|split; [|split]]; apply binary_ext; intros v a; symmetry.
  - by apply reflected_arithmetic_commutes.
  - by apply reflected_arithmetic_commutes.
  - apply reflected_and_commutes.
  - apply reflected_or_commutes.
Qed.

Lemma zip_replicate {A B} (l : list A) (y : B) :
  zip l (replicate (length l) y) = (λ x, (x, y)) <$> l.
Proof. induction l as [|x l IH]; [done|]. simpl. by rewrite IH. Qed.

Lemma logic_with_boolean (f : cell → cell → result cell) (g : cell → cell) v b :
  (∀ c, fits (pd_dtype v) c = true → f c (Bool b) = Ok (g c)) →
  well_typed v →
  Pandas.elementwise f (Pandas.logic_dtype v (Pandas.Scalar (Bool b))) v
    (Pandas.Scalar (Bool b))
  = Ok (mkPdSeries (g <$> pd_values v) (pd_index v) (pd_name v) (pd_dtype v)).
Proof.
  intros Hf Hwt. unfold Pandas.elementwise. simpl.
  rewrite zip_replicate, result_mapM_map.
  rewrite (result_mapM_Forall_total _ g); [done|].
  eapply Forall_impl; [exact Hwt|]. intros c Hc. by apply Hf.
Qed.

(** X24.  On a well-typed column of booleans, nullable or not, and a
    boolean [b]: [c & False] is false at every slot and [c | True] true at
    every slot, the null ones included; [c & True] and [c | False] are
    the column itself.  The results keep the labels, the name and the
    dtype. *)
Theorem and_or_with_a_boolean (self : column_object.Series) (σ : store)
    (v : PdSeries) (n : string) (b : bool) :
  view σ (column_object.column self) = Some v →
  pd_name v = Some n →
  Pandas.is_bool (pd_dtype v) = true →
  well_typed v →
  ∃ σ1 both σ2 either,
    column_object.__and__ self (column_object.Value (Bool b)) σ = (σ1, Ok both) ∧
    column_object.__or__ self (column_object.Value (Bool b)) σ = (σ2, Ok either) ∧
    view σ1 (column_object.column both)
    = Some (mkPdSeries (if b then pd_values v else (λ _, Bool false) <$> pd_values v)
              (pd_index v) (Some n) (pd_dtype v)) ∧
    view σ2 (column_object.column either)
    = Some (mkPdSeries (if b then (λ _, Bool true) <$> pd_values v else pd_values v)
              (pd_index v) (Some n) (pd_dtype v)).
Proof.
  intros Hv Hn Hd Hwt.
  assert (Hand : Pandas.and_ v (Pandas.Scalar (Bool b))
                 = Ok (mkPdSeries (and_slot b <$> pd_values v) (pd_index v) (pd_name v)
                         (pd_dtype v))).
  { apply logic_with_boolean; [|done]. intros c Hc.
    destruct (pd_dtype v); try discriminate; destruct c as [| | |z|[]], b; try done. }
  assert (Hor : Pandas.or_ v (Pandas.Scalar (Bool b))
                = Ok (mkPdSeries (or_slot b <$> pd_values v) (pd_index v) (pd_name v)
                        (pd_dtype v))).
  { apply logic_with_boolean; [|done]. intros c Hc.
    destruct (pd_dtype v); try discriminate; destruct c as [| | |z|[]], b; try done. }
  destruct (binary_spec _ self (column_object.Value (Bool b)) σ v _ _ n Hv Hn eq_refl Hand)
    as (σ1 & both & E1 & _ & V1 & _).
  destruct (binary_spec _ self (column_object.Value (Bool b)) σ v _ _ n Hv Hn eq_refl Hor)
    as (σ2 & either & E2 & _ & V2 & _).
  exists σ1, both, σ2, either. split; [exact E1|]. split; [exact E2|].
  rewrite V1, V2. simpl. unfold and_slot, or_slot.
  destruct b; by rewrite ?list_fmap_id.
Qed.

Lemma and_or_with_a_boolean_witness :
  let σ := one_column [Bool true; NA; Bool false] boolean in
  ∃ σ1 both σ2 either,
    column_object.__and__ column_a (column_object.Value (Bool false)) σ = (σ1, Ok both) ∧
    column_object.__or__ column_a (column_object.Value (Bool false)) σ = (σ2, Ok either) ∧
    view σ1 (column_object.column both)
    = Some (mkPdSeries [Bool false; Bool false; Bool false] [0; 1; 2]%Z (Some "a")
              boolean) ∧
    view σ2 (column_object.column either)
    = Some (mkPdSeries [Bool true; NA; Bool false] [0; 1; 2]%Z (Some "a") boolean).
Proof.
  apply (and_or_with_a_boolean column_a
           (one_column [Bool true; NA; Bool false] boolean)
           (mkPdSeries [Bool true; NA; Bool false] [0; 1; 2]%Z (Some "a") boolean)
           "a" false); try reflexivity.
  repeat constructor.
Defined.
